(** * Schema unifier and cleaner: a shallow embedding

    The development follows [src/processing/clean_students.py] and
    [src/processing/unify_schema.py].  Text is 8-bit ([string]); the
    functions on text below describe Python's behaviour on ASCII input.
    Numbers are exact rationals: float rounding, overflow and infinite input
    values are outside the model, and the only infinities are the quotients
    by zero that the cleaner replaces by nulls.

    A table is a list of labelled columns, looked up by the first matching
    label.  pandas answers differently when two columns carry one label, so
    the statements about whole tables are made for tables whose columns have
    the length of the index and whose labels stay distinct once trimmed and
    renamed ([table_ok], [batch_ok]).  What pandas itself does on parsing
    numbers and dates is a parameter of the development ([Pandas]); a
    concrete instance ([Reference.lib]) serves for the examples.

    pandas raises on some tables on which the model of the cleaner returns:
    text in a column that is divided or capped without having been coerced
    ([watch_time_sec] given as text), or a column of dtype object that
    holds no text, on which [.str] fails.  What is said of the table that
    the cleaner returns is therefore said of the calls that return.

    Of the loaders and of [save_outputs] the development has what they
    compute from a table: the tag that a loader adds and the entries of the
    summary, one by one.  Reading and writing files is outside it. *)

From Stdlib Require Import ZArith QArith Qround Lia Lqa Ascii String List.
From stdpp Require Import base list strings pretty sorting.

Local Open Scope string_scope.
Local Open Scope Z_scope.

(** ** Python values and exceptions *)

(** A table cell: [Null] stands for NaN, None, NA and NaT alike. *)
Inductive cell :=
| Null
| Num (q : Q)
| Str (s : string)
| Time (t : Z).

(** The exceptions the modelled functions can let escape. *)
Inductive exn := AttributeError.

Inductive result (A : Type) :=
| Ok (a : A)
| Raise (e : exn).
Arguments Ok {A} a.
Arguments Raise {A} e.

Definition rbind {A B} (r : result A) (k : A -> result B) : result B :=
  match r with
  | Ok a => k a
  | Raise e => Raise e
  end.

(** ** Text *)

Module Text.

(** [str.isspace] on ASCII: TAB..CR, FS..US and the blank. *)
Definition py_isspace (c : ascii) : bool :=
  let n := nat_of_ascii c in
  ((9 <=? n)%nat && (n <=? 13)%nat) || ((28 <=? n)%nat && (n <=? 32)%nat).

Definition is_digit (c : ascii) : bool :=
  let n := nat_of_ascii c in (48 <=? n)%nat && (n <=? 57)%nat.

(** The characters on which the functions below are Python's. *)
Definition is_ascii (c : ascii) : bool := (nat_of_ascii c <? 128)%nat.

Definition digit_val (c : ascii) : Z := Z.of_nat (nat_of_ascii c) - 48.

Definition upper_char (c : ascii) : ascii :=
  let n := nat_of_ascii c in
  if (97 <=? n)%nat && (n <=? 122)%nat then ascii_of_nat (n - 32) else c.

Definition lower_char (c : ascii) : ascii :=
  let n := nat_of_ascii c in
  if (65 <=? n)%nat && (n <=? 90)%nat then ascii_of_nat (n + 32) else c.

Fixpoint smap (f : ascii -> ascii) (s : string) : string :=
  match s with
  | EmptyString => EmptyString
  | String c r => String (f c) (smap f r)
  end.

Definition upper : string -> string := smap upper_char.
Definition lower : string -> string := smap lower_char.

Fixpoint lstrip (s : string) : string :=
  match s with
  | EmptyString => EmptyString
  | String c r => if py_isspace c then lstrip r else s
  end.

Fixpoint rstrip (s : string) : string :=
  match s with
  | EmptyString => EmptyString
  | String c r =>
      match rstrip r with
      | EmptyString => if py_isspace c then EmptyString else String c EmptyString
      | r' => String c r'
      end
  end.

Definition strip (s : string) : string := rstrip (lstrip s).

(** [s.split(sep)] for a one-character separator: never the empty list. *)
Fixpoint split (sep : ascii) (s : string) : list string :=
  match s with
  | EmptyString => [EmptyString]
  | String c r =>
      if Ascii.eqb c sep then EmptyString :: split sep r
      else match split sep r with
           | [] => [String c EmptyString]
           | p :: ps => String c p :: ps
           end
  end.

(** [needle in s]. *)
Fixpoint contains (needle s : string) : bool :=
  String.prefix needle s ||
  match s with
  | EmptyString => false
  | String _ r => contains needle r
  end.

(** Every character of [s] passes the test [p]. *)
Fixpoint sall (p : ascii -> bool) (s : string) : bool :=
  match s with
  | EmptyString => true
  | String c r => p c && sall p r
  end.

Definition all_digits : string -> bool := sall is_digit.

(** One digit or more, as [\d+] matches them. *)
Definition is_number (d : string) : bool :=
  all_digits d && negb (String.eqb d "").

(** Value of a digit string read after the digits [acc]. *)
Fixpoint digits_from (acc : Z) (s : string) : Z :=
  match s with
  | EmptyString => acc
  | String c r => digits_from (acc * 10 + digit_val c) r
  end.

Definition digits_value : string -> Z := digits_from 0.

(** The digits of an [int] literal: single underscores may separate digits.
    [None] is Python's ValueError. *)
Fixpoint int_digits (acc : Z) (after_digit : bool) (s : string) : option Z :=
  match s with
  | EmptyString => if after_digit then Some acc else None
  | String c r =>
      if is_digit c then int_digits (acc * 10 + digit_val c) true r
      else if Ascii.eqb c "_" && after_digit then int_digits acc false r
      else None
  end.

(** C's [isspace], by which [int] trims ASCII text: TAB..CR and the blank,
    and not FS..US, which [str.strip] removes. *)
Definition c_isspace (c : ascii) : bool :=
  let n := nat_of_ascii c in
  ((9 <=? n)%nat && (n <=? 13)%nat) || (n =? 32)%nat.

Fixpoint lstrip_c (s : string) : string :=
  match s with
  | EmptyString => EmptyString
  | String c r => if c_isspace c then lstrip_c r else s
  end.

Fixpoint rstrip_c (s : string) : string :=
  match s with
  | EmptyString => EmptyString
  | String c r =>
      match rstrip_c r with
      | EmptyString => if c_isspace c then EmptyString else String c EmptyString
      | r' => String c r'
      end
  end.

Definition strip_c (s : string) : string := rstrip_c (lstrip_c s).

(** [int(s)] in base 10, for a text within the interpreter's limit of 4300
    digits. *)
Definition py_int (s : string) : option Z :=
  match strip_c s with
  | EmptyString => None
  | String c r =>
      if Ascii.eqb c "-" then Z.opp <$> int_digits 0 false r
      else if Ascii.eqb c "+" then int_digits 0 false r
      else int_digits 0 false (String c r)
  end.

(** What follows the prefix [p] in [s], when [s] starts with it. *)
Fixpoint after_prefix (p s : string) : option string :=
  match p, s with
  | EmptyString, _ => Some s
  | String a p', String b s' => if Ascii.eqb a b then after_prefix p' s' else None
  | String _ _, EmptyString => None
  end.

(** Characters that [strip] and [upper] leave alone. *)
Definition plain (c : ascii) : bool :=
  negb (py_isspace c) && Ascii.eqb (upper_char c) c.

(** Longest prefix of digits, and what follows it. *)
Fixpoint take_digits (s : string) : string * string :=
  match s with
  | EmptyString => (EmptyString, EmptyString)
  | String c r =>
      if is_digit c then let '(d, t) := take_digits r in (String c d, t)
      else (EmptyString, s)
  end.

End Text.

(** ** Durations *)

(** One optional group [(?:(\d+)X)?] of the pattern: the digits captured and
    the rest of the text.  The group is skipped where digits followed by the
    letter [X] do not come next; taking fewer digits or skipping a group
    that matches cannot make the rest of the pattern succeed, since the next
    character would be a digit or the letter [X]. *)
Definition re_group (letter : ascii) (s : string) : option string * string :=
  match Text.take_digits s with
  | (String d ds, String c r) =>
      if Ascii.eqb c letter then (Some (String d ds), r) else (None, s)
  | _ => (None, s)
  end.

(** The groups of a match of [^P(?:T(?:(\d+)H)?(?:(\d+)M)?(?:(\d+)S)?)$].
    [$] also accepts one final newline. *)
Record duration_match := {
  g_hours : option string;
  g_minutes : option string;
  g_seconds : option string }.

Definition ISO8601_DURATION_RE (s : string) : option duration_match :=
  match Text.after_prefix "PT" s with
  | Some r =>
      let '(h, r1) := re_group "H" r in
      let '(m, r2) := re_group "M" r1 in
      let '(sec, r3) := re_group "S" r2 in
      if String.eqb r3 "" || String.eqb r3 (String "010" "")
      then Some {| g_hours := h; g_minutes := m; g_seconds := sec |}
      else None
  | None => None
  end.

(** [m.group(name)]: on [m = None] the attribute access raises. *)
Definition group (m : option duration_match)
    (name : duration_match -> option string) : result (option string) :=
  match m with
  | Some g => Ok (name g)
  | None => Raise AttributeError
  end.

(** [int(g or 0)] for a captured group [g]. *)
Definition int_or_0 (g : option string) : Z :=
  match g with
  | Some d => Text.digits_value d
  | None => 0
  end.

(** The [try] block of the fallback: [Some r] when it returns [r] (also from
    the [except] clause), [None] when control leaves it without a return. *)
Definition colon_fallback (s : string) : option (option Z) :=
  match mapM Text.py_int (Text.split ":" s) with
  | None => Some None
  | Some [a; b; c] => Some (Some (a * 3600 + b * 60 + c))
  | Some [a; b] => Some (Some (a * 60 + b))
  | Some [a] => Some (Some a)
  | Some _ => None
  end.

Definition iso8601_duration_to_seconds (v : cell) : result (option Z) :=
  match v with
  | Str s =>
      let s := Text.upper (Text.strip s) in
      let m := ISO8601_DURATION_RE s in
      let tail :=
        rbind (group m g_hours) (fun h =>
        rbind (group m g_minutes) (fun mi =>
        rbind (group m g_seconds) (fun sec =>
        Ok (Some (int_or_0 h * 3600 + int_or_0 mi * 60 + int_or_0 sec))))) in
      match m with
      | None =>
          match colon_fallback s with
          | Some r => Ok r
          | None => tail
          end
      | Some _ => tail
      end
  | _ => Ok None
  end.

(** Well-formed duration texts: [PT], then the components that are given,
    each a number and its letter. *)
Definition part (o : option string) (letter : ascii) : string :=
  match o with
  | Some d => d ++ String letter ""
  | None => ""
  end.

Definition iso_text (h m s : option string) : string :=
  "PT" ++ part h "H" ++ part m "M" ++ part s "S".

Definition opt_number (o : option string) : bool :=
  match o with
  | Some d => Text.is_number d
  | None => true
  end.

(** ** Series: one column of a table *)

Abbreviation column := (list cell).

#[global] Instance Qle_dec : RelDecision Qle.
Proof.
  intros x y. destruct (Qle_bool x y) eqn:E.
  - left. by apply Qle_bool_iff.
  - right. intros H. apply Qle_bool_iff in H. congruence.
Defined.

Definition Qlt_bool (x y : Q) : bool := negb (Qle_bool y x).

(** The outcome of a float division before infinities are replaced. *)
Inductive quotient := Finite (q : Q) | PosInf | NegInf | NaN.

Module Series.

Definition isna (c : cell) : bool :=
  match c with Null => true | _ => false end.
Definition notna (c : cell) : bool := negb (isna c).

Definition isna_all (s : column) : bool := forallb isna s.
Definition notna_any (s : column) : bool := existsb notna s.

(** [s.dropna()] read as numbers. *)
Definition nums (s : column) : list Q :=
  omap (fun c => match c with Num q => Some q | _ => None end) s.

Definition fillna (v : cell) (s : column) : column :=
  map (fun c => if isna c then v else c) s.

(** dtype [object]: what a CSV reader gives a column holding text. *)
Definition is_object (s : column) : bool :=
  existsb (fun c => match c with Str _ => true | _ => false end) s.

(** [s.median(skipna=True)]. *)
Definition median (s : column) : option Q :=
  let v := merge_sort Qle (nums s) in
  let n := length v in
  if Nat.odd n then v !! (n / 2)%nat
  else match v !! (n / 2 - 1)%nat, v !! (n / 2)%nat with
       | Some a, Some b => Some (Qred ((a + b) / 2)%Q)
       | _, _ => None
       end.

(** The value at the fractional rank [h] of the sorted values [v]: linear
    interpolation between the two nearest ranks. *)
Definition at_rank (v : list Q) (d : Q) (h : Q) : Q :=
  let i := Z.to_nat (Qfloor h) in
  let g := (h - inject_Z (Qfloor h))%Q in
  let a := nth i v d in
  let b := nth (Nat.min (i + 1) (length v - 1)) v d in
  (a + (b - a) * g)%Q.

(** [s.quantile(p)]: the rank is [(n - 1) * p]. *)
Definition quantile (p : Q) (s : column) : option Q :=
  let v := merge_sort Qle (nums s) in
  match v with
  | [] => None
  | x0 :: _ =>
      Some (Qred (at_rank v x0 (inject_Z (Z.of_nat (length v) - 1) * p)%Q))
  end.

(** [s.clip(lower, upper)]: nulls stay, the upper bound is tested on the
    original value. *)
Definition clip_cell (low high : Q) (c : cell) : cell :=
  match c with
  | Num q =>
      if Qlt_bool high q then Num high
      else if Qlt_bool q low then Num low
      else Num q
  | _ => c
  end.

Definition clip (low high : Q) (s : column) : column :=
  map (clip_cell low high) s.

(** Element-wise float division. *)
Definition div_cell (a b : cell) : quotient :=
  match a, b with
  | Num x, Num y =>
      if Qeq_bool y 0%Q then
        if Qlt_bool 0%Q x then PosInf
        else if Qlt_bool x 0%Q then NegInf
        else NaN
      else Finite (Qred (x / y)%Q)
  | _, _ => NaN
  end.

(** [.replace([np.inf, -np.inf], np.nan)] on one quotient. *)
Definition replace_inf (r : quotient) : cell :=
  match r with
  | Finite q => Num q
  | PosInf | NegInf | NaN => Null
  end.

Definition div (a b : column) : list quotient := zip_with div_cell a b.

Definition mul (k : Q) (s : column) : column :=
  map (fun c => match c with Num q => Num (Qred (q * k)%Q) | _ => Null end) s.

(** [int(x)] of a float: truncation towards zero. *)
Definition trunc (q : Q) : Z := Z.quot (Qnum q) (Zpos (Qden q)).

(** Equality as [duplicated] sees it: nulls are equal to each other. *)
Definition cell_eqb (a b : cell) : bool :=
  match a, b with
  | Null, Null => true
  | Num x, Num y => Qeq_bool x y
  | Str s, Str t => String.eqb s t
  | Time s, Time t => Z.eqb s t
  | _, _ => false
  end.

End Series.

Definition lower_q : Q := (1 # 100)%Q.
Definition upper_q : Q := (99 # 100)%Q.

Definition cap_outliers_iqr (s : column) (lower_q upper_q : Q) : column :=
  if Series.isna_all s then s
  else match Series.quantile lower_q s, Series.quantile upper_q s with
       | Some low, Some high => Series.clip low high s
       | _, _ => s
       end.

(** ** Tables *)

(** A table: the row labels and the labelled columns, in order. *)
Record frame := {
  index : list nat;
  cols : list (string * column) }.

#[global] Instance frame_inhabited : Inhabited frame :=
  populate {| index := []; cols := [] |}.

(** A row handed to [apply(axis=1)]: its label and its cells by column. *)
Record row := {
  r_name : nat;
  r_cells : list (string * cell) }.

Module Frame.

Definition columns (f : frame) : list string := map fst (cols f).
Definition nrows (f : frame) : nat := length (index f).

Fixpoint assoc {A} (c : string) (l : list (string * A)) : option A :=
  match l with
  | [] => None
  | (k, x) :: r => if String.eqb k c then Some x else assoc c r
  end.

Fixpoint assoc_set {A} (c : string) (v : A) (l : list (string * A)) :
    list (string * A) :=
  match l with
  | [] => [(c, v)]
  | (k, x) :: r =>
      if String.eqb k c then (k, v) :: r else (k, x) :: assoc_set c v r
  end.

Definition mem (c : string) (l : list string) : bool :=
  existsb (String.eqb c) l.

(** [c in df.columns] and [df[c]]. *)
Definition has (c : string) (f : frame) : bool := mem c (columns f).
Definition get (c : string) (f : frame) : option column := assoc c (cols f).

(** [df[c] = s]: in place when the label exists, else a new last column. *)
Definition set (c : string) (s : column) (f : frame) : frame :=
  {| index := index f; cols := assoc_set c s (cols f) |}.

(** [df[c] = v] for a scalar [v]. *)
Definition set_scalar (c : string) (v : cell) (f : frame) : frame :=
  set c (replicate (nrows f) v) f.

(** [df.drop(columns=cs, errors="ignore")]. *)
Definition drop (cs : list string) (f : frame) : frame :=
  {| index := index f;
     cols := List.filter (fun kc => negb (mem (fst kc) cs)) (cols f) |}.

(** [df.columns = [g(c) for c in df.columns]]. *)
Definition relabel (g : string -> string) (f : frame) : frame :=
  {| index := index f; cols := map (fun kc => (g (fst kc), snd kc)) (cols f) |}.

(** [df[names]] for labels that exist. *)
Definition select (names : list string) (f : frame) : frame :=
  {| index := index f;
     cols := omap (fun c => (fun s => (c, s)) <$> get c f) names |}.

(** Rows kept by a boolean mask. *)
Fixpoint mask_list {A} (m : list bool) (l : list A) : list A :=
  match m, l with
  | b :: m', x :: l' => if b then x :: mask_list m' l' else mask_list m' l'
  | _, _ => []
  end.

Definition filter_rows (m : list bool) (f : frame) : frame :=
  {| index := mask_list m (index f);
     cols := map (fun kc => (fst kc, mask_list m (snd kc))) (cols f) |}.

Definition row_at (f : frame) (i : nat) (name : nat) : row :=
  {| r_name := name;
     r_cells := omap (fun kc => (fun x => (fst kc, x)) <$> snd kc !! i) (cols f) |}.

(** The rows in order, as [df.apply(g, axis=1)] visits them. *)
Definition rows (f : frame) : list row := imap (row_at f) (index f).

(** [r.get(c)] and [r.get(c, default)]. *)
Definition r_get (c : string) (r : row) : option cell := assoc c (r_cells r).

Definition apply {A} (g : row -> A) (f : frame) : list A := map g (rows f).

(** Every column is as long as the index. *)
Definition shaped (f : frame) : Prop :=
  Forall (fun kc => length (snd kc) = nrows f) (cols f).

End Frame.

(** ** What the tables library decides

    The conversions below belong to pandas and Python, not to the
    repository; the development holds for any behaviour of them. *)
Class Pandas := {
  (** [str(x)], as [astype(str)] and f-strings produce it *)
  str_of_cell : cell -> string;
  str_of_cell_Str : forall s, str_of_cell (Str s) = s;
  (** [pd.to_numeric] on one text element; [None] when it does not parse *)
  to_numeric_text : string -> option Q;
  (** [pd.to_datetime(s, errors="coerce", utc=utc)] on a column *)
  to_datetime : bool -> column -> column;
  to_datetime_length : forall utc s, length (to_datetime utc s) = length s }.

(** ** The cleaner, step by step *)

Section Cleaner.
Context {lib : Pandas}.

Definition or_null (o : option cell) : cell := default Null o.

(** [pd.to_numeric(s, errors="coerce")]. *)
Definition to_numeric_cell (c : cell) : cell :=
  match c with
  | Str t => match to_numeric_text t with Some q => Num q | None => Null end
  | Time t => Num (inject_Z t)
  | c => c
  end.

Definition to_numeric (s : column) : column := map to_numeric_cell s.

(** [s.replace(",", ".")] and [re.sub(r"[^\d\.\-]", "", s)] on text. *)
Definition replace_commas : string -> string :=
  Text.smap (fun c => if Ascii.eqb c "," then "."%char else c).

Fixpoint keep_numeric_chars (s : string) : string :=
  match s with
  | EmptyString => EmptyString
  | String c r =>
      if Text.is_digit c || Ascii.eqb c "." || Ascii.eqb c "-"
      then String c (keep_numeric_chars r) else keep_numeric_chars r
  end.

(** The [.str] accessor gives a null for an element that is not text. *)
Definition str_op (g : string -> string) (c : cell) : cell :=
  match c with
  | Str t => Str (g t)
  | _ => Null
  end.

Definition coerce_numeric_series (s : column) : column :=
  let s :=
    if Series.is_object s
    then map (str_op keep_numeric_chars) (map (str_op replace_commas) s)
    else s in
  to_numeric s.

(** 1) Drop obvious metadata columns. *)
Definition cols_to_drop (f : frame) : list string :=
  List.filter
    (fun c => Text.contains "_source_file" c || Text.contains "metadata" (Text.lower c))
    (Frame.columns f).

Definition drop_metadata (f : frame) : frame :=
  match cols_to_drop f with
  | [] => f
  | cs => Frame.drop cs f
  end.

(** 2) Strip column names. *)
Definition strip_columns : frame -> frame := Frame.relabel Text.strip.

(** 3) Normalize gender. *)
Definition gender_mapping : list (string * string) :=
  [ ("f", "female"); ("female", "female"); ("woman", "female");
    ("femme", "female"); ("m", "male"); ("male", "male"); ("man", "male");
    ("homme", "male"); ("0", "unknown"); ("1", "unknown"); ("nan", "unknown") ].

(** [s.map(mapping)]: a key that is absent gives a null. *)
Definition map_dict (mapping : list (string * string)) (c : cell) : cell :=
  match c with
  | Str k => match Frame.assoc k mapping with Some v => Str v | None => Null end
  | _ => Null
  end.

Definition normalize_gender_series (s : column) : column :=
  Series.fillna (Str "unknown")
    (map (fun c =>
            map_dict gender_mapping
              (Str (Text.strip (Text.lower (str_of_cell c))))) s).

Definition normalize_gender (f : frame) : frame :=
  match Frame.get "student_gender" f with
  | Some s => Frame.set "student_gender" (normalize_gender_series s) f
  | None => Frame.set_scalar "student_gender" (Str "unknown") f
  end.

(** 4) Coerce numeric columns. *)
Definition numeric_candidates : list string :=
  [ "watch_time"; "duration_sec"; "duration"; "views"; "engagement";
    "student_age"; "hours_studied"; "assignments_completed"; "participation" ].

Definition on_column (g : column -> column) (f : frame) (c : string) : frame :=
  match Frame.get c f with
  | Some s => Frame.set c (g s) f
  | None => f
  end.

Definition coerce_candidates (f : frame) : frame :=
  fold_left (on_column coerce_numeric_series) numeric_candidates f.

(** 5) Duration strings: [duration_sec] is filled from [duration] where it
    is null.  The row function can raise what the parser raises. *)
Definition duration_of_row (r : row) : result cell :=
  if Series.notna (or_null (Frame.r_get "duration_sec" r))
  then Ok (or_null (Frame.r_get "duration_sec" r))
  else rbind (iso8601_duration_to_seconds (or_null (Frame.r_get "duration" r)))
         (fun o => Ok (match o with Some z => Num (inject_Z z) | None => Null end)).

Fixpoint rmapM {A B} (g : A -> result B) (l : list A) : result (list B) :=
  match l with
  | [] => Ok []
  | x :: r => rbind (g x) (fun y => rbind (rmapM g r) (fun ys => Ok (y :: ys)))
  end.

Definition fill_duration (f : frame) : result frame :=
  match Frame.get "duration" f with
  | Some d =>
      if Series.notna_any d
      then rbind (rmapM duration_of_row (Frame.rows f))
             (fun s => Ok (Frame.set "duration_sec" s f))
      else Ok f
  | None => Ok f
  end.

Definition duration_sec_numeric (f : frame) : frame :=
  on_column to_numeric f "duration_sec".

(** 6) Watch-time units: minutes when the median is small. *)
Definition median_is_minutes (median_watch : option Q) : bool :=
  match median_watch with
  | Some m => Qlt_bool 0 m && Qlt_bool m 100
  | None => false
  end.

Definition watch_time_sec_of (w : column) : column :=
  if median_is_minutes (Series.median w) then Series.mul 60 w else w.

Definition normalize_watch_time (f : frame) : frame :=
  match Frame.get "watch_time" f with
  | Some w => Frame.set "watch_time_sec" (watch_time_sec_of w) f
  | None => f
  end.

(** 7) Timestamps. *)
Definition parse_timestamp (f : frame) : frame :=
  match Frame.get "timestamp" f with
  | Some s => Frame.set "timestamp" (to_datetime true s) f
  | None =>
      match Frame.get "published_at" f with
      | Some s => Frame.set "timestamp" (to_datetime true s) f
      | None => Frame.set_scalar "timestamp" Null f
      end
  end.

(** 8) Synthetic student ids: [f"{r.get('source_file','unknown')}_{r.name}"]. *)
Definition synthetic_id (r : row) : cell :=
  let src := match Frame.r_get "source_file" r with
             | Some c => str_of_cell c
             | None => "unknown"
             end in
  Str (src ++ "_" ++ pretty (r_name r)).

Definition needs_student_id (f : frame) : bool :=
  match Frame.get "student_id" f with
  | Some s => Series.isna_all s
  | None => true
  end.

Definition create_student_id (f : frame) : frame :=
  if needs_student_id f
  then Frame.set "student_id" (Frame.apply synthetic_id f) f
  else f.

(** 9) Feature engineering. *)
Definition rate (a b : column) : column :=
  map Series.replace_inf (Series.div a b).

Definition completion_rate (f : frame) : frame :=
  let f := Frame.set_scalar "completion_rate" Null f in
  match Frame.get "watch_time_sec" f, Frame.get "duration_sec" f with
  | Some w, Some d => Frame.set "completion_rate" (rate w d) f
  | _, _ => f
  end.

Definition engagement_rate (f : frame) : frame :=
  match Frame.get "engagement" f, Frame.get "duration_sec" f with
  | Some e, Some d => Frame.set "engagement_rate" (rate e d) f
  | Some e, None => Frame.set "engagement_rate" e f
  | None, _ => f
  end.

Definition flag (test : Q -> bool) (c : cell) : cell :=
  match c with
  | Num q => if test q then Num 1 else Num 0
  | _ => Num 0
  end.

Definition is_engaged (f : frame) : frame :=
  match Frame.get "participation" f with
  | Some p =>
      Frame.set "is_engaged"
        (map (flag (fun x => Qlt_bool 0 x)) (Series.fillna (Num 0) p)) f
  | None =>
      Frame.set "is_engaged"
        (map (flag (fun x => Qle_bool (1 # 2) x))
           (Series.fillna (Num 0)
              (default [] (Frame.get "completion_rate" f)))) f
  end.

(** Nanoseconds since the epoch, a Thursday, to hour and weekday. *)
Definition dt_hour (c : cell) : cell :=
  match c with
  | Time t => Num (inject_Z ((t / 3600000000000) mod 24))
  | _ => Null
  end.

Definition dt_weekday (c : cell) : cell :=
  match c with
  | Time t => Num (inject_Z ((t / 86400000000000 + 3) mod 7))
  | _ => Null
  end.

Definition timestamp_features (f : frame) : frame :=
  let ts := default [] (Frame.get "timestamp" f) in
  let f := Frame.set "hour" (map dt_hour ts) f in
  Frame.set "weekday" (map dt_weekday ts) f.

(** 10) Remove duplicates on the key columns that exist. *)
Definition key_cols (f : frame) : list string :=
  List.filter (fun c => Frame.has c f) ["student_id"; "course_name"; "timestamp"].

Definition key_eqb (a b : list cell) : bool :=
  (length a =? length b)%nat && forallb id (zip_with Series.cell_eqb a b).

Definition row_key (cs : list string) (r : row) : list cell :=
  map (fun c => or_null (Frame.r_get c r)) cs.

(** [duplicated(keep="first")]: an earlier row has the same key. *)
Definition duplicated (ks : list (list cell)) : list bool :=
  imap (fun i k => existsb (key_eqb k) (take i ks)) ks.

Definition drop_duplicates (cs : list string) (f : frame) : frame :=
  Frame.filter_rows (map negb (duplicated (Frame.apply (row_key cs) f))) f.

Definition remove_duplicates (f : frame) : frame :=
  match key_cols f with
  | [] => f
  | cs => drop_duplicates cs f
  end.

(** 11) Cap outliers. *)
Definition capped_columns : list string :=
  ["watch_time_sec"; "duration_sec"; "views"].

Definition cap_columns (f : frame) : frame :=
  fold_left (on_column (fun s => cap_outliers_iqr s lower_q upper_q))
    capped_columns f.

(** 12) Missing values. *)
Definition fill_student_age (f : frame) : frame :=
  match Frame.get "student_age" f with
  | Some a =>
      let median_age :=
        if Series.notna_any a then Series.trunc <$> Series.median a else None in
      match median_age with
      | Some m => Frame.set "student_age" (Series.fillna (Num (inject_Z m)) a) f
      | None => f
      end
  | None => f
  end.

Definition fill_gender (f : frame) : frame :=
  on_column (Series.fillna (Str "unknown")) f "student_gender".

Definition numeric_fill_zero : list string :=
  ["watch_time_sec"; "duration_sec"; "views"; "engagement"].

Definition fill_zero (f : frame) : frame :=
  fold_left (on_column (Series.fillna (Num 0))) numeric_fill_zero f.

(** The tables the cleaner is modelled on: columns as long as the index,
    and labels that are distinct once trimmed. *)
Definition table_ok (f : frame) : Prop :=
  Frame.shaped f /\ NoDup (Frame.columns (strip_columns (drop_metadata f))).

(** The three values a normalized gender can take. *)
Definition is_gender (c : cell) : Prop :=
  c = Str "female" \/ c = Str "male" \/ c = Str "unknown".

(** A cell of a numeric column: a number or a null. *)
Definition numeric (c : cell) : Prop :=
  match c with
  | Null | Num _ => True
  | _ => False
  end.

(** The table as it stands when duplicates have been removed, before
    capping and filling. *)
Definition clean_until_dedup (f : frame) : result frame :=
  let f := drop_metadata f in
  let f := strip_columns f in
  let f := normalize_gender f in
  let f := coerce_candidates f in
  rbind (fill_duration f) (fun f =>
  let f := duration_sec_numeric f in
  let f := normalize_watch_time f in
  let f := parse_timestamp f in
  let f := create_student_id f in
  let f := completion_rate f in
  let f := engagement_rate f in
  let f := is_engaged f in
  let f := timestamp_features f in
  Ok (remove_duplicates f)).

Definition finish (f : frame) : frame :=
  fill_zero (fill_gender (fill_student_age (cap_columns f))).

(** What [clean_dataframe] computes from the table it is given. *)
Definition clean_frame (f : frame) : result frame :=
  rbind (clean_until_dedup f) (fun f => Ok (finish f)).

End Cleaner.

(** ** The unifier, step by step *)

Section Unifier.
Context {lib : Pandas}.

(** [{c.lower(): c for c in df.columns}]: a later column wins. *)
Definition cols_low (f : frame) : list (string * string) :=
  fold_left (fun d c => Frame.assoc_set (Text.lower c) c d) (Frame.columns f) [].

Fixpoint find_column (low : list (string * string)) (variants : list string) :
    option string :=
  match variants with
  | [] => None
  | v :: r =>
      match Frame.assoc (Text.lower v) low with
      | Some c => Some c
      | None => find_column low r
      end
  end.

(** The alias lists in the order the code tries them, with their target. *)
Definition alias_table : list (list string * string) :=
  [ (["student_id"; "user_id"; "id"; "student"], "student_id");
    (["gender"; "sex"; "student_gender"], "student_gender");
    (["age"; "student_age"; "years"], "student_age");
    (["course_id"; "course"; "course_name"; "title"], "course_name");
    (["watch_time"; "watch_seconds"; "watch_minutes"; "watch"], "watch_time");
    (["views"; "view_count"], "views");
    (["duration"; "duration_sec"; "duration_seconds"], "duration_sec");
    (["engagement"; "engagement_score"; "engagement_rate"], "engagement");
    (["timestamp"; "time"; "published_at"; "date"; "datetime"], "timestamp") ].

(** [if col: mapping[col] = name]: an empty label is falsy. *)
Definition add_alias (low : list (string * string))
    (mapping : list (string * string)) (entry : list string * string) :
    list (string * string) :=
  match find_column low (fst entry) with
  | Some (String c r) => Frame.assoc_set (String c r) (snd entry) mapping
  | _ => mapping
  end.

Definition build_mapping (f : frame) : list (string * string) :=
  fold_left (add_alias (cols_low f)) alias_table [].

(** [df.rename(columns=mapping)]. *)
Definition rename (mapping : list (string * string)) : frame -> frame :=
  Frame.relabel (fun c => default c (Frame.assoc c mapping)).

Definition apply_mapping (f : frame) : frame :=
  match build_mapping f with
  | [] => f
  | mapping => rename mapping f
  end.

Definition required : list string :=
  [ "student_id"; "student_gender"; "student_age"; "course_name";
    "watch_time"; "duration_sec"; "engagement"; "timestamp" ].

Definition add_required (f : frame) : frame :=
  fold_left
    (fun f c => if Frame.has c f then f else Frame.set_scalar c Null f)
    required f.

Definition unify_numeric (f : frame) : frame :=
  fold_left (on_column to_numeric)
    ["watch_time"; "duration_sec"; "engagement"; "student_age"; "views"] f.

Definition unify_timestamp (f : frame) : frame :=
  on_column (to_datetime false) f "timestamp".

(** [df["_source_file"]] when the loader tagged the batch, else
    [df.get("source", pd.NA)]. *)
Definition add_source_file (f : frame) : frame :=
  match Frame.get "_source_file" f with
  | Some s => Frame.set "source_file" s f
  | None =>
      match Frame.get "source" f with
      | Some s => Frame.set "source_file" s f
      | None => Frame.set_scalar "source_file" Null f
      end
  end.

Definition ensure_student_id (f : frame) : frame :=
  match Frame.get "student_id" f with
  | Some s =>
      if Series.isna_all s
      then Frame.set "student_id" (Frame.apply synthetic_id f) f
      else f
  | None => f
  end.

(** [list(dict.fromkeys(l))]. *)
Fixpoint uniq (l : list string) : list string :=
  match l with
  | [] => []
  | x :: r => x :: List.filter (fun y => negb (String.eqb x y)) (uniq r)
  end.

Definition keep : list string :=
  uniq (required ++ ["student_id"; "source_file"; "views"]).

Definition reorder (f : frame) : frame :=
  let existing_keep := List.filter (fun c => Frame.has c f) keep in
  Frame.select
    (existing_keep ++
     List.filter (fun c => negb (Frame.mem c existing_keep)) (Frame.columns f))
    f.

(** The batches the unifier is modelled on: columns as long as the index,
    and labels that are distinct once trimmed and renamed. *)
Definition batch_ok (f : frame) : Prop :=
  Frame.shaped f /\ NoDup (Frame.columns (apply_mapping (strip_columns f))).

(** The table as it stands once the columns are renamed and completed,
    before ids are synthesized. *)
Definition mapped (f : frame) : frame :=
  add_source_file
    (unify_timestamp
       (unify_numeric (add_required (apply_mapping (strip_columns f))))).

(** What [unify_columns] computes from the batch it is given. *)
Definition unify_frame (f : frame) : frame :=
  reorder (ensure_student_id (mapped f)).

End Unifier.

(** ** Tables as objects

    A [DataFrame] is an object behind a reference: assignments into it are
    seen through every reference to it.  The store holds the tables made so
    far; a new table goes to the end. *)

Abbreviation loc := nat.
Abbreviation store := (list frame).
Definition M (A : Type) : Type := store -> result A * store.

#[global] Instance M_ret : MRet M := fun A a h => (Ok a, h).
#[global] Instance M_bind : MBind M := fun A B k m h =>
  match m h with
  | (Ok a, h') => k a h'
  | (Raise e, h') => (Raise e, h')
  end.

Module Store.

Definition read (l : loc) : M frame := fun h => (Ok (h !!! l), h).

(** A new object. *)
Definition alloc (f : frame) : M loc := fun h => (Ok (length h), (h ++ [f])%list).

(** [df.copy()]. *)
Definition copy (l : loc) : M loc := fun h => alloc (h !!! l) h.

(** Statements that assign into the table at [l]. *)
Definition update (l : loc) (g : frame -> frame) : M unit :=
  fun h => (Ok (), <[l := g (h !!! l)]> h).

(** The same for statements that can raise: nothing is assigned then. *)
Definition update_r (l : loc) (g : frame -> result frame) : M unit :=
  fun h =>
    match g (h !!! l) with
    | Ok f => (Ok (), <[l := f]> h)
    | Raise e => (Raise e, h)
    end.

End Store.

Section Programs.
Context {lib : Pandas}.

Definition clean_dataframe (df : loc) : M loc :=
  df ← Store.copy df;
  f ← Store.read df;
  df ← match cols_to_drop f with
       | [] => mret df
       | cs => Store.alloc (Frame.drop cs f)
       end;
  Store.update df strip_columns;;
  Store.update df normalize_gender;;
  Store.update df coerce_candidates;;
  Store.update_r df fill_duration;;
  Store.update df duration_sec_numeric;;
  Store.update df normalize_watch_time;;
  Store.update df parse_timestamp;;
  Store.update df create_student_id;;
  Store.update df completion_rate;;
  Store.update df engagement_rate;;
  Store.update df is_engaged;;
  Store.update df timestamp_features;;
  f ← Store.read df;
  df ← match key_cols f with
       | [] => mret df
       | cs => Store.alloc (drop_duplicates cs f)
       end;
  Store.update df cap_columns;;
  Store.update df fill_student_age;;
  Store.update df fill_gender;;
  Store.update df fill_zero;;
  mret df.

Definition unify_columns (df : loc) : M loc :=
  df ← Store.copy df;
  Store.update df strip_columns;;
  f ← Store.read df;
  df ← match build_mapping f with
       | [] => mret df
       | mapping => Store.alloc (rename mapping f)
       end;
  Store.update df add_required;;
  Store.update df unify_numeric;;
  Store.update df unify_timestamp;;
  Store.update df add_source_file;;
  Store.update df ensure_student_id;;
  f ← Store.read df;
  Store.alloc (reorder f).

(** A call [clean_dataframe(df)] on a table that holds [f] returns a table
    that holds [f']. *)
Definition cleans_to (f f' : frame) : Prop :=
  exists (h : store) (l l' : loc),
    h !! l = Some f /\
    fst (clean_dataframe l h) = Ok l' /\
    snd (clean_dataframe l h) !! l' = Some f'.

End Programs.

(** ** A reference instance of the library

    Text is rendered as it is and a null as ["nan"]; numbers print as
    integers or as fractions, decimal text parses exactly, and no text is
    read as a date.  It serves to run the model on concrete tables. *)

Module Reference.

Definition render (c : cell) : string :=
  match c with
  | Null => "nan"
  | Str s => s
  | Num q =>
      if Pos.eqb (Qden q) 1 then pretty (Qnum q)
      else pretty (Qnum q) ++ "/" ++ pretty (Zpos (Qden q))
  | Time t => pretty t
  end.

Definition signed (neg : bool) (q : Q) : Q := if neg then Qopp q else q.

Definition parse_decimal (s : string) : option Q :=
  let s := Text.strip s in
  let '(neg, body) :=
    match s with
    | String "-" r => (true, r)
    | String "+" r => (false, r)
    | _ => (false, s)
    end in
  let '(ip, rest) := Text.take_digits body in
  match ip, rest with
  | String _ _, EmptyString => Some (signed neg (inject_Z (Text.digits_value ip)))
  | _, String "." fr =>
      if Text.all_digits fr && negb (String.eqb (ip ++ fr) "")
      then Some (signed neg
                   (Qred (Qmake (Text.digits_value (ip ++ fr))
                            (Z.to_pos (10 ^ Z.of_nat (String.length fr))))))
      else None
  | _, _ => None
  end.

Definition keep_times (utc : bool) (s : column) : column :=
  map (fun c => match c with Time t => Time t | _ => Null end) s.

#[global] Instance lib : Pandas := {|
  str_of_cell := render;
  str_of_cell_Str := fun s => eq_refl;
  to_numeric_text := parse_decimal;
  to_datetime := keep_times;
  to_datetime_length := fun utc s => length_map _ s |}.

End Reference.

(** ** Labels

    The columns that [clean_dataframe] writes by name, in the order of the
    first assignment. *)
Definition derived_columns : list string :=
  [ "student_gender"; "duration_sec"; "watch_time_sec"; "timestamp";
    "student_id"; "completion_rate"; "engagement_rate"; "is_engaged";
    "hour"; "weekday" ].

(** The two values of a flag column. *)
Definition is_flag (c : cell) : Prop := c = Num 0 \/ c = Num 1.

(** The columns that [unify_columns] converts to numbers. *)
Definition unified_numeric : list string :=
  ["watch_time"; "duration_sec"; "engagement"; "student_age"; "views"].

(** The canonical columns that the unifier leaves null when the batch has
    no column for them. *)
Definition nullable_required : list string :=
  [ "student_gender"; "student_age"; "course_name"; "watch_time";
    "duration_sec"; "engagement" ].

(** A label that some alias list would match, whatever its letter case. *)
Definition alias_variant (c : string) : bool :=
  existsb
    (fun e => existsb (fun v => String.eqb (Text.lower c) (Text.lower v)) (fst e))
    alias_table.

(** ** Loading

    What the three loaders do to the table they read: they tag it with the
    name of the file ([df["_source_file"] = f.name]). *)
Definition tag_source (name : string) (f : frame) : frame :=
  Frame.set_scalar "_source_file" (Str name) f.

(** ** Reporting

    The entries of the summary that [save_outputs] computes from the
    cleaned table. *)

(** What [int] raises on a NaN. *)
Inductive value_error : Set := ValueError.

Module Stats.

(** The values of a column, each once, in the order of first occurrence. *)
Fixpoint distinct (l : column) : column :=
  match l with
  | [] => []
  | x :: r => x :: List.filter (fun y => negb (Series.cell_eqb x y)) (distinct r)
  end.

(** [s.nunique()]: nulls are not counted. *)
Definition nunique (s : column) : nat :=
  length (distinct (List.filter Series.notna s)).


(** [int(x)] for a float [x]: a NaN raises. *)
Definition int_of_float (x : option Q) : value_error + Z :=
  match x with
  | Some q => inr (Series.trunc q)
  | None => inl ValueError
  end.

End Stats.

Definition kpi_rows (f : frame) : nat := Frame.nrows f.

Definition kpi_unique_students (f : frame) : option nat :=
  Stats.nunique <$> Frame.get "student_id" f.


Definition kpi_median_age (f : frame) : value_error + option Z :=
  match Frame.get "student_age" f with
  | Some a =>
      match Stats.int_of_float (Series.median a) with
      | inr z => inr (Some z)
      | inl e => inl e
      end
  | None => inr None
  end.

(** The courses with the most views:
    [df.groupby("course_name")["views"].sum().sort_values(ascending=False)
    .head(10).to_dict()].  Rows without a course are left out and a null
    adds nothing to a sum.  The order that [sort_values] gives to equal
    sums is the library's: the sort is a parameter. *)
Definition group_sum (keys vals : column) (k : cell) : Q :=
  Qred (fold_right Qplus 0%Q
          (omap (fun kv => if Series.cell_eqb k (fst kv)
                           then match snd kv with Num q => Some q | _ => None end
                           else None)
                (zip keys vals))).

Definition groupby_sum (keys vals : column) : list (cell * Q) :=
  map (fun k => (k, group_sum keys vals k))
    (Stats.distinct (List.filter Series.notna keys)).

Definition kpi_top_courses (sort_values : list (cell * Q) -> list (cell * Q))
    (f : frame) : list (cell * Q) :=
  match Frame.get "course_name" f, Frame.get "views" f with
  | Some c, Some v => take 10 (sort_values (groupby_sum c v))
  | _, _ => []
  end.

(** Larger totals first. *)
Definition more_views (x y : cell * Q) : Prop := (snd y <= snd x)%Q.

#[global] Instance more_views_dec : RelDecision more_views.
Proof. intros x y. unfold more_views. apply Qle_dec. Defined.

(** One sort that [sort_values] can be: a merge sort. *)
Definition sort_by_views : list (cell * Q) -> list (cell * Q) :=
  merge_sort more_views.

(** ** The unifier's entry point

    What [main] of the unifier computes from the tables that the loaders
    return: the unified batches, their concatenation and the row counts it
    prints.  [None] stands for [sys.exit(1)].

    [main] calls [unify_columns] under [try]: a batch on which it raises is
    logged and left out.  [unify_frame] describes the batches on which it
    returns, those of [batch_ok], and the statements about [unify_main]
    are made for such batches.

    The cells of a table are scalars here, so what pandas finds in a
    nested [items] column is a parameter: [nested y] is the test
    [isinstance(youtube_df.loc[0, "items"], (list, dict))] where the row
    labelled 0 exists, and [normalize y] is
    [pd.json_normalize(youtube_df["items"].explode())], [None] when it
    raises. *)
Record stats := {
  kaggle_rows : nat;
  simulated_rows : nat;
  youtube_rows : nat }.

(** [pd.concat(frames, ignore_index=True, sort=False)] for frames with
    distinct labels: the labels in the order of their first occurrence,
    nulls where a frame lacks a column, rows numbered from 0. *)
Definition union_columns (fs : list frame) : list string :=
  uniq (flat_map Frame.columns fs).

Definition concat (fs : list frame) : frame :=
  {| index := seq 0 (sum_list (map Frame.nrows fs));
     cols :=
       map (fun c =>
              (c, flat_map
                    (fun f => default (replicate (Frame.nrows f) Null)
                                (Frame.get c f)) fs))
           (union_columns fs) |}.

Section Main.
Context {lib : Pandas}.
Variable nested : frame -> bool.
Variable normalize : frame -> option frame.

(** The table that is unified for YouTube, [None] when the lookup of the
    row labelled 0 raises and the batch is skipped.  When the flattening
    raises, the table stays as it was loaded. *)
Definition youtube_batch (y : frame) : option frame :=
  if Frame.has "items" y then
    if existsb (Nat.eqb 0) (index y) then
      if nested y then Some (default y (normalize y)) else Some y
    else None
  else Some y.

Definition unify_main (kaggle : list frame) (simulated youtube : option frame) :
    option (frame * stats) :=
  let ks := map unify_frame kaggle in
  let s := unify_frame <$> simulated in
  let y := unify_frame <$> (youtube ≫= youtube_batch) in
  match (ks ++ option_list s ++ option_list y)%list with
  | [] => None
  | all_frames =>
      Some (concat all_frames,
            {| kaggle_rows := sum_list (map Frame.nrows ks);
               simulated_rows := from_option Frame.nrows 0%nat s;
               youtube_rows := from_option Frame.nrows 0%nat y |})
  end.

End Main.

(** ** Sample tables *)

Definition gender_rows : frame :=
  {| index := [0; 1; 2]%nat;
     cols := [("student_gender", [Str "F"; Str " Homme"; Str "x"])] |}.

Definition minutes_table : frame :=
  {| index := [0; 1; 2]%nat;
     cols := [("watch_time", [Num 30; Num 45; Num 60])] |}.

Definition rates_table : frame :=
  {| index := [0; 1]%nat;
     cols := [("watch_time_sec", [Num 10; Num 5]);
              ("duration_sec", [Num 0; Num 2])] |}.

(** C2 as the specification words it for the table the cleaner returns:
    when the median of [watch_time] is positive and below 100,
    [watch_time_sec] is [watch_time * 60] in every row. *)
Definition watch_time_times_60 `{Pandas} : Prop :=
  forall f f' w w' s' m i q,
    table_ok f -> Frame.get "watch_time" f = Some w ->
    Series.median w = Some m -> (0 < m)%Q -> (m < 100)%Q ->
    cleans_to f f' ->
    Frame.get "watch_time" f' = Some w' ->
    Frame.get "watch_time_sec" f' = Some s' ->
    w' !! i = Some (Num q) ->
    exists q', s' !! i = Some (Num q') /\ (q' == q * 60)%Q.

(** C8 as the specification words it: in every row of the table the
    cleaner returns, [completion_rate] is [watch_time_sec / duration_sec]. *)
Definition rate_of_returned_columns `{Pandas} : Prop :=
  forall f f' w d r i p q,
    table_ok f -> cleans_to f f' ->
    Frame.get "watch_time_sec" f' = Some w ->
    Frame.get "duration_sec" f' = Some d ->
    Frame.get "completion_rate" f' = Some r ->
    w !! i = Some (Num p) -> d !! i = Some (Num q) -> ~ (q == 0)%Q ->
    exists c, r !! i = Some (Num c) /\ (c == p / q)%Q.

(** C3 as the specification words it: a row with a null in a key column
    is never removed. *)
Definition has_null_key (f : frame) (i : nat) : Prop :=
  exists c, c ∈ key_cols f /\ Frame.get c f ≫= (fun s => s !! i) = Some Null.

Definition null_keys_exempt : Prop :=
  forall f i n,
    Frame.shaped f -> NoDup (Frame.columns f) ->
    index f !! i = Some n -> has_null_key f i ->
    n ∈ index (remove_duplicates f).

Definition dup_nulls : frame :=
  {| index := [0; 1]%nat;
     cols := [("student_id", [Str "a"; Str "a"]);
              ("course_name", [Null; Null]);
              ("timestamp", [Null; Null])] |}.

(** C6 as the specification words it: in the output every value of a
    capped column lies between the two percentiles of the column before
    capping. *)
Definition in_range (low high : Q) (c : cell) : Prop :=
  exists q, c = Num q /\ (low <= q)%Q /\ (q <= high)%Q.

Definition capped_within_percentiles `{Pandas} : Prop :=
  forall f g c s s' low high,
    table_ok f -> clean_until_dedup f = Ok g -> c ∈ capped_columns ->
    Frame.get c g = Some s -> Frame.get c (finish g) = Some s' ->
    Series.quantile lower_q s = Some low ->
    Series.quantile upper_q s = Some high ->
    Forall (in_range low high) s'.

Definition sparse_views : frame :=
  {| index := [0; 1; 2]%nat;
     cols := [("student_id", [Str "a"; Str "b"; Str "c"]);
              ("views", [Num 10; Num 20; Null])] |}.

(** C1 as the specification words it: no row of the unified batch has a
    null [student_id] or [source_file]. *)
Definition not_null (c : cell) : Prop := c <> Null.

Definition ids_never_null `{Pandas} : Prop :=
  forall f sid src,
    batch_ok f ->
    Frame.get "student_id" (unify_frame f) = Some sid ->
    Frame.get "source_file" (unify_frame f) = Some src ->
    Forall not_null sid /\ Forall not_null src.

Definition partial_ids : frame :=
  {| index := [0; 1]%nat;
     cols := [("student_id", [Str "s1"; Null]);
              ("_source_file", [Str "a.csv"; Str "a.csv"])] |}.

Definition no_ids : frame :=
  {| index := [0; 1]%nat;
     cols := [("name", [Str "x"; Str "y"]);
              ("_source_file", [Str "a.csv"; Str "a.csv"])] |}.

(** A batch that no loader tagged, with a column named [source]. *)
Definition sourced : frame :=
  {| index := [0; 1]%nat;
     cols := [("name", [Str "x"; Str "y"]);
              ("source", [Str "web"; Str "app"])] |}.

(** C9 as the specification words it: cleaning the output of the cleaner
    gives that output again. *)
Definition clean_idempotent `{Pandas} : Prop :=
  forall u f',
    batch_ok u ->
    clean_frame (unify_frame u) = Ok f' -> clean_frame f' = Ok f'.

Definition two_views : frame :=
  {| index := [0; 1]%nat;
     cols := [("id", [Str "a"; Str "b"]);
              ("views", [Num 0; Num 100]);
              ("_source_file", [Str "a.csv"; Str "a.csv"])] |}.

(** Position in the list of the [j]-th element that the mask keeps. *)
Fixpoint nth_true (m : list bool) (j : nat) : option nat :=
  match m with
  | [] => None
  | true :: m' =>
      match j with
      | O => Some O
      | S j' => S <$> nth_true m' j'
      end
  | false :: m' => S <$> nth_true m' j
  end.

(** ** More sample tables *)

(** A batch as a loader leaves it, with a label to trim and metadata. *)
Definition tagged_rows : frame :=
  {| index := [0; 1]%nat;
     cols := [(" name ", [Str "x"; Str "y"]);
              ("Video_Metadata", [Str "m"; Null]);
              ("_source_file", [Str "a.csv"; Str "a.csv"])] |}.

Definition participation_rows : frame :=
  {| index := [0; 1; 2]%nat;
     cols := [("participation", [Num 40; Null; Num 0])] |}.

Definition ages : frame :=
  {| index := [0; 1; 2; 3]%nat;
     cols := [("student_age", [Num 20; Null; Num 21; Num 30])] |}.

(** A batch of videos with ISO durations and no [duration_sec]. *)
Definition video_rows : frame :=
  {| index := [0; 1]%nat;
     cols := [("title", [Str "a"; Str "b"]);
              ("duration", [Str "PT1H2M3S"; Str "PT45S"])] |}.

Definition mixed_case : frame :=
  {| index := [0]%nat;
     cols := [("ID", [Str "7"]); ("User_Id", [Str "u"]); ("Sex", [Str "F"]);
              ("Views", [Str "12"])] |}.

Definition people : frame :=
  {| index := [0; 1]%nat;
     cols := [("Sex", [Str "F"; Str "M"]); ("City", [Str "x"; Str "y"])] |}.

Definition no_ages : frame :=
  {| index := [0; 1]%nat;
     cols := [("student_id", [Str "a"; Str "b"]);
              ("student_age", [Null; Null])] |}.

Definition repeated_ids : frame :=
  {| index := [0; 1; 2; 3]%nat;
     cols := [("student_id", [Str "a"; Null; Str "b"; Str "a"])] |}.

Definition visits : frame :=
  {| index := [0; 1; 2]%nat;
     cols := [("course_name", [Str "c"; Str "c"; Str "c"]);
              ("source_file", [Str "a.csv"; Str "a.csv"; Str "a.csv"])] |}.


(** A YouTube table in the format of the API: one row, whose [items] cell
    stands for the list of videos, and the table of these videos. *)
Definition api_response : frame :=
  {| index := [0]%nat;
     cols := [("kind", [Str "youtube#videoListResponse"]);
              ("items", [Str "[...]"])] |}.

Definition api_items : frame :=
  {| index := [0; 1; 2]%nat;
     cols := [("id", [Str "a"; Str "b"; Str "c"]);
              ("title", [Str "x"; Str "y"; Str "z"])] |}.

Definition course_views : frame :=
  {| index := [0; 1; 2; 3]%nat;
     cols := [("course_name", [Str "a"; Str "b"; Null; Str "a"]);
              ("views", [Num 1; Num 5; Num 9; Num 2])] |}.

(** * Properties *)

(** ** Text *)

Module TextFacts.
Import Text.

Lemma sapp_assoc (a b c : string) : (a ++ b) ++ c = a ++ (b ++ c).
Proof.
  induction a as [|x a IH]; [done|].
  change (String x ((a ++ b) ++ c) = String x (a ++ (b ++ c))). by rewrite IH.
Qed.

Lemma sapp_nil_r (a : string) : a ++ "" = a.
Proof.
  induction a as [|x a IH]; [done|].
  change (String x (a ++ "") = String x a). by rewrite IH.
Qed.

Lemma sall_app p a b : sall p (a ++ b) = sall p a && sall p b.
Proof. induction a as [|c a IH]; simpl; [done|]. by rewrite IH, andb_assoc. Qed.

Lemma sall_impl (p q : ascii -> bool) s :
  (forall c, p c = true -> q c = true) -> sall p s = true -> sall q s = true.
Proof.
  intros H. induction s as [|c s IH]; simpl; [done|].
  intros [Hc Hs]%andb_prop. rewrite (H _ Hc). simpl. auto.
Qed.

Lemma smap_app f a b : smap f (a ++ b) = smap f a ++ smap f b.
Proof. induction a as [|c a IH]; simpl; [done|]. by rewrite IH. Qed.

Lemma smap_fixed f s : sall (fun c => Ascii.eqb (f c) c) s = true -> smap f s = s.
Proof.
  induction s as [|c s IH]; simpl; [done|].
  intros [Hc Hs]%andb_prop. apply Ascii.eqb_eq in Hc. rewrite Hc, IH; done.
Qed.

Lemma digit_range c : is_digit c = true -> (48 <= nat_of_ascii c <= 57)%nat.
Proof. unfold is_digit. intros [?%Nat.leb_le ?%Nat.leb_le]%andb_prop. lia. Qed.

Lemma digit_not_space c : is_digit c = true -> py_isspace c = false.
Proof.
  intros H%digit_range. unfold py_isspace.
  apply orb_false_iff; split; apply andb_false_iff.
  - right. apply Nat.leb_gt. lia.
  - right. apply Nat.leb_gt. lia.
Qed.

Lemma digit_upper c : is_digit c = true -> upper_char c = c.
Proof.
  intros H%digit_range. unfold upper_char.
  destruct (97 <=? nat_of_ascii c)%nat eqn:E; [|done].
  apply Nat.leb_le in E. lia.
Qed.

Lemma digit_neq c x : is_digit c = true -> is_digit x = false -> Ascii.eqb c x = false.
Proof. intros Hc Hx. apply Ascii.eqb_neq. intros ->. congruence. Qed.

Lemma lstrip_head c r : py_isspace c = false -> lstrip (String c r) = String c r.
Proof. simpl. by intros ->. Qed.

Lemma rstrip_no_space s : sall (fun c => negb (py_isspace c)) s = true -> rstrip s = s.
Proof.
  induction s as [|c s IH]; simpl; [done|].
  intros [Hc Hs]%andb_prop. rewrite (IH Hs).
  apply negb_true_iff in Hc. rewrite Hc. by destruct s.
Qed.

Lemma strip_no_space s : sall (fun c => negb (py_isspace c)) s = true -> strip s = s.
Proof.
  intros H. unfold strip.
  destruct s as [|c r]; [done|].
  pose proof H as H'. simpl in H'. apply andb_prop in H' as [Hc _].
  apply negb_true_iff in Hc. rewrite (lstrip_head _ _ Hc). by apply rstrip_no_space.
Qed.

Lemma c_space_py_space c : c_isspace c = true -> py_isspace c = true.
Proof.
  unfold c_isspace, py_isspace.
  intros [H|H%Nat.eqb_eq]%orb_prop; [by rewrite H|].
  rewrite H. reflexivity.
Qed.

Lemma rstrip_c_no_space s :
  sall (fun c => negb (py_isspace c)) s = true -> rstrip_c s = s.
Proof.
  induction s as [|c s IH]; simpl; [done|].
  intros [Hc Hs]%andb_prop. rewrite (IH Hs).
  apply negb_true_iff in Hc.
  destruct (c_isspace c) eqn:E; [|by destruct s].
  apply c_space_py_space in E. congruence.
Qed.

Lemma strip_c_no_space s :
  sall (fun c => negb (py_isspace c)) s = true -> strip_c s = s.
Proof.
  intros H. unfold strip_c.
  destruct s as [|c r]; [done|].
  pose proof H as H'. simpl in H'. apply andb_prop in H' as [Hc _].
  apply negb_true_iff in Hc. cbn [lstrip_c].
  destruct (c_isspace c) eqn:E; [|by apply rstrip_c_no_space].
  apply c_space_py_space in E. congruence.
Qed.

Lemma plain_normal s : sall plain s = true -> upper (strip s) = s.
Proof.
  intros H. rewrite strip_no_space.
  - apply smap_fixed. eapply sall_impl; [|exact H].
    by intros c [_ ?]%andb_prop.
  - eapply sall_impl; [|exact H]. by intros c [? _]%andb_prop.
Qed.

Lemma digit_plain c : is_digit c = true -> plain c = true.
Proof.
  intros H. unfold plain. rewrite (digit_not_space _ H), (digit_upper _ H).
  simpl. apply Ascii.eqb_refl.
Qed.

Lemma digits_plain d : all_digits d = true -> sall plain d = true.
Proof. apply sall_impl, digit_plain. Qed.

Lemma is_number_spec d :
  is_number d = true <-> all_digits d = true /\ d <> "".
Proof.
  unfold is_number. rewrite andb_true_iff, negb_true_iff, String.eqb_neq. done.
Qed.

Lemma take_digits_all d : all_digits d = true -> take_digits d = (d, "").
Proof.
  induction d as [|c d IH]; simpl; [done|].
  intros [Hc Hd]%andb_prop. by rewrite Hc, (IH Hd).
Qed.

Lemma take_digits_stop d c r :
  all_digits d = true -> is_digit c = false ->
  take_digits (d ++ String c r) = (d, String c r).
Proof.
  intros Hd Hc. induction d as [|x d IH]; simpl.
  - by rewrite Hc.
  - simpl in Hd. apply andb_prop in Hd as [Hx Hd]. by rewrite Hx, (IH Hd).
Qed.

Lemma digits_from_app acc a b :
  digits_from acc (a ++ b) = digits_from (digits_from acc a) b.
Proof. revert acc. induction a as [|c a IH]; simpl; intros; [done|]. apply IH. Qed.

Lemma int_digits_number acc b d :
  all_digits d = true -> (d <> "" \/ b = true) ->
  int_digits acc b d = Some (digits_from acc d).
Proof.
  revert acc b. induction d as [|c d IH]; simpl; intros acc b Hd Hne.
  - destruct Hne as [?| ->]; done.
  - apply andb_prop in Hd as [Hc Hd]. rewrite Hc. apply IH; auto.
Qed.

Lemma py_int_number d :
  is_number d = true -> py_int d = Some (digits_value d).
Proof.
  intros [Hd Hne]%is_number_spec. unfold py_int.
  rewrite strip_c_no_space.
  2:{ eapply sall_impl; [|exact Hd]. intros c Hc. by rewrite (digit_not_space _ Hc). }
  destruct d as [|c r]; [done|].
  pose proof Hd as Hd'. simpl in Hd'. apply andb_prop in Hd' as [Hc _].
  rewrite !(digit_neq c) by done.
  apply int_digits_number; auto.
Qed.

Lemma split_no_sep sep s :
  sall (fun c => negb (Ascii.eqb c sep)) s = true -> split sep s = [s].
Proof.
  induction s as [|c s IH]; simpl; [done|].
  intros [Hc Hs]%andb_prop. apply negb_true_iff in Hc. by rewrite Hc, (IH Hs).
Qed.

Lemma split_app sep a b :
  sall (fun c => negb (Ascii.eqb c sep)) a = true ->
  split sep (a ++ String sep b) = a :: split sep b.
Proof.
  induction a as [|c a IH]; simpl.
  - by rewrite Ascii.eqb_refl.
  - intros [Hc Ha]%andb_prop. apply negb_true_iff in Hc. by rewrite Hc, (IH Ha).
Qed.

Lemma digits_no_colon d :
  all_digits d = true -> sall (fun c => negb (Ascii.eqb c ":")) d = true.
Proof.
  apply sall_impl. intros c Hc. by rewrite (digit_neq c).
Qed.

Lemma after_prefix_digit p c r s :
  is_digit c = false -> is_digit s = true ->
  after_prefix (String c p) (String s r) = None.
Proof.
  intros Hc Hs. simpl. rewrite Ascii.eqb_sym, (digit_neq s c); done.
Qed.

Lemma pretty_N_char_digit k :
  (k < 10)%N -> is_digit (pretty_N_char k) = true /\ digit_val (pretty_N_char k) = Z.of_N k.
Proof.
  intros H.
  assert (k = 0 \/ k = 1 \/ k = 2 \/ k = 3 \/ k = 4 \/ k = 5 \/ k = 6 \/ k = 7
          \/ k = 8 \/ k = 9)%N as Hk by lia.
  repeat (destruct Hk as [->|Hk]; [by vm_compute|]). subst. by vm_compute.
Qed.

Lemma pretty_N_go_digits x s :
  exists d, pretty_N_go x s = d ++ s /\ all_digits d = true /\
            digits_value d = Z.of_N x /\ ((0 < x)%N -> d <> "").
Proof.
  revert s. induction (N.lt_wf_0 x) as [x _ IH]. intros s.
  destruct (decide (x = 0)%N) as [->|Hx].
  - exists "". rewrite pretty_N_go_0. repeat split; done || lia.
  - rewrite pretty_N_go_step by lia.
    destruct (IH (x `div` 10)%N) with (s := String (pretty_N_char (x `mod` 10)) s)
      as (d & Hd & Hall & Hval & _).
    { apply N.div_lt; lia. }
    destruct (pretty_N_char_digit (x `mod` 10)) as [Hdig Hv].
    { apply N.mod_lt. lia. }
    exists (d ++ String (pretty_N_char (x `mod` 10)) "").
    rewrite Hd. repeat split.
    + by rewrite sapp_assoc.
    + unfold all_digits. rewrite sall_app. fold all_digits. rewrite Hall. unfold all_digits. simpl.
      by rewrite Hdig.
    + unfold digits_value in *. rewrite digits_from_app, Hval. simpl. rewrite Hv.
      rewrite (N.div_mod x 10) at 3 by lia. lia.
    + intros _. by destruct d.
Qed.

Lemma pretty_N_number (x : N) :
  is_number (pretty x) = true /\ digits_value (pretty x) = Z.of_N x.
Proof.
  unfold pretty, pretty_N. destruct (decide (x = 0)%N) as [->|Hx]; [done|].
  destruct (pretty_N_go_digits x "") as (d & Hd & Hall & Hval & Hne).
  rewrite Hd, sapp_nil_r.
  split; [|done]. apply is_number_spec. split; [done|]. apply Hne. lia.
Qed.

Lemma pretty_nat_number (n : nat) :
  is_number (pretty n) = true /\ digits_value (pretty n) = Z.of_nat n.
Proof.
  unfold pretty, pretty_nat. destruct (pretty_N_number (N.of_nat n)) as [H1 H2].
  split; [done|]. rewrite H2. lia.
Qed.

End TextFacts.

Import Text TextFacts.

(** ** Durations *)

Lemma re_group_hit l d r :
  is_number d = true -> is_digit l = false ->
  re_group l (d ++ String l r) = (Some d, r).
Proof.
  intros [Hd Hne]%is_number_spec Hl. unfold re_group.
  rewrite take_digits_stop by done. destruct d as [|x d]; [done|].
  by rewrite Ascii.eqb_refl.
Qed.

Lemma re_group_miss l d c r :
  all_digits d = true -> is_digit c = false -> Ascii.eqb c l = false ->
  re_group l (d ++ String c r) = (None, d ++ String c r).
Proof.
  intros Hd Hc Hl. unfold re_group. rewrite take_digits_stop by done.
  destruct d; by rewrite ?Hl.
Qed.

Lemma re_group_end l d : all_digits d = true -> re_group l d = (None, d).
Proof. intros Hd. unfold re_group. rewrite take_digits_all by done. by destruct d. Qed.

Lemma part_app d l x : part (Some d) l ++ x = d ++ String l x.
Proof. unfold part. by rewrite sapp_assoc. Qed.

Lemma part_plain o l : opt_number o = true -> plain l = true -> sall plain (part o l) = true.
Proof.
  destruct o as [d|]; simpl; [|done]. intros [Hd _]%is_number_spec Hl.
  rewrite sall_app, (digits_plain _ Hd). simpl. by rewrite Hl.
Qed.

Lemma iso_text_plain h m s :
  opt_number h = true -> opt_number m = true -> opt_number s = true ->
  sall plain (iso_text h m s) = true.
Proof.
  intros Hh Hm Hs. unfold iso_text.
  rewrite !sall_app, !part_plain by done. done.
Qed.

Lemma iso_text_match h m s :
  opt_number h = true -> opt_number m = true -> opt_number s = true ->
  ISO8601_DURATION_RE (iso_text h m s)
  = Some {| g_hours := h; g_minutes := m; g_seconds := s |}.
Proof.
  intros Hh Hm Hs. unfold ISO8601_DURATION_RE, iso_text.
  change (after_prefix "PT" ("PT" ++ ?x)) with (Some x).
  assert (re_group "S" (part s "S") = (s, "")) as HS.
  { destruct s as [d|]; [|done]. simpl. by apply re_group_hit. }
  assert (re_group "M" (part s "S") = (None, part s "S")) as HMS.
  { destruct s as [d|]; [|done]. simpl in *. apply is_number_spec in Hs as [Hs _].
    by apply re_group_miss. }
  assert (re_group "H" (part s "S") = (None, part s "S")) as HHS.
  { destruct s as [d|]; [|done]. simpl in *. apply is_number_spec in Hs as [Hs _].
    by apply re_group_miss. }
  assert (re_group "M" (part m "M" ++ part s "S") = (m, part s "S")) as HM.
  { destruct m as [d|]; [|exact HMS]. rewrite part_app. by apply re_group_hit. }
  assert (re_group "H" (part m "M" ++ part s "S")
          = (None, part m "M" ++ part s "S")) as HHM.
  { destruct m as [d|]; [|exact HHS]. rewrite part_app. simpl in Hm.
    apply is_number_spec in Hm as [Hm _]. by apply re_group_miss. }
  assert (re_group "H" (part h "H" ++ part m "M" ++ part s "S")
          = (h, part m "M" ++ part s "S")) as HH.
  { destruct h as [d|]; [|exact HHM]. rewrite part_app. by apply re_group_hit. }
  cbv beta iota. by rewrite HH, HM, HS.
Qed.

Lemma iso8601_matched s g :
  ISO8601_DURATION_RE (upper (strip s)) = Some g ->
  iso8601_duration_to_seconds (Str s)
  = Ok (Some (int_or_0 (g_hours g) * 3600 + int_or_0 (g_minutes g) * 60
              + int_or_0 (g_seconds g))).
Proof. intros H. unfold iso8601_duration_to_seconds. by rewrite H. Qed.

Lemma iso8601_fallback s r :
  ISO8601_DURATION_RE (upper (strip s)) = None ->
  colon_fallback (upper (strip s)) = Some r ->
  iso8601_duration_to_seconds (Str s) = Ok r.
Proof. intros H1 H2. unfold iso8601_duration_to_seconds. by rewrite H1, H2. Qed.

Lemma iso8601_fall_through s :
  ISO8601_DURATION_RE (upper (strip s)) = None ->
  colon_fallback (upper (strip s)) = None ->
  iso8601_duration_to_seconds (Str s) = Raise AttributeError.
Proof. intros H1 H2. unfold iso8601_duration_to_seconds. by rewrite H1, H2. Qed.

Lemma re_no_match_digit d r :
  is_number d = true -> ISO8601_DURATION_RE (d ++ r) = None.
Proof.
  intros [Hd Hne]%is_number_spec. destruct d as [|c d]; [done|].
  simpl in Hd. apply andb_prop in Hd as [Hc _].
  unfold ISO8601_DURATION_RE.
  change (String c d ++ r) with (String c (d ++ r)).
  by rewrite after_prefix_digit.
Qed.

Lemma concat_cons sep d e l :
  String.concat sep (d :: e :: l) = d ++ sep ++ String.concat sep (e :: l).
Proof. done. Qed.

Lemma colon_text_plain (l : list string) :
  Forall (fun d => is_number d = true) l ->
  sall plain (String.concat ":" l) = true.
Proof.
  induction 1 as [|d l [Hd _]%is_number_spec Hl IH]; [done|].
  destruct l as [|e l]; [by apply digits_plain|].
  rewrite concat_cons, !sall_app, (digits_plain _ Hd), IH. done.
Qed.

Lemma colon_text_split (l : list string) :
  l <> [] -> Forall (fun d => is_number d = true) l ->
  split ":" (String.concat ":" l) = l.
Proof.
  intros Hne H. induction H as [|d l [Hd _]%is_number_spec Hl IH]; [done|].
  destruct l as [|e l].
  - by apply split_no_sep, digits_no_colon.
  - rewrite concat_cons. change (":" ++ ?x) with (String ":" x).
    rewrite split_app by by apply digits_no_colon. by rewrite IH.
Qed.

Lemma py_int_numbers (l : list string) :
  Forall (fun d => is_number d = true) l ->
  mapM py_int l = Some (map digits_value l).
Proof.
  intros H. apply mapM_Some. induction H as [|d l Hd _ IH]; constructor; [|done].
  by apply py_int_number.
Qed.

Lemma colon_text_fallback (l : list string) :
  l <> [] -> Forall (fun d => is_number d = true) l ->
  ISO8601_DURATION_RE (upper (strip (String.concat ":" l))) = None /\
  mapM py_int (split ":" (upper (strip (String.concat ":" l))))
  = Some (map digits_value l).
Proof.
  intros Hne H. rewrite (plain_normal _ (colon_text_plain _ H)).
  rewrite colon_text_split, py_int_numbers by done. split; [|done].
  destruct H as [|d l Hd Hl]; [done|].
  destruct l as [|e l]; [rewrite <-(sapp_nil_r d)|rewrite concat_cons];
    by apply re_no_match_digit.
Qed.

Lemma iso8601_many_parts (l : list string) :
  Forall (fun d => is_number d = true) l -> (3 < length l)%nat ->
  iso8601_duration_to_seconds (Str (String.concat ":" l)) = Raise AttributeError.
Proof.
  intros H Hlen. destruct (colon_text_fallback l) as [H1 H2]; [intros ->; simpl in Hlen; lia|done|].
  apply iso8601_fall_through; [done|]. unfold colon_fallback. rewrite H2.
  destruct l as [|a [|b [|c [|d l]]]]; simpl in *; done || lia.
Qed.

Lemma py_int_pretty (z : Z) : py_int (pretty z) = Some z.
Proof.
  destruct z as [|p|p]; [done|..].
  - destruct (pretty_N_number (Npos p)) as [H1 H2].
    change (pretty (Zpos p)) with (pretty (Npos p)).
    rewrite py_int_number by done. f_equal. rewrite H2. lia.
  - destruct (pretty_N_number (Npos p)) as [[H1 Hne]%is_number_spec H2].
    change (pretty (Zneg p)) with (String "-" (pretty (Npos p))).
    unfold py_int. rewrite strip_c_no_space.
    2:{ simpl. eapply sall_impl; [|exact H1]. intros c Hc.
        by rewrite (digit_not_space _ Hc). }
    rewrite Ascii.eqb_refl, int_digits_number by auto.
    simpl. f_equal. unfold digits_value in H2. rewrite H2. lia.
Qed.

Lemma pretty_Z_normal (z : Z) :
  upper (strip (pretty z)) = pretty z /\
  ISO8601_DURATION_RE (pretty z) = None /\
  split ":" (pretty z) = [pretty z].
Proof.
  assert (forall x : N, sall plain (pretty x) = true /\
            sall (fun c => negb (Ascii.eqb c ":")) (pretty x) = true /\
            ISO8601_DURATION_RE (pretty x) = None) as HN.
  { intros x. destruct (pretty_N_number x) as [Hn _].
    pose proof Hn as [Hd _]%is_number_spec.
    split; [by apply digits_plain|]. split; [by apply digits_no_colon|].
    rewrite <-(sapp_nil_r (pretty x)). by apply re_no_match_digit. }
  destruct z as [|p|p]; [done|..].
  - change (pretty (Zpos p)) with (pretty (Npos p)).
    destruct (HN (Npos p)) as (H1 & H2 & H3).
    by rewrite plain_normal, split_no_sep.
  - change (pretty (Zneg p)) with (String "-" (pretty (Npos p))).
    destruct (HN (Npos p)) as (H1 & H2 & H3).
    rewrite plain_normal, split_no_sep; [done|by simpl; rewrite H2|by simpl; rewrite H1].
Qed.

Lemma iso8601_bare_integer (z : Z) :
  iso8601_duration_to_seconds (Str (pretty z)) = Ok (Some z).
Proof.
  destruct (pretty_Z_normal z) as (Hn & Hre & Hsp).
  apply iso8601_fallback; rewrite Hn; [done|].
  unfold colon_fallback. rewrite Hsp. simpl. by rewrite py_int_pretty.
Qed.

Lemma iso8601_colon_text (l : list string) :
  l <> [] -> Forall (fun d => is_number d = true) l ->
  iso8601_duration_to_seconds (Str (String.concat ":" l))
  = match map digits_value l with
    | [a; b; c] => Ok (Some (a * 3600 + b * 60 + c))
    | [a; b] => Ok (Some (a * 60 + b))
    | [a] => Ok (Some a)
    | _ => Raise AttributeError
    end.
Proof.
  intros Hne H. destruct (colon_text_fallback l Hne H) as [H1 H2].
  unfold iso8601_duration_to_seconds, colon_fallback. rewrite H1, H2.
  by destruct l as [|a [|b [|c [|d l]]]].
Qed.

(** C5: the parser maps ["PT1H2M3S"], ["1:02:03"] and ["02:03"] to 3723,
    3723 and 123, a bare integer to its value, and every well-formed text
    (the ISO form with the components in any combination, [H:M:S], [M:S],
    or a number alone) to hours * 3600 + minutes * 60 + seconds. *)
Theorem iso8601_well_formed :
  iso8601_duration_to_seconds (Str "PT1H2M3S") = Ok (Some 3723) /\
  iso8601_duration_to_seconds (Str "1:02:03") = Ok (Some 3723) /\
  iso8601_duration_to_seconds (Str "02:03") = Ok (Some 123) /\
  (forall z : Z, iso8601_duration_to_seconds (Str (pretty z)) = Ok (Some z)) /\
  (forall h m s : option string,
     opt_number h = true -> opt_number m = true -> opt_number s = true ->
     iso8601_duration_to_seconds (Str (iso_text h m s))
     = Ok (Some (int_or_0 h * 3600 + int_or_0 m * 60 + int_or_0 s))) /\
  (forall h m s : string,
     is_number h = true -> is_number m = true -> is_number s = true ->
     iso8601_duration_to_seconds (Str (h ++ ":" ++ m ++ ":" ++ s))
     = Ok (Some (digits_value h * 3600 + digits_value m * 60 + digits_value s)) /\
     iso8601_duration_to_seconds (Str (m ++ ":" ++ s))
     = Ok (Some (digits_value m * 60 + digits_value s)) /\
     iso8601_duration_to_seconds (Str s) = Ok (Some (digits_value s))).
Proof.
  split; [done|]. split; [done|]. split; [done|].
  split; [apply iso8601_bare_integer|]. split.
  - intros h m s Hh Hm Hs.
    apply (iso8601_matched _ {| g_hours := h; g_minutes := m; g_seconds := s |}).
    rewrite (plain_normal _ (iso_text_plain h m s Hh Hm Hs)).
    by apply iso_text_match.
  - intros h m s Hh Hm Hs. repeat split.
    + by apply (iso8601_colon_text [h; m; s]); [|repeat constructor].
    + by apply (iso8601_colon_text [m; s]); [|repeat constructor].
    + by apply (iso8601_colon_text [s]); [|repeat constructor].
Qed.

Lemma iso8601_well_formed_witness :
  iso8601_duration_to_seconds (Str (iso_text (Some "1") None (Some "30")))
  = Ok (Some 3630) /\
  iso8601_duration_to_seconds (Str ("10" ++ ":" ++ "00" ++ ":" ++ "07"))
  = Ok (Some 36007).
Proof.
  destruct iso8601_well_formed as (_ & _ & _ & _ & Hiso & Hcolon). split.
  - exact (Hiso (Some "1") None (Some "30") eq_refl eq_refl eq_refl).
  - exact (proj1 (Hcolon "10" "00" "07" eq_refl eq_refl eq_refl)).
Defined.

(** C4: a text that is neither an ISO duration nor a colon-separated time
    gives a null when a part is not an integer, but four integer parts
    leave the fallback without a result and the parser raises. *)
Theorem iso8601_malformed :
  iso8601_duration_to_seconds (Str "abc") = Ok None /\
  iso8601_duration_to_seconds (Str "1:2:3:4") = Raise AttributeError.
Proof. by split. Qed.

(** ** Series *)

#[global] Instance Qle_total : Total Qle.
Proof. intros x y. destruct (Qlt_le_dec x y) as [H|H]; [left; by apply Qlt_le_weak | by right]. Qed.

#[global] Instance Qle_transitive : Transitive Qle.
Proof. intros x y z. apply Qle_trans. Qed.

(** ** Tables *)

Module FrameFacts.
Import Frame.

Lemma assoc_set_eq {A} c (v : A) l : assoc c (assoc_set c v l) = Some v.
Proof.
  induction l as [|[k x] l IH]; simpl.
  - by rewrite String.eqb_refl.
  - destruct (String.eqb k c) eqn:E; simpl; by rewrite E.
Qed.

Lemma assoc_set_ne {A} c c' (v : A) l :
  String.eqb c' c = false -> assoc c (assoc_set c' v l) = assoc c l.
Proof.
  intros Hne. induction l as [|[k x] l IH]; simpl.
  - by rewrite Hne.
  - destruct (String.eqb k c') eqn:E; simpl.
    + apply String.eqb_eq in E as ->. by rewrite Hne.
    + by rewrite IH.
Qed.

Lemma assoc_set_same {A} c (v : A) l : assoc c l = Some v -> assoc_set c v l = l.
Proof.
  induction l as [|[k x] l IH]; simpl; [done|].
  destruct (String.eqb k c) eqn:E; [by intros [= ->]|]. intros H. by rewrite IH.
Qed.

Lemma get_set_eq c s f : get c (set c s f) = Some s.
Proof. apply assoc_set_eq. Qed.

Lemma get_set_ne c c' s f :
  String.eqb c' c = false -> get c (set c' s f) = get c f.
Proof. apply assoc_set_ne. Qed.

Lemma get_set c c' s f :
  get c (set c' s f) = if String.eqb c' c then Some s else get c f.
Proof.
  destruct (String.eqb c' c) eqn:E.
  - apply String.eqb_eq in E as ->. apply get_set_eq.
  - by apply get_set_ne.
Qed.

Lemma get_set_scalar c c' v f :
  get c (set_scalar c' v f)
  = if String.eqb c' c then Some (replicate (nrows f) v) else get c f.
Proof. apply get_set. Qed.

Lemma mem_assoc {A} c (l : list (string * A)) :
  mem c (map fst l) = bool_decide (is_Some (assoc c l)).
Proof.
  induction l as [|[k x] l IH]; simpl.
  - done.
  - rewrite String.eqb_sym. by destruct (String.eqb k c).
Qed.

Lemma has_get c f : has c f = bool_decide (is_Some (get c f)).
Proof. apply mem_assoc. Qed.

Lemma has_Some c f s : get c f = Some s -> has c f = true.
Proof. intros H. rewrite has_get, H. by apply bool_decide_eq_true. Qed.

Lemma has_None c f : get c f = None -> has c f = false.
Proof. intros H. rewrite has_get, H. apply bool_decide_eq_false. by intros [? ?]. Qed.

Lemma get_on_column g f c c' :
  get c (on_column g f c')
  = if String.eqb c' c then g <$> get c f else get c f.
Proof.
  unfold on_column. destruct (String.eqb c' c) eqn:E.
  - apply String.eqb_eq in E as ->.
    destruct (get c f) eqn:G; [apply get_set_eq|by rewrite G].
  - destruct (get c' f); [by apply get_set_ne|done].
Qed.

Lemma index_on_column g f c : index (on_column g f c) = index f.
Proof. unfold on_column. by destruct (get c f). Qed.

Lemma get_filter_rows c m f : get c (filter_rows m f) = mask_list m <$> get c f.
Proof.
  unfold get, filter_rows. simpl.
  induction (cols f) as [|[k x] l IH]; simpl; [done|].
  by destruct (String.eqb k c).
Qed.

Lemma mask_list_Forall {A} (P : A -> Prop) m l :
  Forall P l -> Forall P (mask_list m l).
Proof.
  intros H. revert m. induction H as [|x l Hx Hl IH]; intros [|[] m]; simpl; auto.
Qed.

Lemma mask_list_length_le {A} m (l : list A) : (length (mask_list m l) <= length l)%nat.
Proof. revert m. induction l as [|x l IH]; intros [|[] m]; simpl; try lia; specialize (IH m); lia. Qed.

Lemma mask_list_length {A B} m (l : list A) (l' : list B) :
  length l = length l' -> length (mask_list m l) = length (mask_list m l').
Proof.
  revert m l'. induction l as [|x l IH]; intros [|[] m] [|y l'] H; simpl in *;
    try done; auto.
Qed.

(** *** Shapes *)

Lemma shaped_get c s f : shaped f -> get c f = Some s -> length s = nrows f.
Proof.
  unfold shaped, get. induction (cols f) as [|[k x] l IH]; simpl; [done|].
  intros [Hx Hl]%Forall_cons. destruct (String.eqb k c); [by intros [= <-]|auto].
Qed.

Lemma shaped_set c s f : shaped f -> length s = nrows f -> shaped (set c s f).
Proof.
  unfold shaped, set, nrows. simpl. intros H Hs.
  induction H as [|[k x] l Hx Hl IH]; simpl.
  - by repeat constructor.
  - destruct (String.eqb k c); constructor; auto.
Qed.

Lemma shaped_set_scalar c v f : shaped f -> shaped (set_scalar c v f).
Proof. intros H. apply shaped_set; [done|]. apply length_replicate. Qed.

Lemma shaped_on_column g f c :
  (forall s, length (g s) = length s) -> shaped f -> shaped (on_column g f c).
Proof.
  intros Hg H. unfold on_column. destruct (get c f) as [s|] eqn:E; [|done].
  apply shaped_set; [done|]. rewrite Hg. by eapply shaped_get.
Qed.

Lemma shaped_fold_on_column g cs f :
  (forall s, length (g s) = length s) -> shaped f ->
  shaped (fold_left (on_column g) cs f).
Proof.
  intros Hg. revert f. induction cs as [|c cs IH]; simpl; [done|].
  intros f H. by apply IH, shaped_on_column.
Qed.

Lemma shaped_drop cs f : shaped f -> shaped (drop cs f).
Proof.
  unfold shaped, drop, nrows. simpl. intros H.
  induction H as [|kc l Hx Hl IH]; simpl; [done|].
  destruct (negb _); [constructor|]; auto.
Qed.

Lemma shaped_relabel g f : shaped f -> shaped (relabel g f).
Proof.
  unfold shaped, relabel, nrows. simpl. intros H.
  induction H as [|kc l Hx Hl IH]; simpl; constructor; auto.
Qed.

Lemma shaped_select names f : shaped f -> shaped (select names f).
Proof.
  intros H. unfold shaped, select, nrows. simpl.
  induction names as [|c names IH]; simpl; [done|].
  destruct (get c f) as [s|] eqn:E; simpl; [|done].
  constructor; [|done]. simpl. by eapply shaped_get.
Qed.

Lemma shaped_filter_rows m f : shaped f -> shaped (filter_rows m f).
Proof.
  unfold shaped, filter_rows, nrows. simpl. intros H.
  induction H as [|kc l Hx Hl IH]; simpl; constructor; auto.
  simpl. by apply mask_list_length.
Qed.

(** *** Rows *)

Lemma rows_length f : length (rows f) = nrows f.
Proof. unfold rows. by rewrite length_imap. Qed.

Lemma apply_length {A} (g : row -> A) f : length (apply g f) = nrows f.
Proof. unfold apply. by rewrite length_map, rows_length. Qed.

Lemma rows_lookup f i n :
  index f !! i = Some n -> rows f !! i = Some (row_at f i n).
Proof. intros H. unfold rows. by rewrite list_lookup_imap, H. Qed.

Lemma r_get_row_at c f i n :
  shaped f -> (i < nrows f)%nat ->
  r_get c (row_at f i n) = get c f ≫= (fun s => s !! i).
Proof.
  unfold shaped, r_get, row_at, get. simpl. intros H Hi. revert H.
  induction (cols f) as [|[k x] l IH]; simpl; [done|].
  intros [Hx Hl]%Forall_cons. simpl in Hx.
  destruct (lookup_lt_is_Some_2 x i) as [v Hv]; [lia|].
  rewrite Hv. simpl. destruct (String.eqb k c); [done|auto].
Qed.

Lemma rows_Forall (P : row -> Prop) f :
  (forall i n, index f !! i = Some n -> P (row_at f i n)) -> Forall P (rows f).
Proof.
  intros H. apply Forall_lookup. intros i r Hr.
  unfold rows in Hr. rewrite list_lookup_imap in Hr.
  destruct (index f !! i) as [n|] eqn:E; simplify_eq/=. by apply H.
Qed.

End FrameFacts.

Import Frame FrameFacts.

(** Distinct labels of a concrete table, by evaluation. *)
Lemma NoDup_labels (l : list string) : bool_decide (NoDup l) = true -> NoDup l.
Proof. apply bool_decide_eq_true. Qed.

Ltac concrete_ok :=
  split; [by repeat constructor | apply NoDup_labels; vm_compute; reflexivity].

(** ** The cleaner *)

Section CleanerFacts.
Context {lib : Pandas}.

(** *** Columns a step leaves alone *)

Lemma get_fold_on_column g cs c f :
  mem c cs = false -> get c (fold_left (on_column g) cs f) = get c f.
Proof.
  revert f. induction cs as [|x cs IH]; simpl; [done|].
  intros f [Hx Hcs]%orb_false_iff. rewrite IH, get_on_column by done.
  by rewrite String.eqb_sym, Hx.
Qed.

Lemma get_drop_metadata_shape f : shaped f -> shaped (drop_metadata f).
Proof. intros H. unfold drop_metadata. destruct (cols_to_drop f); [done|]. by apply shaped_drop. Qed.

Lemma get_fill_duration c f f' :
  fill_duration f = Ok f' -> String.eqb "duration_sec" c = false ->
  get c f' = get c f.
Proof.
  unfold fill_duration. intros H Hc.
  destruct (get "duration" f) as [d|]; [|by simplify_eq].
  destruct (Series.notna_any d); [|by simplify_eq].
  destruct (rmapM duration_of_row (rows f)); simplify_eq/=.
  by apply get_set_ne.
Qed.

Lemma get_duration_sec_numeric c f :
  String.eqb "duration_sec" c = false -> get c (duration_sec_numeric f) = get c f.
Proof. intros H. unfold duration_sec_numeric. by rewrite get_on_column, H. Qed.

Lemma get_normalize_watch_time c f :
  String.eqb "watch_time_sec" c = false -> get c (normalize_watch_time f) = get c f.
Proof.
  intros H. unfold normalize_watch_time.
  destruct (get "watch_time" f); [by apply get_set_ne|done].
Qed.

Lemma get_parse_timestamp c f :
  String.eqb "timestamp" c = false -> get c (parse_timestamp f) = get c f.
Proof.
  intros H. unfold parse_timestamp, set_scalar.
  repeat case_match; by apply get_set_ne.
Qed.

Lemma get_create_student_id c f :
  String.eqb "student_id" c = false -> get c (create_student_id f) = get c f.
Proof.
  intros H. unfold create_student_id.
  destruct (needs_student_id f); [by apply get_set_ne|done].
Qed.

Lemma get_completion_rate c f :
  String.eqb "completion_rate" c = false -> get c (completion_rate f) = get c f.
Proof.
  intros H. unfold completion_rate, set_scalar.
  repeat case_match; by rewrite ?get_set, ?H.
Qed.

Lemma get_engagement_rate c f :
  String.eqb "engagement_rate" c = false -> get c (engagement_rate f) = get c f.
Proof.
  intros H. unfold engagement_rate.
  repeat case_match; by rewrite ?get_set, ?H.
Qed.

Lemma get_is_engaged c f :
  String.eqb "is_engaged" c = false -> get c (is_engaged f) = get c f.
Proof.
  intros H. unfold is_engaged.
  repeat case_match; by rewrite ?get_set, ?H.
Qed.

Lemma get_timestamp_features c f :
  String.eqb "hour" c = false -> String.eqb "weekday" c = false ->
  get c (timestamp_features f) = get c f.
Proof. intros H1 H2. unfold timestamp_features. by rewrite !get_set, H1, H2. Qed.

Lemma remove_duplicates_mask f :
  remove_duplicates f = f \/ exists m, remove_duplicates f = filter_rows m f.
Proof.
  unfold remove_duplicates, drop_duplicates. destruct (key_cols f); eauto.
Qed.

Lemma get_cap_columns c f :
  mem c capped_columns = false -> get c (cap_columns f) = get c f.
Proof. apply get_fold_on_column. Qed.

Lemma get_fill_student_age c f :
  String.eqb "student_age" c = false -> get c (fill_student_age f) = get c f.
Proof.
  intros H. unfold fill_student_age.
  repeat case_match; by rewrite ?get_set, ?H.
Qed.

Lemma get_fill_zero c f :
  mem c numeric_fill_zero = false -> get c (fill_zero f) = get c f.
Proof. apply get_fold_on_column. Qed.

(** *** Gender *)

Lemma gender_mapping_values k v :
  assoc k gender_mapping = Some v -> is_gender (Str v).
Proof.
  unfold is_gender. cbv [gender_mapping assoc].
  repeat (destruct (String.eqb _ k); [intros [= <-]; auto|]). done.
Qed.

Lemma normalize_gender_series_ok s : Forall is_gender (normalize_gender_series s).
Proof.
  unfold normalize_gender_series, Series.fillna.
  rewrite List.map_map, List.Forall_map. apply Forall_true. intros x.
  unfold map_dict.
  destruct (assoc _ gender_mapping) as [v|] eqn:E; simpl.
  - by apply gender_mapping_values in E.
  - unfold is_gender. auto.
Qed.

Lemma normalize_gender_series_length s :
  length (normalize_gender_series s) = length s.
Proof. unfold normalize_gender_series, Series.fillna. by rewrite !length_map. Qed.

Lemma normalize_gender_get f :
  exists s, get "student_gender" (normalize_gender f) = Some s /\ Forall is_gender s.
Proof.
  unfold normalize_gender. destruct (get "student_gender" f) as [s|] eqn:E.
  - eexists. split; [apply get_set_eq|apply normalize_gender_series_ok].
  - eexists. split; [apply get_set_eq|].
    apply Forall_forall. intros c ->%elem_of_replicate_inv.
    unfold is_gender. auto.
Qed.

Lemma normalize_gender_unknown c :
  assoc (Text.strip (Text.lower (str_of_cell c))) gender_mapping = None ->
  normalize_gender_series [c] = [Str "unknown"].
Proof.
  intros H. unfold normalize_gender_series. cbn [map map_dict]. by rewrite H.
Qed.

(** *** Shapes along the pipeline *)

Lemma shaped_normalize_gender f : shaped f -> shaped (normalize_gender f).
Proof.
  intros H. unfold normalize_gender. destruct (get "student_gender" f) eqn:E.
  - apply shaped_set; [done|]. rewrite normalize_gender_series_length.
    by eapply shaped_get.
  - by apply shaped_set_scalar.
Qed.

Lemma coerce_numeric_series_length s : length (coerce_numeric_series s) = length s.
Proof.
  unfold coerce_numeric_series, to_numeric.
  destruct (Series.is_object s); by rewrite !length_map.
Qed.

Lemma to_numeric_numeric s : Forall numeric (to_numeric s).
Proof.
  unfold to_numeric. rewrite List.Forall_map. apply Forall_true. intros x.
  destruct x as [| |t|]; simpl; try done. by destruct (to_numeric_text t).
Qed.

Lemma coerce_numeric_series_numeric s : Forall numeric (coerce_numeric_series s).
Proof. apply to_numeric_numeric. Qed.

Lemma shaped_coerce_candidates f : shaped f -> shaped (coerce_candidates f).
Proof. apply shaped_fold_on_column, coerce_numeric_series_length. Qed.

Lemma mem_true c l : mem c l = true <-> c ∈ l.
Proof.
  unfold mem. rewrite existsb_exists. split.
  - intros [x [Hx ->%String.eqb_eq]]. by apply list_elem_of_In.
  - intros H. exists c. split; [by apply list_elem_of_In|apply String.eqb_refl].
Qed.

Lemma mem_false c l : mem c l = false <-> c ∉ l.
Proof. rewrite <-mem_true. by destruct (mem c l). Qed.

Lemma get_fold_on_column_in g cs c f :
  NoDup cs -> c ∈ cs ->
  get c (fold_left (on_column g) cs f) = g <$> get c f.
Proof.
  intros Hnd. revert f. induction Hnd as [|x cs Hx Hnd IH]; intros f Hc.
  - by apply elem_of_nil in Hc.
  - simpl. apply elem_of_cons in Hc as [->|Hc].
    + rewrite get_fold_on_column by by apply mem_false.
      by rewrite get_on_column, String.eqb_refl.
    + rewrite IH, get_on_column by done.
      destruct (String.eqb x c) eqn:E; [|done].
      apply String.eqb_eq in E as ->. done.
Qed.

Lemma numeric_candidates_NoDup : NoDup numeric_candidates.
Proof. by apply (bool_decide_unpack _). Qed.

Lemma get_coerced c f :
  c ∈ numeric_candidates ->
  get c (coerce_candidates f) = coerce_numeric_series <$> get c f.
Proof. apply get_fold_on_column_in, numeric_candidates_NoDup. Qed.

(** *** The cleaner returns *)

Lemma rmapM_length {A B} (g : A -> result B) l ys :
  rmapM g l = Ok ys -> length ys = length l.
Proof.
  revert ys. induction l as [|x l IH]; simpl; intros ys H; [by simplify_eq|].
  destruct (g x); simpl in H; [|done].
  destruct (rmapM g l); simpl in H; simplify_eq. simpl. by rewrite (IH _ eq_refl).
Qed.

Lemma rmapM_Ok {A B} (g : A -> result B) l :
  Forall (fun x => exists y, g x = Ok y) l -> exists ys, rmapM g l = Ok ys.
Proof.
  induction 1 as [|x l [y Hy] _ [ys IH]]; simpl; [by eexists|].
  rewrite Hy, IH. simpl. by eexists.
Qed.

Lemma iso8601_numeric c : numeric c -> iso8601_duration_to_seconds c = Ok None.
Proof. by destruct c. Qed.

Lemma duration_of_row_total f i n :
  shaped f -> (i < nrows f)%nat ->
  (forall d, get "duration" f = Some d -> Forall numeric d) ->
  exists y, duration_of_row (row_at f i n) = Ok y.
Proof.
  intros Hs Hi Hd. unfold duration_of_row.
  destruct (Series.notna _); [by eexists|].
  rewrite (r_get_row_at "duration") by done.
  assert (numeric (or_null (get "duration" f ≫= (fun s => s !! i)))) as Hn.
  { destruct (get "duration" f) as [d|] eqn:E; simpl; [|done].
    destruct (d !! i) as [c|] eqn:Ec; simpl; [|done].
    eapply Forall_lookup_1; [by apply Hd|done]. }
  rewrite (iso8601_numeric _ Hn). by eexists.
Qed.

Lemma fill_duration_total f :
  shaped f -> (forall d, get "duration" f = Some d -> Forall numeric d) ->
  exists f', fill_duration f = Ok f'.
Proof.
  intros Hs Hd. unfold fill_duration.
  destruct (get "duration" f) as [d|] eqn:E; [|by eexists].
  destruct (Series.notna_any d); [|by eexists].
  destruct (rmapM_Ok duration_of_row (rows f)) as [ys Hys].
  - apply rows_Forall. intros i n Hi. apply duration_of_row_total; try done.
    + by apply lookup_lt_Some in Hi.
    + by rewrite E.
  - rewrite Hys. by eexists.
Qed.

Lemma shaped_fill_duration f f' :
  shaped f -> fill_duration f = Ok f' -> shaped f'.
Proof.
  intros Hs. unfold fill_duration.
  destruct (get "duration" f) as [d|]; [|by intros [= <-]].
  destruct (Series.notna_any d); [|by intros [= <-]].
  destruct (rmapM duration_of_row (rows f)) as [ys|] eqn:E; simpl; [|done].
  intros [= <-]. apply shaped_set; [done|].
  by rewrite (rmapM_length _ _ _ E), rows_length.
Qed.

Lemma shaped_before_durations f :
  shaped f ->
  shaped (coerce_candidates (normalize_gender (strip_columns (drop_metadata f)))).
Proof.
  intros H. apply shaped_coerce_candidates, shaped_normalize_gender.
  by apply shaped_relabel, get_drop_metadata_shape.
Qed.

Lemma clean_until_dedup_total f :
  shaped f -> exists f', clean_until_dedup f = Ok f'.
Proof.
  intros H. unfold clean_until_dedup.
  destruct (fill_duration_total _ (shaped_before_durations f H)) as [f1 Hf1].
  - intros d. rewrite get_coerced by (by apply mem_true).
    destruct (get "duration" _); intros [= <-]. apply coerce_numeric_series_numeric.
  - rewrite Hf1. simpl. by eexists.
Qed.

Lemma clean_frame_total f : shaped f -> exists f', clean_frame f = Ok f'.
Proof.
  intros H. unfold clean_frame.
  destruct (clean_until_dedup_total f H) as [f' ->]. simpl. by eexists.
Qed.

(** *** Gender along the pipeline *)

Lemma gender_until_dedup f f' :
  clean_until_dedup f = Ok f' ->
  exists s, get "student_gender" f' = Some s /\ Forall is_gender s.
Proof.
  unfold clean_until_dedup.
  destruct (fill_duration _) as [f1|] eqn:E; simpl; [|done]. intros [= <-].
  destruct (normalize_gender_get (strip_columns (drop_metadata f))) as (s & Hs & Hg).
  assert (get "student_gender"
            (timestamp_features (is_engaged (engagement_rate (completion_rate
              (create_student_id (parse_timestamp (normalize_watch_time
                (duration_sec_numeric f1)))))))) = Some s) as H.
  { rewrite get_timestamp_features, get_is_engaged, get_engagement_rate,
      get_completion_rate, get_create_student_id, get_parse_timestamp,
      get_normalize_watch_time, get_duration_sec_numeric by done.
    rewrite (get_fill_duration _ _ _ E) by done.
    unfold coerce_candidates. by rewrite get_fold_on_column. }
  destruct (remove_duplicates_mask
              (timestamp_features (is_engaged (engagement_rate (completion_rate
                (create_student_id (parse_timestamp (normalize_watch_time
                  (duration_sec_numeric f1))))))))) as [->|[m ->]].
  - eauto.
  - rewrite get_filter_rows, H. simpl. eexists. split; [done|].
    by apply mask_list_Forall.
Qed.

Lemma gender_finish f s :
  get "student_gender" f = Some s -> Forall is_gender s ->
  exists s', get "student_gender" (finish f) = Some s' /\ Forall is_gender s'.
Proof.
  intros Hs Hg. unfold finish.
  rewrite get_fill_zero by done. unfold fill_gender.
  rewrite get_on_column, String.eqb_refl, get_fill_student_age, get_cap_columns, Hs
    by done.
  simpl. eexists. split; [done|].
  unfold Series.fillna. rewrite List.Forall_map.
  eapply Forall_impl; [exact Hg|]. intros c Hc. simpl.
  destruct c; simpl; try done. unfold is_gender. auto.
Qed.

End CleanerFacts.

(** ** Numbers *)

Lemma Qlt_bool_iff x y : Qlt_bool x y = true <-> (x < y)%Q.
Proof.
  unfold Qlt_bool. rewrite negb_true_iff. split.
  - intros H. apply Qnot_le_lt. intros Hle. apply Qle_bool_iff in Hle. congruence.
  - intros H. destruct (Qle_bool y x) eqn:E; [|done].
    apply Qle_bool_iff in E. by apply Qlt_not_le in H.
Qed.

Lemma Qlt_bool_false x y : Qlt_bool x y = false <-> (y <= x)%Q.
Proof.
  unfold Qlt_bool. rewrite negb_false_iff. apply Qle_bool_iff.
Qed.

Lemma median_is_minutes_spec o :
  median_is_minutes o = true <-> exists m, o = Some m /\ (0 < m)%Q /\ (m < 100)%Q.
Proof.
  destruct o as [m|]; simpl.
  - rewrite andb_true_iff, !Qlt_bool_iff. split; [by eauto|].
    by intros (? & [= <-] & ?).
  - split; [done|]. by intros (? & ? & ?).
Qed.

Lemma mul_lookup k s i :
  Series.mul k s !! i
  = (fun c => match c with Num q => Num (Qred (q * k)) | _ => Null end) <$> s !! i.
Proof. unfold Series.mul. by rewrite <-list_lookup_fmap. Qed.

Lemma rate_lookup w d i x y :
  w !! i = Some x -> d !! i = Some y ->
  rate w d !! i = Some (Series.replace_inf (Series.div_cell x y)).
Proof.
  intros Hx Hy. unfold rate, Series.div.
  change (map ?g ?l) with (g <$> l).
  by rewrite list_lookup_fmap, lookup_zip_with, Hx, Hy.
Qed.

Lemma div_cell_zero x q :
  (q == 0)%Q ->
  Series.div_cell x (Num q) = PosInf \/ Series.div_cell x (Num q) = NegInf \/
  Series.div_cell x (Num q) = NaN.
Proof.
  intros Hq. apply Qeq_bool_iff in Hq. destruct x; simpl; rewrite ?Hq; auto.
  destruct (Qlt_bool 0 q0); auto. destruct (Qlt_bool q0 0); auto.
Qed.

Lemma div_cell_finite p q :
  ~ (q == 0)%Q -> exists r, Series.div_cell (Num p) (Num q) = Finite r /\ (r == p / q)%Q.
Proof.
  intros Hq. simpl. destruct (Qeq_bool q 0) eqn:E.
  - by apply Qeq_bool_iff in E.
  - eexists. split; [done|]. apply Qred_correct.
Qed.

(** ** Completion rates *)

Section CleanerRates.
Context {lib : Pandas}.

Lemma rate_numeric w d : Forall numeric (rate w d).
Proof.
  unfold rate. rewrite List.Forall_map. apply Forall_true. by intros [].
Qed.

Lemma completion_rate_numeric f :
  exists s, get "completion_rate" (completion_rate f) = Some s /\ Forall numeric s.
Proof.
  unfold completion_rate. rewrite !get_set_scalar. simpl (String.eqb _ _).
  assert (Forall numeric (replicate (nrows f) Null)) as Hnull.
  { apply Forall_forall. by intros c ->%elem_of_replicate_inv. }
  destruct (get "watch_time_sec" f) as [w|];
    [destruct (get "duration_sec" f) as [d|]|].
  - eexists. split; [apply get_set_eq|apply rate_numeric].
  - eexists. by rewrite get_set_scalar.
  - eexists. by rewrite get_set_scalar.
Qed.

Lemma completion_rate_output f f' :
  clean_frame f = Ok f' ->
  exists s, get "completion_rate" f' = Some s /\ Forall numeric s.
Proof.
  unfold clean_frame, clean_until_dedup.
  destruct (fill_duration _) as [f1|] eqn:E; simpl; [|done]. intros [= <-].
  set (g := create_student_id (parse_timestamp (normalize_watch_time
              (duration_sec_numeric f1)))).
  destruct (completion_rate_numeric g) as (s & Hs & Hnum).
  set (X := timestamp_features (is_engaged (engagement_rate (completion_rate g)))).
  assert (get "completion_rate" X = Some s) as HX.
  { unfold X. by rewrite get_timestamp_features, get_is_engaged,
      get_engagement_rate by reflexivity. }
  unfold finish, fill_gender.
  rewrite get_fill_zero, get_on_column, get_fill_student_age, get_cap_columns
    by reflexivity.
  simpl (String.eqb _ _).
  destruct (remove_duplicates_mask X) as [->|[m ->]].
  - by exists s.
  - rewrite get_filter_rows, HX. eexists. split; [reflexivity|].
    by apply mask_list_Forall.
Qed.

Lemma completion_rate_rows f :
  exists s,
    get "completion_rate" (completion_rate f) = Some s /\
    (forall w d,
       get "watch_time_sec" f = Some w -> get "duration_sec" f = Some d ->
       forall i x y, w !! i = Some x -> d !! i = Some y ->
       exists c,
         s !! i = Some c /\
         c = Series.replace_inf (Series.div_cell x y) /\
         (y = Null -> c = Null) /\
         (forall q, y = Num q -> (q == 0)%Q ->
            (forall r, Series.div_cell x y <> Finite r) /\ c = Null) /\
         (forall p q, x = Num p -> y = Num q -> ~ (q == 0)%Q ->
            exists r, c = Num r /\ (r == p / q)%Q)) /\
    (get "watch_time_sec" f = None \/ get "duration_sec" f = None ->
     s = replicate (nrows f) Null).
Proof.
  unfold completion_rate.
  rewrite !get_set_scalar. simpl (String.eqb _ _).
  destruct (get "watch_time_sec" f) as [w|] eqn:Hw;
    [destruct (get "duration_sec" f) as [d|] eqn:Hd|].
  - exists (rate w d). split; [apply get_set_eq|]. split; [|by intros [?|?]].
    intros ? ? [= <-] [= <-] i x y Hx Hy. eexists. split; [by apply rate_lookup|].
    split; [done|]. split; [|split].
    + intros ->. by destruct x.
    + intros q -> Hq. by destruct (div_cell_zero x q Hq) as [->|[->| ->]].
    + intros p q -> -> Hq. destruct (div_cell_finite p q Hq) as (r & -> & Hr).
      by exists r.
  - eexists. rewrite get_set_scalar. split; [done|]. split; [done|]. done.
  - eexists. rewrite get_set_scalar. split; [done|]. split; [done|]. done.
Qed.

End CleanerRates.

(** ** Duplicates *)

Lemma cell_eqb_refl c : Series.cell_eqb c c = true.
Proof.
  destruct c; simpl; try done.
  - by apply Qeq_bool_iff.
  - apply String.eqb_refl.
  - apply Z.eqb_refl.
Qed.

Lemma cell_eqb_sym a b : Series.cell_eqb a b = Series.cell_eqb b a.
Proof.
  destruct a, b; simpl; try done.
  - apply eq_true_iff_eq. rewrite !Qeq_bool_iff. split; intros H; by symmetry.
  - apply String.eqb_sym.
  - apply Z.eqb_sym.
Qed.

Lemma cell_eqb_trans a b c :
  Series.cell_eqb a b = true -> Series.cell_eqb b c = true ->
  Series.cell_eqb a c = true.
Proof.
  destruct a, b, c; simpl; try done.
  - rewrite !Qeq_bool_iff. intros H1 H2. by rewrite H1.
  - intros ->%String.eqb_eq. done.
  - intros ->%Z.eqb_eq. done.
Qed.

Lemma key_eqb_refl k : key_eqb k k = true.
Proof.
  unfold key_eqb. rewrite Nat.eqb_refl. simpl.
  induction k as [|c k IH]; simpl; [done|]. by rewrite cell_eqb_refl.
Qed.

Lemma key_eqb_sym a b : key_eqb a b = key_eqb b a.
Proof.
  unfold key_eqb. rewrite (Nat.eqb_sym (length a)). f_equal.
  revert b. induction a as [|x a IH]; intros [|y b]; simpl; try done.
  by rewrite cell_eqb_sym, IH.
Qed.

Lemma key_eqb_trans a b c :
  key_eqb a b = true -> key_eqb b c = true -> key_eqb a c = true.
Proof.
  unfold key_eqb. rewrite !andb_true_iff, !Nat.eqb_eq.
  intros [Hl1 H1] [Hl2 H2]. split; [congruence|].
  revert b c Hl1 Hl2 H1 H2.
  induction a as [|x a IH]; intros [|y b] [|z c]; simpl; try done.
  intros [= Hl1] [= Hl2]. rewrite !andb_true_iff. unfold id at 1 2 3.
  intros [Hxy H1] [Hyz H2]. split; [by eapply cell_eqb_trans|by eapply IH].
Qed.

Lemma duplicated_length ks : length (duplicated ks) = length ks.
Proof. unfold duplicated. by rewrite length_imap. Qed.

Lemma duplicated_lookup ks i k :
  ks !! i = Some k ->
  duplicated ks !! i = Some (existsb (key_eqb k) (take i ks)).
Proof. intros H. unfold duplicated. by rewrite list_lookup_imap, H. Qed.

Lemma earlier_equal ks i k :
  existsb (key_eqb k) (take i ks) = true <->
  exists j k', (j < i)%nat /\ ks !! j = Some k' /\ key_eqb k k' = true.
Proof.
  rewrite existsb_exists. split.
  - intros (k' & [j Hj]%list_elem_of_In%list_elem_of_lookup & Hk).
    apply lookup_take_Some in Hj as [Hj Hlt]. eauto.
  - intros (j & k' & Hlt & Hj & Hk). exists k'. split; [|done].
    apply list_elem_of_In, list_elem_of_lookup. exists j.
    by rewrite lookup_take_lt.
Qed.

Lemma kept_lookup ks i k :
  ks !! i = Some k ->
  map negb (duplicated ks) !! i = Some (negb (existsb (key_eqb k) (take i ks))).
Proof.
  intros H. change (map negb ?l) with (negb <$> l).
  by rewrite list_lookup_fmap, (duplicated_lookup _ _ _ H).
Qed.

Lemma first_occurrence_kept ks i k :
  ks !! i = Some k ->
  exists j k', (j <= i)%nat /\ ks !! j = Some k' /\ key_eqb k k' = true /\
               map negb (duplicated ks) !! j = Some true.
Proof.
  revert k. induction (lt_wf i) as [i _ IH]. intros k Hk.
  destruct (existsb (key_eqb k) (take i ks)) eqn:E.
  - apply earlier_equal in E as (j & k' & Hlt & Hj & Heq).
    destruct (IH j Hlt k' Hj) as (j' & k'' & Hle & Hj' & Heq' & Hkept).
    exists j', k''. repeat split; try done; [lia|by eapply key_eqb_trans].
  - exists i, k. repeat split; try done; [apply key_eqb_refl|].
    by rewrite (kept_lookup _ _ _ Hk), E.
Qed.

Lemma index_filter_rows m f : index (filter_rows m f) = mask_list m (index f).
Proof. done. Qed.

(** C3, counterexample: two rows with the same id and no course or time
    have a null in two key columns, and the second is removed. *)
Lemma null_keys_not_exempt : ~ null_keys_exempt.
Proof.
  intros H. specialize (H dup_nulls 1%nat 1%nat).
  assert (1%nat ∈ index (remove_duplicates dup_nulls)) as Hin.
  { apply H.
    - by repeat constructor.
    - apply NoDup_labels. vm_compute. reflexivity.
    - done.
    - exists "course_name". split; [|done]. by apply mem_true. }
  vm_compute in Hin. by apply list_elem_of_singleton in Hin.
Qed.

(** C3, amended: deduplication keeps a row exactly when no earlier row has
    the same key, where the key is made of the key columns that exist and
    nulls count as equal to nulls; the first row of every key stays, rows
    stay in order, and no two rows that stay have the same key. *)
Theorem dedup_first_occurrence f cs :
  let ks := apply (row_key cs) f in
  let keep := map negb (duplicated ks) in
  (index (drop_duplicates cs f) = mask_list keep (index f) /\
   forall c, get c (drop_duplicates cs f) = mask_list keep <$> get c f) /\
  (key_cols f = cs -> cs <> [] -> remove_duplicates f = drop_duplicates cs f) /\
  (forall i n, shaped f -> index f !! i = Some n ->
     ks !! i = Some (map (fun c => or_null (get c f ≫= (fun s => s !! i))) cs)) /\
  (forall i k, ks !! i = Some k ->
     (keep !! i = Some false <->
      exists j k', (j < i)%nat /\ ks !! j = Some k' /\ key_eqb k k' = true)) /\
  (forall i k, ks !! i = Some k ->
     exists j k', (j <= i)%nat /\ ks !! j = Some k' /\ key_eqb k k' = true /\
                  keep !! j = Some true) /\
  (forall i j k k', (i < j)%nat ->
     ks !! i = Some k -> ks !! j = Some k' ->
     keep !! i = Some true -> keep !! j = Some true -> key_eqb k k' = false) /\
  key_eqb [Null] [Null] = true.
Proof.
  intros ks keep. repeat split.
  - intros c. apply get_filter_rows.
  - intros Hcs Hne. unfold remove_duplicates. rewrite Hcs. by destruct cs.
  - intros i n Hs Hi. unfold ks, apply. change (map ?g ?l) with (g <$> l) at 1.
    rewrite list_lookup_fmap, (rows_lookup _ _ _ Hi). simpl. f_equal.
    unfold row_key. apply map_ext. intros c.
    rewrite r_get_row_at; [done|done|by apply lookup_lt_Some in Hi].
  - intros Hk. unfold keep in Hk. rewrite (kept_lookup _ _ _ H) in Hk.
    apply earlier_equal. injection Hk as Hk. by apply negb_false_iff.
  - intros Hk. unfold keep. rewrite (kept_lookup _ _ _ H). f_equal.
    apply negb_false_iff. by apply earlier_equal.
  - intros i k Hk. by apply first_occurrence_kept.
  - intros i j k k' Hlt Hi Hj _ Hkj. unfold keep in Hkj.
    rewrite (kept_lookup _ _ _ Hj) in Hkj. injection Hkj as Hkj.
    apply negb_true_iff in Hkj.
    destruct (key_eqb k k') eqn:E; [|done].
    assert (existsb (key_eqb k') (take j ks) = true) as Hex; [|congruence].
    apply earlier_equal. exists i, k. by rewrite key_eqb_sym.
Qed.

Lemma dedup_first_occurrence_witness :
  remove_duplicates dup_nulls = drop_duplicates (key_cols dup_nulls) dup_nulls /\
  map negb (duplicated (apply (row_key (key_cols dup_nulls)) dup_nulls)) !! 1%nat
  = Some false.
Proof.
  destruct (dedup_first_occurrence dup_nulls (key_cols dup_nulls))
    as (_ & Hrd & _ & Hdup & _).
  split.
  - by apply Hrd.
  - apply (Hdup 1%nat [Str "a"; Null; Null] eq_refl).
    exists 0%nat, [Str "a"; Null; Null]. repeat split. lia.
Defined.

(** ** Quantiles and capping *)

Lemma sorted_nth (v : list Q) d i j :
  StronglySorted Qle v -> (i <= j < length v)%nat ->
  (nth i v d <= nth j v d)%Q.
Proof.
  intros H. revert i j. induction H as [|x l Hl IH Hx]; intros i j [Hij Hj].
  - simpl in Hj. lia.
  - destruct i as [|i], j as [|j]; simpl in *; try lia.
    + apply Qle_refl.
    + rewrite List.Forall_forall in Hx. apply Hx, nth_In. lia.
    + apply IH. lia.
Qed.

Lemma Qmult_le_l_weak x y z : (0 <= z)%Q -> (x <= y)%Q -> (z * x <= z * y)%Q.
Proof. intros. nra. Qed.

Lemma inject_Z_nonneg z : (0 <= z)%Z -> (0 <= inject_Z z)%Q.
Proof. intros H. unfold Qle. simpl. lia. Qed.

Section Rank.
Variables (v : list Q) (d : Q).
Hypothesis sorted : StronglySorted Qle v.
Hypothesis nonempty : (0 < length v)%nat.

Let top : Q := inject_Z (Z.of_nat (length v) - 1).

Lemma floor_in_range h :
  (0 <= h)%Q -> (h <= top)%Q -> (Z.to_nat (Qfloor h) <= length v - 1)%nat.
Proof.
  intros H0 H1. apply Qfloor_resp_le in H1. unfold top in H1.
  rewrite Qfloor_Z in H1. apply Qfloor_resp_le in H0.
  change (Qfloor 0) with 0%Z in H0. lia.
Qed.

Lemma at_rank_bounds h :
  (0 <= h)%Q -> (h <= top)%Q ->
  (nth (Z.to_nat (Qfloor h)) v d <= Series.at_rank v d h)%Q /\
  (Series.at_rank v d h
   <= nth (Nat.min (Z.to_nat (Qfloor h) + 1) (length v - 1)) v d)%Q.
Proof.
  intros H0 H1. pose proof (floor_in_range h H0 H1) as Hi.
  unfold Series.at_rank.
  set (i := Z.to_nat (Qfloor h)) in *.
  set (a := nth i v d). set (b := nth (Nat.min (i + 1) (length v - 1)) v d).
  assert (a <= b)%Q as Hab by (apply sorted_nth; [done|lia]).
  pose proof (Qfloor_le h) as Hg0. pose proof (Qlt_floor h) as Hg1.
  rewrite inject_Z_plus in Hg1.
  set (g := (h - inject_Z (Qfloor h))%Q).
  assert (0 <= g)%Q as G0 by (unfold g; lra).
  assert (g <= 1)%Q as G1 by (unfold g; change (inject_Z 1) with 1%Q in Hg1; lra).
  split; nra.
Qed.

Lemma at_rank_mono h1 h2 :
  (0 <= h1)%Q -> (h1 <= h2)%Q -> (h2 <= top)%Q ->
  (Series.at_rank v d h1 <= Series.at_rank v d h2)%Q.
Proof.
  intros H0 H12 H2.
  assert (h1 <= top)%Q as H1 by lra. assert (0 <= h2)%Q as H0' by lra.
  pose proof (floor_in_range h1 H0 H1) as Hi1.
  pose proof (floor_in_range h2 H0' H2) as Hi2.
  pose proof (Qfloor_resp_le _ _ H12) as Hfl.
  pose proof (Qfloor_resp_le _ _ H0) as Hfl0. change (Qfloor 0) with 0%Z in Hfl0.
  destruct (decide (Qfloor h1 = Qfloor h2)) as [Heq|Hne].
  - unfold Series.at_rank. rewrite Heq.
    set (i := Z.to_nat (Qfloor h2)) in *.
    set (a := nth i v d). set (b := nth (Nat.min (i + 1) (length v - 1)) v d).
    assert (a <= b)%Q as Hab by (apply sorted_nth; [done|lia]).
    nra.
  - destruct (at_rank_bounds h1 H0 H1) as [_ Hup].
    destruct (at_rank_bounds h2 H0' H2) as [Hlow _].
    eapply Qle_trans; [exact Hup|]. eapply Qle_trans; [|exact Hlow].
    apply sorted_nth; [done|lia].
Qed.

End Rank.

Lemma quantile_Some p s q :
  Num q ∈ s -> exists x, Series.quantile p s = Some x.
Proof.
  intros Hq. unfold Series.quantile.
  destruct (merge_sort Qle (Series.nums s)) as [|x0 l] eqn:E; [|by eexists].
  assert (q ∈ Series.nums s) as Hin.
  { unfold Series.nums. apply list_elem_of_omap. by exists (Num q). }
  rewrite <-(merge_sort_Permutation Qle), E in Hin. by apply elem_of_nil in Hin.
Qed.

Lemma quantile_le p1 p2 s low high :
  (0 <= p1)%Q -> (p1 <= p2)%Q -> (p2 <= 1)%Q ->
  Series.quantile p1 s = Some low -> Series.quantile p2 s = Some high ->
  (low <= high)%Q.
Proof.
  intros H0 H12 H1. unfold Series.quantile.
  pose proof (StronglySorted_merge_sort Qle (Series.nums s)) as Hs.
  destruct (merge_sort Qle (Series.nums s)) as [|x0 l] eqn:E; [done|].
  intros [= <-] [= <-]. rewrite !Qred_correct.
  assert (0 <= inject_Z (Z.of_nat (length (x0 :: l)) - 1))%Q as Hn.
  { apply inject_Z_nonneg. simpl. lia. }
  set (N := inject_Z (Z.of_nat (length (x0 :: l)) - 1)) in *.
  apply at_rank_mono; [done|simpl; lia|..]; fold N.
  - by apply Qmult_le_0_compat.
  - by apply Qmult_le_l_weak.
  - apply Qle_trans with (N * 1)%Q; [by apply Qmult_le_l_weak|].
    rewrite Qmult_1_r. apply Qle_refl.
Qed.

Lemma isna_all_Num s q : Num q ∈ s -> Series.isna_all s = false.
Proof.
  intros H. unfold Series.isna_all. apply not_true_is_false.
  rewrite forallb_forall. intros Hall.
  by specialize (Hall (Num q) (proj1 (list_elem_of_In _ _) H)).
Qed.

Lemma clip_cell_range low high q :
  (low <= high)%Q ->
  exists q', Series.clip_cell low high (Num q) = Num q' /\
             (low <= q')%Q /\ (q' <= high)%Q /\
             ((low <= q)%Q -> (q <= high)%Q -> q' = q).
Proof.
  intros Hlh. simpl.
  destruct (Qlt_bool high q) eqn:E1; [|destruct (Qlt_bool q low) eqn:E2].
  - apply Qlt_bool_iff in E1. exists high.
    repeat split; done || lra || (intros; exfalso; lra).
  - apply Qlt_bool_iff in E2. apply Qlt_bool_false in E1. exists low.
    repeat split; done || lra || (intros; exfalso; lra).
  - apply Qlt_bool_false in E1, E2. exists q. by repeat split.
Qed.

(** What capping does to one cell of a column. *)
Lemma cap_outliers_lookup s i x :
  s !! i = Some x ->
  match x with
  | Num q =>
      exists low high q',
        Series.quantile lower_q s = Some low /\
        Series.quantile upper_q s = Some high /\
        cap_outliers_iqr s lower_q upper_q !! i = Some (Num q') /\
        (low <= q')%Q /\ (q' <= high)%Q /\
        ((low <= q)%Q -> (q <= high)%Q -> q' = q)
  | _ => cap_outliers_iqr s lower_q upper_q !! i = Some x
  end.
Proof.
  intros Hx. unfold cap_outliers_iqr.
  assert (forall low high,
            Series.clip low high s !! i = Some (Series.clip_cell low high x)) as Hclip.
  { intros. unfold Series.clip. change (map ?g ?l) with (g <$> l).
    by rewrite list_lookup_fmap, Hx. }
  destruct x as [|q|t|t].
  - destruct (Series.isna_all s); [done|].
    destruct (Series.quantile lower_q s), (Series.quantile upper_q s);
      by rewrite ?Hclip.
  - assert (Num q ∈ s) as Hin by (by eapply list_elem_of_lookup_2).
    rewrite (isna_all_Num _ _ Hin).
    destruct (quantile_Some lower_q s q Hin) as [low Hlow].
    destruct (quantile_Some upper_q s q Hin) as [high Hhigh].
    rewrite Hlow, Hhigh, Hclip.
    destruct (clip_cell_range low high q) as (q' & -> & H1 & H2 & H3).
    { by apply (quantile_le lower_q upper_q s). }
    exists low, high, q'. by repeat split.
  - destruct (Series.isna_all s); [done|].
    destruct (Series.quantile lower_q s), (Series.quantile upper_q s);
      by rewrite ?Hclip.
  - destruct (Series.isna_all s); [done|].
    destruct (Series.quantile lower_q s), (Series.quantile upper_q s);
      by rewrite ?Hclip.
Qed.

Lemma cap_outliers_length s : length (cap_outliers_iqr s lower_q upper_q) = length s.
Proof.
  unfold cap_outliers_iqr, Series.clip. repeat case_match; by rewrite ?length_map.
Qed.

Lemma capped_columns_NoDup : NoDup capped_columns.
Proof. by apply (bool_decide_unpack _). Qed.

Lemma numeric_fill_zero_NoDup : NoDup numeric_fill_zero.
Proof. by apply (bool_decide_unpack _). Qed.

Lemma get_finish_capped c g :
  c ∈ capped_columns ->
  get c (finish g)
  = (fun s => Series.fillna (Num 0) (cap_outliers_iqr s lower_q upper_q))
      <$> get c g.
Proof.
  intros Hc. unfold finish, fill_zero, fill_gender, cap_columns.
  assert (c ∈ numeric_fill_zero) as Hz.
  { apply mem_true. apply mem_true in Hc. simpl in *.
    destruct (String.eqb c "watch_time_sec"); [done|].
    destruct (String.eqb c "duration_sec"); [done|].
    by destruct (String.eqb c "views"). }
  assert (String.eqb "student_gender" c = false
          /\ String.eqb "student_age" c = false) as [Hg Ha].
  { apply list_elem_of_In in Hc. simpl in Hc.
    destruct Hc as [<-|[<-|[<-|[]]]]; by split. }
  rewrite (get_fold_on_column_in _ _ _ _ numeric_fill_zero_NoDup Hz).
  rewrite get_on_column, Hg, get_fill_student_age by done.
  rewrite (get_fold_on_column_in _ _ _ _ capped_columns_NoDup Hc).
  by destruct (get c g).
Qed.

Lemma fillna_lookup v s i x :
  s !! i = Some x ->
  Series.fillna v s !! i = Some (if Series.isna x then v else x).
Proof.
  intros H. unfold Series.fillna. change (map ?g ?l) with (g <$> l).
  by rewrite list_lookup_fmap, H.
Qed.

Lemma cap_all_null s :
  Series.isna_all s = true -> cap_outliers_iqr s lower_q upper_q = s.
Proof. intros H. unfold cap_outliers_iqr. by rewrite H. Qed.

Section CappingClaims.
Context {lib : Pandas}.

(** C6, amended: in the output a value of a capped column that was a
    number before capping lies between the 1st and the 99th percentile of
    the column's non-null values before capping, and is unchanged when it
    already did; a value that was null is 0, wherever 0 lies.  Capping
    alone leaves a column without non-null values as it is. *)
Theorem capped_or_filled g c s :
  c ∈ capped_columns -> get c g = Some s ->
  (forall f, clean_until_dedup f = Ok g -> clean_frame f = Ok (finish g)) /\
  exists s',
    get c (finish g) = Some s' /\ length s' = length s /\
    (forall i x, s !! i = Some x ->
       match x with
       | Null => s' !! i = Some (Num 0)
       | Num q =>
           exists low high q',
             Series.quantile lower_q s = Some low /\
             Series.quantile upper_q s = Some high /\
             s' !! i = Some (Num q') /\
             (low <= q')%Q /\ (q' <= high)%Q /\
             ((low <= q)%Q -> (q <= high)%Q -> q' = q)
       | _ => s' !! i = Some x
       end) /\
    (Series.isna_all s = true ->
     cap_outliers_iqr s lower_q upper_q = s /\ s' = Series.fillna (Num 0) s).
Proof.
  intros Hc Hs. split.
  { intros f Hf. unfold clean_frame. by rewrite Hf. }
  rewrite (get_finish_capped _ _ Hc), Hs. simpl. eexists. split; [done|].
  split; [|split].
  - unfold Series.fillna. by rewrite length_map, cap_outliers_length.
  - intros i x Hx. pose proof (cap_outliers_lookup s i x Hx) as Hcap.
    destruct x as [|q|t|t].
    + by rewrite (fillna_lookup _ _ _ _ Hcap).
    + destruct Hcap as (low & high & q' & Hl & Hh & Hq' & Hrange).
      exists low, high, q'. by rewrite (fillna_lookup _ _ _ _ Hq').
    + by rewrite (fillna_lookup _ _ _ _ Hcap).
    + by rewrite (fillna_lookup _ _ _ _ Hcap).
  - intros Hall. by rewrite (cap_all_null _ Hall).
Qed.

End CappingClaims.

(** C6, counterexample: views 10, 20 and a null are capped to 10.1 and
    19.9, and the null is then filled with 0, below the 1st percentile. *)
Lemma capped_not_within_percentiles : ~ @capped_within_percentiles Reference.lib.
Proof.
  intros H.
  assert (exists g,
            clean_until_dedup sparse_views = Ok g /\
            get "views" g = Some [Num 10; Num 20; Null] /\
            get "views" (finish g) = Some [Num (101 # 10); Num (199 # 10); Num 0])
    as (g & Hg & Hs & Hs').
  { eexists. split; [vm_compute; reflexivity|].
    split; vm_compute; reflexivity. }
  assert (table_ok sparse_views) as Hok by concrete_ok.
  specialize (H sparse_views g "views" [Num 10; Num 20; Null]
                [Num (101 # 10); Num (199 # 10); Num 0]
                (101 # 10)%Q (199 # 10)%Q Hok Hg).
  assert (Series.quantile lower_q [Num 10; Num 20; Null] = Some (101 # 10)%Q)
    as Hlow by (vm_compute; reflexivity).
  assert (Series.quantile upper_q [Num 10; Num 20; Null] = Some (199 # 10)%Q)
    as Hhigh by (vm_compute; reflexivity).
  specialize (H ltac:(by apply mem_true) Hs Hs' Hlow Hhigh).
  apply Forall_cons in H as [_ H]. apply Forall_cons in H as [_ H].
  apply Forall_cons in H as [(q & [= <-] & Hq & _) _].
  vm_compute in Hq. by apply Hq.
Qed.

Lemma capped_or_filled_witness :
  exists s',
    get "views" (finish sparse_views) = Some s' /\
    s' !! 2%nat = Some (Num 0) /\
    exists q', s' !! 0%nat = Some (Num q') /\ (q' <= 199 # 10)%Q.
Proof.
  destruct (@capped_or_filled Reference.lib sparse_views "views"
              [Num 10; Num 20; Null])
    as (_ & s' & Hs' & _ & Hrows & _).
  - by apply mem_true.
  - reflexivity.
  - exists s'. split; [exact Hs'|]. split.
    + exact (Hrows 2%nat Null eq_refl).
    + destruct (Hrows 0%nat (Num 10) eq_refl)
        as (low & high & q' & _ & Hhigh & Hq' & _ & Hle & _).
      exists q'. split; [exact Hq'|].
      vm_compute in Hhigh. injection Hhigh as <-. exact Hle.
Defined.

(** ** The unifier *)

Lemma sall_cons_false p c s : p c = false -> sall p (String c s) = false.
Proof. intros H. simpl. by rewrite H. Qed.

(** The text after the last underscore decides the row label. *)
Lemma underscore_suffix_inj a b d e :
  sall (fun c => negb (Ascii.eqb c "_")) d = true ->
  sall (fun c => negb (Ascii.eqb c "_")) e = true ->
  a ++ String "_" d = b ++ String "_" e -> d = e.
Proof.
  intros Hd He. revert b. induction a as [|x a IH]; intros [|y b] H.
  - by injection H.
  - injection H as <- H. rewrite H, sall_app in Hd.
    apply andb_prop in Hd as [_ Hd]. by rewrite sall_cons_false in Hd.
  - injection H as -> H. rewrite <-H, sall_app in He.
    apply andb_prop in He as [_ He]. by rewrite sall_cons_false in He.
  - injection H as _ H. by eapply IH.
Qed.

Lemma pretty_nat_no_underscore (n : nat) :
  sall (fun c => negb (Ascii.eqb c "_")) (pretty n) = true.
Proof.
  destruct (pretty_nat_number n) as [[Hd _]%is_number_spec _].
  eapply sall_impl; [|exact Hd]. intros c Hc. by rewrite (digit_neq c).
Qed.

Lemma synthetic_label_inj a b (n m : nat) :
  a ++ "_" ++ pretty n = b ++ "_" ++ pretty m -> n = m.
Proof.
  intros H. apply (inj pretty).
  eapply underscore_suffix_inj; [apply pretty_nat_no_underscore..|exact H].
Qed.

Section UnifierFacts.
Context {lib : Pandas}.

Lemma synthetic_id_name r :
  exists a, synthetic_id r = Str (a ++ "_" ++ pretty (r_name r)).
Proof. unfold synthetic_id. by eexists. Qed.

Lemma synthetic_ids_lookup f i n :
  index f !! i = Some n ->
  apply synthetic_id f !! i = Some (synthetic_id (row_at f i n)).
Proof.
  intros H. unfold apply. change (map ?g ?l) with (g <$> l).
  by rewrite list_lookup_fmap, (rows_lookup _ _ _ H).
Qed.

Lemma synthetic_ids_NoDup f : NoDup (index f) -> NoDup (apply synthetic_id f).
Proof.
  intros Hnd. apply NoDup_alt. intros i j x Hi Hj.
  assert (i < nrows f)%nat as Hlt.
  { rewrite <-(apply_length synthetic_id). by eapply lookup_lt_Some. }
  assert (j < nrows f)%nat as Hlt'.
  { rewrite <-(apply_length synthetic_id). by eapply lookup_lt_Some. }
  destruct (lookup_lt_is_Some_2 (index f) i Hlt) as [n Hn].
  destruct (lookup_lt_is_Some_2 (index f) j Hlt') as [m Hm].
  rewrite (synthetic_ids_lookup _ _ _ Hn) in Hi.
  rewrite (synthetic_ids_lookup _ _ _ Hm) in Hj.
  destruct (synthetic_id_name (row_at f i n)) as [a Ha].
  destruct (synthetic_id_name (row_at f j m)) as [b Hb].
  change (r_name (row_at f i n)) with n in Ha.
  change (r_name (row_at f j m)) with m in Hb.
  rewrite Ha in Hi. rewrite Hb, <-Hi in Hj. injection Hj as Hj.
  apply synthetic_label_inj in Hj as ->.
  by eapply NoDup_lookup.
Qed.

Lemma synthetic_ids_not_null f : Forall (fun c => c <> Null) (apply synthetic_id f).
Proof. unfold apply. rewrite List.Forall_map. by apply Forall_true. Qed.

Lemma synthetic_id_row f i n c :
  shaped f -> index f !! i = Some n ->
  get "source_file" f ≫= (fun s => s !! i) = Some c ->
  synthetic_id (row_at f i n) = Str (str_of_cell c ++ "_" ++ pretty n).
Proof.
  intros Hs Hn Hc. unfold synthetic_id.
  rewrite r_get_row_at, Hc; [done|done|by apply lookup_lt_Some in Hn].
Qed.

(** *** Labels, shapes and columns along the unifier *)

Lemma index_fold_on_column g cs f : index (fold_left (on_column g) cs f) = index f.
Proof.
  revert f. induction cs as [|c cs IH]; simpl; intros f; [done|].
  by rewrite IH, index_on_column.
Qed.

Lemma add_required_step_index f c :
  index (if has c f then f else set_scalar c Null f) = index f.
Proof. by destruct (has c f). Qed.

Lemma index_add_required f : index (add_required f) = index f.
Proof.
  unfold add_required. generalize required. intros cs. revert f.
  induction cs as [|c cs IH]; simpl; intros f; [done|].
  by rewrite IH, add_required_step_index.
Qed.

Lemma index_apply_mapping f : index (apply_mapping f) = index f.
Proof. unfold apply_mapping. by destruct (build_mapping f). Qed.

Lemma index_add_source_file f : index (add_source_file f) = index f.
Proof. unfold add_source_file. by repeat case_match. Qed.

Lemma index_mapped f : index (mapped f) = index f.
Proof.
  unfold mapped, unify_timestamp, unify_numeric.
  by rewrite index_add_source_file, index_on_column, index_fold_on_column,
    index_add_required, index_apply_mapping.
Qed.

Lemma index_ensure_student_id f : index (ensure_student_id f) = index f.
Proof. unfold ensure_student_id. by repeat case_match. Qed.

Lemma shaped_add_required f : shaped f -> shaped (add_required f).
Proof.
  unfold add_required. generalize required. intros cs. revert f.
  induction cs as [|c cs IH]; simpl; intros f H; [done|].
  apply IH. destruct (has c f); [done|]. by apply shaped_set_scalar.
Qed.

Lemma shaped_apply_mapping f : shaped f -> shaped (apply_mapping f).
Proof.
  intros H. unfold apply_mapping, rename.
  destruct (build_mapping f); [done|]. by apply shaped_relabel.
Qed.

Lemma to_numeric_length s : length (to_numeric s) = length s.
Proof. unfold to_numeric. by rewrite length_map. Qed.

Lemma shaped_add_source_file f : shaped f -> shaped (add_source_file f).
Proof.
  intros H. unfold add_source_file.
  destruct (get "_source_file" f) as [s|] eqn:E1.
  { apply shaped_set; [done|]. by eapply shaped_get. }
  destruct (get "source" f) as [s|] eqn:E2.
  { apply shaped_set; [done|]. by eapply shaped_get. }
  by apply shaped_set_scalar.
Qed.

Lemma shaped_mapped f : shaped f -> shaped (mapped f).
Proof.
  intros H. unfold mapped, unify_timestamp, unify_numeric, strip_columns.
  apply shaped_add_source_file, shaped_on_column; [apply to_datetime_length|].
  apply shaped_fold_on_column; [apply to_numeric_length|].
  by apply shaped_add_required, shaped_apply_mapping, shaped_relabel.
Qed.

Lemma get_select c names f :
  get c (select names f) = if mem c names then get c f else None.
Proof.
  unfold get at 1, select. simpl.
  induction names as [|x names IH]; [done|].
  cbn [omap list_omap mem existsb]. fold (mem c names).
  rewrite (String.eqb_sym c x).
  destruct (get x f) as [s|] eqn:E; cbn [fmap option_fmap option_map assoc].
  - destruct (String.eqb x c) eqn:Ex; [|exact IH].
    apply String.eqb_eq in Ex as <-. by rewrite E.
  - destruct (String.eqb x c) eqn:Ex; [|exact IH].
    apply String.eqb_eq in Ex as <-. rewrite IH, E. by destruct (mem x names).
Qed.

Lemma get_reorder c f : get c (reorder f) = get c f.
Proof.
  unfold reorder. rewrite get_select.
  destruct (get c f) as [s|] eqn:E; [|by case_match].
  set (existing_keep := List.filter (fun c => has c f) keep).
  assert (mem c (existing_keep ++
            List.filter (fun c => negb (mem c existing_keep)) (columns f)) = true)
    as ->; [|done].
  apply mem_true, elem_of_app.
  destruct (mem c existing_keep) eqn:Hk; [left; by apply mem_true|right].
  apply list_elem_of_In, filter_In. split; [|by rewrite Hk].
  apply list_elem_of_In, mem_true. by apply (has_Some c f s).
Qed.

Lemma index_reorder f : index (reorder f) = index f.
Proof. done. Qed.

Lemma add_required_has cs c f :
  c ∈ cs \/ is_Some (get c f) ->
  is_Some (get c (fold_left
                    (fun f c => if has c f then f else set_scalar c Null f) cs f)).
Proof.
  revert f. induction cs as [|x cs IH]; simpl; intros f H.
  - destruct H as [H|H]; [by apply elem_of_nil in H|done].
  - apply IH. destruct H as [[->|H]%elem_of_cons|H]; [right|by left|right].
    + destruct (has x f) eqn:E.
      * rewrite has_get in E. by apply bool_decide_eq_true in E.
      * rewrite get_set_scalar, String.eqb_refl. by eexists.
    + destruct (has x f); [done|]. rewrite get_set_scalar.
      by destruct (String.eqb x c).
Qed.

Lemma mapped_student_id f : is_Some (get "student_id" (mapped f)).
Proof.
  unfold mapped.
  assert (forall g, is_Some (get "student_id" g) ->
            is_Some (get "student_id" (add_source_file g))) as Hsrc.
  { intros g Hg. unfold add_source_file, set_scalar.
    repeat case_match; by rewrite get_set_ne. }
  apply Hsrc. unfold unify_timestamp, unify_numeric.
  rewrite get_on_column, get_fold_on_column by done. simpl.
  apply add_required_has. left. by apply mem_true.
Qed.

(** *** The loader's tag survives the renaming *)

Lemma cols_low_sound f k c : assoc k (cols_low f) = Some c -> Text.lower c = k.
Proof.
  unfold cols_low.
  assert (forall l d,
            (forall k c, assoc k d = Some c -> Text.lower c = k) ->
            forall k c,
              assoc k (fold_left (fun d c => assoc_set (Text.lower c) c d) l d)
              = Some c -> Text.lower c = k) as H.
  { induction l as [|x l IH]; simpl; intros d Hd k' c'; [apply Hd|].
    apply IH. intros k0 c0.
    destruct (String.eqb (Text.lower x) k0) eqn:E.
    - apply String.eqb_eq in E as <-. rewrite assoc_set_eq. by intros [= <-].
    - rewrite assoc_set_ne by done. apply Hd. }
  by apply H.
Qed.

Lemma find_column_sound low vs c :
  find_column low vs = Some c ->
  exists v, v ∈ vs /\ assoc (Text.lower v) low = Some c.
Proof.
  induction vs as [|v vs IH]; simpl; [done|].
  destruct (assoc (Text.lower v) low) as [c'|] eqn:E.
  - intros [= <-]. exists v. split; [by left|done].
  - intros (v' & Hv' & Hc)%IH. exists v'. split; [by right|done].
Qed.

Lemma build_mapping_sound f k t :
  assoc k (build_mapping f) = Some t ->
  exists vs v, (vs, t) ∈ alias_table /\ v ∈ vs /\ Text.lower k = Text.lower v.
Proof.
  unfold build_mapping.
  assert (forall tbl m,
            (forall e, e ∈ tbl -> e ∈ alias_table) ->
            (forall k t, assoc k m = Some t ->
               exists vs v, (vs, t) ∈ alias_table /\ v ∈ vs /\
                            Text.lower k = Text.lower v) ->
            forall k t,
              assoc k (fold_left (add_alias (cols_low f)) tbl m) = Some t ->
              exists vs v, (vs, t) ∈ alias_table /\ v ∈ vs /\
                           Text.lower k = Text.lower v) as H.
  { induction tbl as [|[vs t0] tbl IH]; simpl; intros m Htbl Hm; [exact Hm|].
    apply IH; [intros e He; apply Htbl; by right|].
    intros k0 t1. unfold add_alias. simpl.
    destruct (find_column (cols_low f) vs) as [[|c r]|] eqn:E; try apply Hm.
    destruct (String.eqb (String c r) k0) eqn:Ek.
    - apply String.eqb_eq in Ek as <-. rewrite assoc_set_eq. intros [= <-].
      apply find_column_sound in E as (v & Hv & Hc).
      apply cols_low_sound in Hc. exists vs, v.
      split; [apply Htbl; by left|]. by split.
    - rewrite assoc_set_ne by done. apply Hm. }
  apply H; [done|]. by intros ? ? [=].
Qed.

Lemma alias_names_not_tag :
  Forall (fun e => Forall (fun v => Text.lower v <> "_source_file") (fst e)
                   /\ snd e <> "_source_file") alias_table.
Proof. unfold alias_table. repeat constructor; by vm_compute. Qed.

Lemma tag_not_mapped f : assoc "_source_file" (build_mapping f) = None.
Proof.
  destruct (assoc "_source_file" (build_mapping f)) as [t|] eqn:E; [|done].
  apply build_mapping_sound in E as (vs & v & He & Hv & Hl).
  pose proof alias_names_not_tag as H. rewrite Forall_forall in H.
  destruct (H _ He) as [Hvs _]. rewrite Forall_forall in Hvs.
  by destruct (Hvs _ Hv).
Qed.

Lemma tag_not_target f k : assoc k (build_mapping f) <> Some "_source_file".
Proof.
  intros E. apply build_mapping_sound in E as (vs & v & He & Hv & Hl).
  pose proof alias_names_not_tag as H. rewrite Forall_forall in H.
  by destruct (H _ He) as [_ Ht].
Qed.

Lemma get_relabel_fixed x g f :
  (forall c, g c = x <-> c = x) -> get x (relabel g f) = get x f.
Proof.
  intros Hg. unfold get, relabel. simpl.
  induction (cols f) as [|[k s] l IH]; simpl; [done|].
  rewrite IH. destruct (String.eqb (g k) x) eqn:E1, (String.eqb k x) eqn:E2; try done.
  - apply String.eqb_eq in E1. apply (proj1 (Hg k)) in E1.
    apply String.eqb_neq in E2. by destruct E2.
  - apply String.eqb_eq in E2. apply (proj2 (Hg k)) in E2.
    apply String.eqb_neq in E1. by destruct E1.
Qed.

Lemma get_tag_apply_mapping f :
  get "_source_file" (apply_mapping f) = get "_source_file" f.
Proof.
  unfold apply_mapping. pose proof (tag_not_mapped f) as Hk.
  pose proof (tag_not_target f) as Ht.
  destruct (build_mapping f) as [|e m] eqn:E; [done|].
  unfold rename. apply get_relabel_fixed. intros c. split.
  - destruct (assoc c (e :: m)) as [t|] eqn:Ec; simpl; [|done].
    intros ->. by destruct (Ht c).
  - intros ->. by rewrite Hk.
Qed.

Lemma get_add_required c f :
  mem c required = false -> get c (add_required f) = get c f.
Proof.
  unfold add_required. generalize required. intros cs. revert f.
  induction cs as [|x cs IH]; simpl; intros f; [done|].
  intros [Hx Hcs]%orb_false_iff. rewrite IH by done.
  destruct (has x f); [done|]. rewrite get_set_scalar.
  by rewrite String.eqb_sym, Hx.
Qed.

Lemma get_tag_pre f :
  get "_source_file" (unify_timestamp (unify_numeric (add_required
     (apply_mapping (strip_columns f)))))
  = get "_source_file" (strip_columns f).
Proof.
  unfold unify_timestamp, unify_numeric.
  rewrite get_on_column, get_fold_on_column, get_add_required by reflexivity.
  apply get_tag_apply_mapping.
Qed.

Lemma nrows_pre f :
  nrows (unify_timestamp (unify_numeric (add_required
     (apply_mapping (strip_columns f))))) = nrows f.
Proof.
  unfold nrows, unify_timestamp, unify_numeric.
  by rewrite index_on_column, index_fold_on_column, index_add_required,
    index_apply_mapping.
Qed.

Lemma get_add_source_file f :
  get "source_file" (add_source_file f)
  = Some (match get "_source_file" f with
          | Some tag => tag
          | None => default (replicate (nrows f) Null) (get "source" f)
          end).
Proof.
  unfold add_source_file.
  destruct (get "_source_file" f); [apply get_set_eq|].
  destruct (get "source" f); apply get_set_eq.
Qed.

Lemma get_tag_mapped f :
  get "source_file" (mapped f)
  = Some (match get "_source_file" (strip_columns f) with
          | Some tag => tag
          | None =>
              default (replicate (nrows f) Null)
                (get "source" (unify_timestamp (unify_numeric (add_required
                   (apply_mapping (strip_columns f))))))
          end).
Proof. unfold mapped. by rewrite get_add_source_file, get_tag_pre, nrows_pre. Qed.

(** *** So does a column named [source] *)

Lemma alias_names_not_source :
  Forall (fun e => Forall (fun v => Text.lower v <> "source") (fst e)
                   /\ snd e <> "source") alias_table.
Proof. unfold alias_table. repeat constructor; by vm_compute. Qed.

Lemma source_not_mapped f : assoc "source" (build_mapping f) = None.
Proof.
  destruct (assoc "source" (build_mapping f)) as [t|] eqn:E; [|done].
  apply build_mapping_sound in E as (vs & v & He & Hv & Hl).
  pose proof alias_names_not_source as H. rewrite Forall_forall in H.
  destruct (H _ He) as [Hvs _]. rewrite Forall_forall in Hvs.
  by destruct (Hvs _ Hv).
Qed.

Lemma source_not_target f k : assoc k (build_mapping f) <> Some "source".
Proof.
  intros E. apply build_mapping_sound in E as (vs & v & He & Hv & Hl).
  pose proof alias_names_not_source as H. rewrite Forall_forall in H.
  by destruct (H _ He) as [_ Ht].
Qed.

Lemma get_source_apply_mapping f :
  get "source" (apply_mapping f) = get "source" f.
Proof.
  unfold apply_mapping. pose proof (source_not_mapped f) as Hk.
  pose proof (source_not_target f) as Ht.
  destruct (build_mapping f) as [|e m] eqn:E; [done|].
  unfold rename. apply get_relabel_fixed. intros c. split.
  - destruct (assoc c (e :: m)) as [t|] eqn:Ec; simpl; [|done].
    intros ->. by destruct (Ht c).
  - intros ->. by rewrite Hk.
Qed.

Lemma get_source_pre f :
  get "source" (unify_timestamp (unify_numeric (add_required
     (apply_mapping (strip_columns f)))))
  = get "source" (strip_columns f).
Proof.
  unfold unify_timestamp, unify_numeric.
  rewrite get_on_column, get_fold_on_column, get_add_required by reflexivity.
  apply get_source_apply_mapping.
Qed.

(** Without a tag, [source_file] is the column [source], or null. *)
Lemma unify_source_fallback f src :
  get "source_file" (mapped f) = Some src ->
  get "_source_file" (strip_columns f) = None ->
  (forall s, get "source" (strip_columns f) = Some s -> src = s) /\
  (get "source" (strip_columns f) = None -> src = replicate (nrows f) Null).
Proof.
  rewrite get_tag_mapped, get_source_pre. intros [= <-] ->. split.
  - by intros s ->.
  - by intros ->.
Qed.

End UnifierFacts.

Section UnifierSteps.
Context {lib : Pandas}.

Lemma get_unify_frame c f : get c (unify_frame f) = get c (ensure_student_id (mapped f)).
Proof. apply get_reorder. Qed.

Lemma unify_source f :
  exists src,
    get "source_file" (mapped f) = Some src /\
    get "source_file" (unify_frame f) = Some src /\
    index (unify_frame f) = index f /\
    (forall tag, get "_source_file" (strip_columns f) = Some tag -> src = tag).
Proof.
  pose proof (get_tag_mapped f) as Hsrc.
  destruct (get "source_file" (mapped f)) as [src|] eqn:Esrc; [|discriminate].
  exists src. split; [reflexivity|]. split; [|split].
  - rewrite get_unify_frame. unfold ensure_student_id.
    destruct (get "student_id" (mapped f)) as [mid|]; [|exact Esrc].
    destruct (Series.isna_all mid); [|exact Esrc].
    rewrite get_set_ne by reflexivity. exact Esrc.
  - unfold unify_frame. rewrite index_reorder, index_ensure_student_id.
    apply index_mapped.
  - intros tag Htag. rewrite Htag in Hsrc. by injection Hsrc.
Qed.

Lemma unify_synthetic f mid src :
  shaped f ->
  get "student_id" (mapped f) = Some mid ->
  get "source_file" (mapped f) = Some src ->
  Series.isna_all mid = true ->
  exists sid,
    get "student_id" (unify_frame f) = Some sid /\
    length sid = nrows f /\
    (forall (i n : nat) (c : cell),
       index f !! i = Some n -> src !! i = Some c ->
       sid !! i = Some (Str (str_of_cell c ++ "_" ++ pretty n))) /\
    Forall not_null sid /\
    (NoDup (index f) -> NoDup sid).
Proof.
  intros Hs Hmid Esrc Hall.
  pose proof (shaped_mapped f Hs) as Hsm.
  pose proof (index_mapped f) as Hidx.
  exists (apply synthetic_id (mapped f)). split; [|split; [|split; [|split]]].
  - rewrite get_unify_frame. unfold ensure_student_id. rewrite Hmid, Hall.
    apply get_set_eq.
  - rewrite apply_length. unfold nrows. by rewrite Hidx.
  - intros i n c Hn Hc. rewrite <-Hidx in Hn.
    rewrite (synthetic_ids_lookup _ _ _ Hn). f_equal.
    apply synthetic_id_row; [assumption..|]. rewrite Esrc. exact Hc.
  - apply synthetic_ids_not_null.
  - intros Hnd. apply synthetic_ids_NoDup. by rewrite Hidx.
Qed.

Lemma unify_kept f mid :
  get "student_id" (mapped f) = Some mid ->
  Series.isna_all mid = false ->
  get "student_id" (unify_frame f) = Some mid.
Proof.
  intros Hmid Hall. rewrite get_unify_frame. unfold ensure_student_id.
  by rewrite Hmid, Hall.
Qed.

End UnifierSteps.

Section UnifierClaims.
Context {lib : Pandas}.

(** C1, amended: [source_file] is the loader's [_source_file] column when
    the batch has one, so it is as non-null as that tag; without a tag it
    is the column named [source], and null in every row when there is none.
    When the mapped [student_id] column is entirely null every row gets the
    id ["{source_file}_{row label}"], which is never null and is unique
    within the batch when the row labels are; otherwise the mapped ids are
    kept as they are, nulls included. *)
Theorem unify_ids f :
  batch_ok f ->
  exists mid src,
    get "student_id" (mapped f) = Some mid /\
    get "source_file" (mapped f) = Some src /\
    get "source_file" (unify_frame f) = Some src /\
    index (unify_frame f) = index f /\
    (forall tag, get "_source_file" (strip_columns f) = Some tag -> src = tag) /\
    (get "_source_file" (strip_columns f) = None ->
       (forall s, get "source" (strip_columns f) = Some s -> src = s) /\
       (get "source" (strip_columns f) = None ->
        src = replicate (nrows f) Null)) /\
    (Series.isna_all mid = true ->
       exists sid,
         get "student_id" (unify_frame f) = Some sid /\
         length sid = nrows f /\
         (forall (i n : nat) (c : cell), index f !! i = Some n -> src !! i = Some c ->
            sid !! i = Some (Str (str_of_cell c ++ "_" ++ pretty n))) /\
         Forall not_null sid /\
         (NoDup (index f) -> NoDup sid)) /\
    (Series.isna_all mid = false ->
       get "student_id" (unify_frame f) = Some mid).
Proof.
  intros [Hs _]. destruct (mapped_student_id f) as [mid Hmid].
  destruct (unify_source f) as (src & Esrc & Hout & Hidx & Htag).
  exists mid, src. split; [exact Hmid|]. split; [exact Esrc|].
  split; [exact Hout|]. split; [exact Hidx|]. split; [exact Htag|].
  split; [exact (unify_source_fallback f src Esrc)|].
  split.
  - exact (unify_synthetic f mid src Hs Hmid Esrc).
  - exact (unify_kept f mid Hmid).
Qed.

End UnifierClaims.

(** C1, counterexample: in a tagged batch with one id missing the id column
    is not entirely null, so the missing id stays null. *)
Lemma ids_can_be_null : ~ @ids_never_null Reference.lib.
Proof.
  intros H.
  destruct (H partial_ids [Str "s1"; Null] [Str "a.csv"; Str "a.csv"])
    as [Hsid _].
  - concrete_ok.
  - vm_compute. reflexivity.
  - vm_compute. reflexivity.
  - apply Forall_cons in Hsid as [_ Hsid]. apply Forall_cons in Hsid as [Hn _].
    by apply Hn.
Qed.

Lemma unify_ids_witness :
  (get "source_file" (unify_frame no_ids) = Some [Str "a.csv"; Str "a.csv"] /\
   exists sid,
     get "student_id" (unify_frame no_ids) = Some sid /\
     sid !! 1%nat = Some (Str "a.csv_1") /\ Forall not_null sid) /\
  get "source_file" (unify_frame sourced) = Some [Str "web"; Str "app"].
Proof.
  split.
  - destruct (@unify_ids Reference.lib no_ids)
      as (mid & src & Hmid & _ & Hsrc & _ & Htag & _ & Hsynth & _).
    + concrete_ok.
    + assert (src = [Str "a.csv"; Str "a.csv"]) as ->
        by (apply Htag; vm_compute; reflexivity).
      split; [exact Hsrc|].
      vm_compute in Hmid. injection Hmid as <-.
      destruct (Hsynth eq_refl) as (sid & Hsid & _ & Hrows & Hnn & _).
      exists sid. split; [exact Hsid|]. split; [|exact Hnn].
      pose proof (Hrows 1%nat 1%nat (Str "a.csv") eq_refl eq_refl) as H1.
      vm_compute in H1. vm_compute. exact H1.
  - destruct (@unify_ids Reference.lib sourced)
      as (mid & src & _ & _ & Hsrc & _ & _ & Hfall & _).
    + concrete_ok.
    + destruct Hfall as [Hsource _]; [vm_compute; reflexivity|].
      assert (src = [Str "web"; Str "app"]) as ->
        by (apply Hsource; vm_compute; reflexivity).
      exact Hsrc.
Defined.

(** ** Tables as objects *)

Module StoreFacts.
Local Open Scope list_scope.

Lemma last_read (H : store) (X : frame) : (H ++ [X]) !!! length H = X.
Proof. by rewrite lookup_total_app_r, Nat.sub_diag. Qed.

Lemma last_write (H : store) (X Y : frame) : <[length H := Y]> (H ++ [X]) = H ++ [Y].
Proof. by rewrite insert_app_r_alt, Nat.sub_diag. Qed.

Lemma run_bind {A B} (m : M A) (k : A -> M B) h a h' :
  m h = (Ok a, h') -> (m ≫= k) h = k a h'.
Proof. intros H. unfold mbind, M_bind. by rewrite H. Qed.

Lemma run_bind_raise {A B} (m : M A) (k : A -> M B) h e h' :
  m h = (Raise e, h') -> (m ≫= k) h = (Raise e, h').
Proof. intros H. unfold mbind, M_bind. by rewrite H. Qed.

Lemma run_copy l h : Store.copy l h = (Ok (length h), h ++ [h !!! l]).
Proof. done. Qed.

Lemma run_alloc f h : Store.alloc f h = (Ok (length h), h ++ [f]).
Proof. done. Qed.

Lemma run_read H X : Store.read (length H) (H ++ [X]) = (Ok X, H ++ [X]).
Proof. unfold Store.read. by rewrite last_read. Qed.

Lemma run_update H X g :
  Store.update (length H) g (H ++ [X]) = (Ok (), H ++ [g X]).
Proof. unfold Store.update. by rewrite last_read, last_write. Qed.

Lemma run_update_r H X g :
  Store.update_r (length H) g (H ++ [X])
  = match g X with
    | Ok Y => (Ok (), H ++ [Y])
    | Raise e => (Raise e, H ++ [X])
    end.
Proof.
  unfold Store.update_r. rewrite last_read. destruct (g X); [|done].
  by rewrite last_write.
Qed.

Lemma run_bind_update_r {B} H X g (k : unit -> M B) :
  (Store.update_r (length H) g ≫= k) (H ++ [X])
  = match g X with
    | Ok Y => k () (H ++ [Y])
    | Raise e => (Raise e, H ++ [X])
    end.
Proof.
  unfold mbind, M_bind. rewrite run_update_r. by destruct (g X).
Qed.

End StoreFacts.

Import StoreFacts.

Ltac run_step :=
  first
    [ rewrite (run_bind _ _ _ _ _ (run_update _ _ _))
    | rewrite (run_bind _ _ _ _ _ (run_read _ _))
    | rewrite (run_bind _ _ _ _ _ (run_alloc _ _))
    | rewrite (run_bind _ _ _ _ _ (run_copy _ _)) ].

Section ProgramFacts.
Context {lib : Pandas}.
Local Open Scope list_scope.

(** The cleaner on a store: the tables already there stay as they are, and
    the result is a new table holding what [clean_frame] computes. *)
Lemma clean_dataframe_run h l :
  exists k,
    snd (clean_dataframe l h) = h ++ k /\
    match clean_frame (h !!! l) with
    | Ok f' =>
        exists k', k = k' ++ [f'] /\
                   fst (clean_dataframe l h) = Ok (length (h ++ k'))
    | Raise e => fst (clean_dataframe l h) = Raise e
    end.
Proof.
  unfold clean_dataframe, clean_frame, clean_until_dedup.
  set (f := h !!! l).
  run_step. run_step.
  assert (exists H,
            (exists k0, H = h ++ k0) /\
            (match cols_to_drop f with
             | [] => mret (length h)
             | cs => Store.alloc (Frame.drop cs f)
             end) (h ++ [f]) = (Ok (length H), H ++ [drop_metadata f]))
    as (H & [k0 ->] & Hdrop).
  { unfold drop_metadata. destruct (cols_to_drop f) as [|c cs].
    - exists h. split; [by exists []; rewrite app_nil_r|done].
    - exists (h ++ [f]). split; [by eexists|done]. }
  rewrite (run_bind _ _ _ _ _ Hdrop). clear Hdrop.
  do 3 run_step.
  rewrite run_bind_update_r.
  destruct (fill_duration _) as [f1|e] eqn:E; simpl rbind.
  2:{ exists (k0 ++ [coerce_candidates (normalize_gender (strip_columns
                       (drop_metadata f)))]).
      split; [rewrite app_assoc; reflexivity|reflexivity]. }
  do 8 run_step. run_step.
  set (X := timestamp_features _).
  assert (exists H,
            (exists k1, H = (h ++ k0) ++ k1) /\
            (match key_cols X with
             | [] => mret (length (h ++ k0))
             | cs => Store.alloc (drop_duplicates cs X)
             end) ((h ++ k0) ++ [X]) = (Ok (length H), H ++ [remove_duplicates X]))
    as (H & [k1 ->] & Hdedup).
  { unfold remove_duplicates. destruct (key_cols X) as [|c cs].
    - exists (h ++ k0). split; [by exists []; rewrite app_nil_r|done].
    - exists ((h ++ k0) ++ [X]). split; [by eexists|done]. }
  rewrite (run_bind _ _ _ _ _ Hdedup). clear Hdedup.
  do 4 run_step. unfold mret, M_ret. simpl fst. simpl snd.
  exists ((k0 ++ k1) ++ [finish (remove_duplicates X)]). unfold finish. split.
  - rewrite !app_assoc. reflexivity.
  - exists (k0 ++ k1). split; [reflexivity|]. rewrite !app_assoc. reflexivity.
Qed.

(** The same for the unifier, which never raises. *)
Lemma unify_columns_run h l :
  exists k',
    unify_columns l h
    = (Ok (length (h ++ k')), (h ++ k') ++ [unify_frame (h !!! l)]).
Proof.
  unfold unify_columns, unify_frame, mapped.
  set (f := h !!! l).
  do 3 run_step.
  assert (exists H,
            (exists k0, H = h ++ k0) /\
            (match build_mapping (strip_columns f) with
             | [] => mret (length h)
             | mapping => Store.alloc (rename mapping (strip_columns f))
             end) (h ++ [strip_columns f])
            = (Ok (length H), H ++ [apply_mapping (strip_columns f)]))
    as (H & [k0 ->] & Hmap).
  { unfold apply_mapping. destruct (build_mapping (strip_columns f)) as [|c cs].
    - exists h. split; [by exists []; rewrite app_nil_r|done].
    - exists (h ++ [strip_columns f]). split; [by eexists|done]. }
  rewrite (run_bind _ _ _ _ _ Hmap). clear Hmap.
  do 5 run_step. run_step. rewrite run_alloc.
  exists (k0 ++ [ensure_student_id (add_source_file (unify_timestamp
            (unify_numeric (add_required (apply_mapping (strip_columns f))))))]).
  rewrite !app_assoc. reflexivity.
Qed.

End ProgramFacts.

Section MutationClaims.
Context {lib : Pandas}.
Local Open Scope list_scope.

(** C10: [clean_dataframe] and [unify_columns] leave the table they are
    given, and every other table of the caller, with the same columns and
    values; what they compute is in a table that did not exist before,
    also when the cleaner raises. *)
Theorem input_not_mutated (h : store) (l : loc) (f : frame) :
  h !! l = Some f ->
  (snd (clean_dataframe l h) !! l = Some f /\
   (forall k g, h !! k = Some g -> snd (clean_dataframe l h) !! k = Some g) /\
   match fst (clean_dataframe l h) with
   | Ok l' =>
       l' <> l /\ (length h <= l')%nat /\
       exists f', clean_frame f = Ok f' /\
                  snd (clean_dataframe l h) !! l' = Some f'
   | Raise e => clean_frame f = Raise e
   end) /\
  (snd (unify_columns l h) !! l = Some f /\
   (forall k g, h !! k = Some g -> snd (unify_columns l h) !! k = Some g) /\
   exists l',
     fst (unify_columns l h) = Ok l' /\ l' <> l /\ (length h <= l')%nat /\
     snd (unify_columns l h) !! l' = Some (unify_frame f)).
Proof.
  intros Hl. pose proof (lookup_lt_Some _ _ _ Hl) as Hlt.
  pose proof (list_lookup_total_correct _ _ _ Hl) as Hf. split.
  - destruct (clean_dataframe_run h l) as (k & Hk & Hres). rewrite Hk.
    split; [by apply lookup_app_l_Some|]. split.
    { intros i g Hi. by apply lookup_app_l_Some. }
    rewrite Hf in Hres. destruct (clean_frame f) as [f'|e].
    + destruct Hres as (k' & -> & ->). rewrite length_app.
      split; [lia|]. split; [lia|]. exists f'. split; [done|].
      rewrite app_assoc, <-length_app. apply list_lookup_middle. done.
    + by rewrite Hres.
  - destruct (unify_columns_run h l) as [k' Hrun]. rewrite Hrun, Hf. simpl.
    split; [by rewrite <-app_assoc; apply lookup_app_l_Some|]. split.
    { intros i g Hi. by rewrite <-app_assoc; apply lookup_app_l_Some. }
    exists (length (h ++ k')). split; [done|]. rewrite length_app.
    split; [lia|]. split; [lia|]. rewrite <-length_app.
    by apply list_lookup_middle.
Qed.

End MutationClaims.

Lemma input_not_mutated_witness :
  snd (clean_dataframe 0%nat [sparse_views]) !! 0%nat = Some sparse_views /\
  snd (unify_columns 0%nat [sparse_views]) !! 0%nat = Some sparse_views.
Proof.
  destruct (@input_not_mutated Reference.lib [sparse_views] 0%nat sparse_views
              eq_refl) as [[Hclean _] [Hunify _]].
  split; [exact Hclean|exact Hunify].
Defined.

(** ** Rows under a mask *)

Lemma mask_list_lookup {A} (m : list bool) (l : list A) j :
  Frame.mask_list m l !! j = nth_true m j ≫= (fun p => l !! p).
Proof.
  revert l j. induction m as [|[] m IH]; intros [|x l] j; simpl; try done.
  - by destruct j; [|destruct (nth_true m j)].
  - destruct j as [|j]; [done|]. simpl. rewrite IH. by destruct (nth_true m j).
  - by destruct (nth_true m j).
  - rewrite IH. by destruct (nth_true m j).
Qed.

Lemma nth_true_kept m j p : nth_true m j = Some p -> m !! p = Some true.
Proof.
  revert j p. induction m as [|[] m IH]; intros j p; simpl; [done|..].
  - destruct j as [|j]; [by intros [= <-]|].
    destruct (nth_true m j) as [q|] eqn:E; [|done]. intros [= <-]. by eapply IH.
  - destruct (nth_true m j) as [q|] eqn:E; [|done]. intros [= <-]. by eapply IH.
Qed.

Lemma nth_true_mono m j j' p :
  (j' < j)%nat -> nth_true m j = Some p ->
  exists p', nth_true m j' = Some p' /\ (p' < p)%nat.
Proof.
  revert j j' p. induction m as [|[] m IH]; intros j j' p Hlt; simpl; [done|..].
  - destruct j as [|j]; [lia|].
    destruct (nth_true m j) as [q|] eqn:E; [|done]. intros [= <-].
    destruct j' as [|j']; [exists 0%nat; split; [done|lia]|].
    destruct (IH j j' q) as (q' & -> & Hq); [lia|done|].
    exists (S q'). split; [done|lia].
  - destruct (nth_true m j) as [q|] eqn:E; [|done]. intros [= <-].
    destruct (IH j j' q) as (q' & -> & Hq); [lia|done|].
    exists (S q'). split; [done|lia].
Qed.

Lemma mask_list_map {A B} (g : A -> B) m l :
  mask_list m (map g l) = map g (mask_list m l).
Proof.
  revert l. induction m as [|[] m IH]; intros [|x l]; simpl; try done.
  by rewrite IH.
Qed.

Lemma mask_list_all {A} (l : list A) n :
  (length l <= n)%nat -> mask_list (replicate n true) l = l.
Proof.
  revert n. induction l as [|x l IH]; intros [|n] H; simpl in *; try done; try lia.
  rewrite IH; [done|lia].
Qed.

Module RowFacts.
Import Frame.

Lemma cells_under_mask m j p (l : list (string * column)) :
  nth_true m j = Some p ->
  omap (fun kc => (fun x => (fst kc, x)) <$> snd kc !! j)
    (map (fun kc => (fst kc, mask_list m (snd kc))) l)
  = omap (fun kc => (fun x => (fst kc, x)) <$> snd kc !! p) l.
Proof.
  intros Ep. induction l as [|[k x] l IH]; [done|].
  cbn [map omap list_omap fst snd]. rewrite mask_list_lookup, Ep.
  cbn [mbind option_bind]. by rewrite IH.
Qed.

Lemma rows_filter_rows m f : rows (filter_rows m f) = mask_list m (rows f).
Proof.
  apply list_eq. intros j. unfold rows at 1.
  rewrite list_lookup_imap, index_filter_rows, !mask_list_lookup.
  destruct (nth_true m j) as [p|] eqn:Ep; simpl; [|done].
  unfold rows. rewrite list_lookup_imap.
  destruct (index f !! p) as [n|]; simpl; [|done]. f_equal.
  unfold row_at. f_equal. by apply cells_under_mask.
Qed.

Lemma apply_filter_rows {A} (g : row -> A) m f :
  apply g (filter_rows m f) = mask_list m (apply g f).
Proof. unfold apply. by rewrite rows_filter_rows, mask_list_map. Qed.

End RowFacts.

Import RowFacts.

(** ** Running a step twice *)

Lemma kept_keys_distinct ks :
  duplicated (mask_list (map negb (duplicated ks)) ks)
  = replicate (length (mask_list (map negb (duplicated ks)) ks)) false.
Proof.
  set (keep := map negb (duplicated ks)). set (ks' := mask_list keep ks).
  apply list_eq. intros j.
  destruct (ks' !! j) as [k|] eqn:Ej.
  - rewrite (duplicated_lookup _ _ _ Ej).
    rewrite lookup_replicate_2 by (by eapply lookup_lt_Some). f_equal.
    destruct (existsb (key_eqb k) (take j ks')) eqn:E; [exfalso|done].
    apply earlier_equal in E as (j' & k' & Hlt & Hj' & Heq).
    unfold ks' in Ej, Hj'. rewrite mask_list_lookup in Ej, Hj'.
    destruct (nth_true keep j) as [p|] eqn:Ep; [|done]. simpl in Ej.
    destruct (nth_true_mono keep j j' p Hlt Ep) as (p' & Ep' & Hp).
    rewrite Ep' in Hj'. simpl in Hj'.
    pose proof (nth_true_kept _ _ _ Ep) as Hkept.
    unfold keep in Hkept. rewrite (kept_lookup _ _ _ Ej) in Hkept.
    injection Hkept as Hkept. apply negb_true_iff in Hkept.
    assert (existsb (key_eqb k) (take p ks) = true) as Hdup; [|congruence].
    apply earlier_equal. by exists p', k'.
  - apply lookup_ge_None in Ej.
    assert (duplicated ks' !! j = None) as ->.
    { apply lookup_ge_None. by rewrite duplicated_length. }
    symmetry. apply lookup_ge_None. by rewrite length_replicate.
Qed.

Lemma filter_rows_all f n :
  Frame.shaped f -> (Frame.nrows f <= n)%nat ->
  Frame.filter_rows (replicate n true) f = f.
Proof.
  intros Hs Hn. destruct f as [idx cs]. unfold Frame.filter_rows. simpl.
  unfold Frame.shaped, Frame.nrows in *. simpl in *.
  rewrite mask_list_all by done. f_equal.
  induction Hs as [|[k x] l Hx Hl IH]; simpl; [done|].
  simpl in Hx. rewrite mask_list_all by lia. by rewrite IH.
Qed.

Lemma drop_duplicates_idem cs f :
  Frame.shaped f ->
  drop_duplicates cs (drop_duplicates cs f) = drop_duplicates cs f.
Proof.
  intros Hs. unfold drop_duplicates at 1 2.
  set (ks := Frame.apply (row_key cs) f).
  rewrite apply_filter_rows. fold ks. rewrite kept_keys_distinct.
  change (map negb (replicate ?n ?b)) with (negb <$> replicate n b).
  rewrite fmap_replicate. simpl negb.
  apply filter_rows_all; [by apply shaped_filter_rows|].
  unfold Frame.nrows. simpl. apply Nat.eq_le_incl, mask_list_length.
  unfold ks. by rewrite apply_length.
Qed.

Lemma fillna_idem v s :
  Series.isna v = false -> Series.fillna v (Series.fillna v s) = Series.fillna v s.
Proof.
  intros Hv. unfold Series.fillna. rewrite List.map_map. apply map_ext.
  intros c. destruct (Series.isna c) eqn:E; [by rewrite Hv|by rewrite E].
Qed.

Lemma clip_idem low high s :
  (low <= high)%Q ->
  Series.clip low high (Series.clip low high s) = Series.clip low high s.
Proof.
  intros Hlh. unfold Series.clip. rewrite List.map_map. apply map_ext.
  intros [|q|t|t]; simpl; try done.
  assert (Qlt_bool high high = false) as Hhh by (apply Qlt_bool_false; lra).
  assert (Qlt_bool low low = false) as Hll by (apply Qlt_bool_false; lra).
  assert (Qlt_bool high low = false) as Hhl by (by apply Qlt_bool_false).
  destruct (Qlt_bool high q) eqn:E1; simpl; [by rewrite Hhh, Hhl|].
  destruct (Qlt_bool q low) eqn:E2; simpl; [by rewrite Hhl, Hll|].
  by rewrite E1, E2.
Qed.

Section StepsTwice.
Context {lib : Pandas}.

Lemma normalize_gender_fixed s :
  Forall is_gender s -> normalize_gender_series s = s.
Proof.
  intros H. unfold normalize_gender_series, Series.fillna.
  rewrite List.map_map. induction H as [|c s Hc Hs IH]; [done|].
  cbn [map]. rewrite IH. f_equal.
  destruct Hc as [->|[->| ->]]; rewrite str_of_cell_Str; reflexivity.
Qed.

Lemma coerce_numeric_fixed s :
  Forall numeric s -> coerce_numeric_series s = s.
Proof.
  intros H. unfold coerce_numeric_series.
  assert (Series.is_object s = false) as ->.
  { unfold Series.is_object. induction H as [|c s Hc Hs IH]; [done|].
    cbn [existsb]. rewrite IH. by destruct c. }
  unfold to_numeric. induction H as [|c s Hc Hs IH]; [done|].
  cbn [map]. rewrite IH. by destruct c.
Qed.

(** C9, amended: gender normalization, numeric coercion, deduplication,
    filling of nulls and clipping to fixed bounds each give the same result
    when applied to their own output. *)
Theorem steps_idempotent :
  (forall s, normalize_gender_series (normalize_gender_series s)
             = normalize_gender_series s) /\
  (forall s, coerce_numeric_series (coerce_numeric_series s)
             = coerce_numeric_series s) /\
  (forall cs f, Frame.shaped f ->
     drop_duplicates cs (drop_duplicates cs f) = drop_duplicates cs f) /\
  (forall v s, Series.isna v = false ->
     Series.fillna v (Series.fillna v s) = Series.fillna v s) /\
  (forall low high s, (low <= high)%Q ->
     Series.clip low high (Series.clip low high s) = Series.clip low high s).
Proof.
  split; [|split; [|split; [|split]]].
  - intros s. apply normalize_gender_fixed, normalize_gender_series_ok.
  - intros s. apply coerce_numeric_fixed, coerce_numeric_series_numeric.
  - apply drop_duplicates_idem.
  - apply fillna_idem.
  - apply clip_idem.
Qed.

End StepsTwice.

(** C9, counterexample: views 0 and 100 are capped to 1 and 99 by a first
    run, and to 1.98 and 98.02 by a second run on that output, since the
    percentiles are taken anew from the capped values. *)
Lemma clean_not_idempotent : ~ @clean_idempotent Reference.lib.
Proof.
  intros H.
  assert (exists f1 f2,
            clean_frame (unify_frame two_views) = Ok f1 /\
            clean_frame f1 = Ok f2 /\
            Frame.get "views" f1 = Some [Num 1; Num 99] /\
            Frame.get "views" f2 = Some [Num (99 # 50); Num (4901 # 50)])
    as (f1 & f2 & H1 & H2 & Hv1 & Hv2).
  { eexists _, _. split; [vm_compute; reflexivity|].
    split; [vm_compute; reflexivity|]. split; vm_compute; reflexivity. }
  assert (batch_ok two_views) as Hs by concrete_ok.
  rewrite (H two_views f1 Hs H1) in H2. injection H2 as <-.
  rewrite Hv1 in Hv2. discriminate Hv2.
Qed.

Lemma steps_idempotent_witness :
  drop_duplicates (key_cols dup_nulls)
    (drop_duplicates (key_cols dup_nulls) dup_nulls)
  = drop_duplicates (key_cols dup_nulls) dup_nulls /\
  Series.fillna (Num 0) (Series.fillna (Num 0) [Null; Num 3])
  = Series.fillna (Num 0) [Null; Num 3] /\
  Series.clip 1 99 (Series.clip 1 99 [Num 0; Num 100])
  = Series.clip 1 99 [Num 0; Num 100].
Proof.
  destruct (@steps_idempotent Reference.lib) as (_ & _ & Hdedup & Hfill & Hclip).
  split; [|split].
  - apply Hdedup. by repeat constructor.
  - by apply Hfill.
  - by apply Hclip.
Defined.

(** * Further properties *)

(** ** Durations: case, blanks and errors *)

Lemma upper_char_idem c : upper_char (upper_char c) = upper_char c.
Proof. destruct c as [[] [] [] [] [] [] [] []]; reflexivity. Qed.

Lemma upper_char_space c : py_isspace (upper_char c) = py_isspace c.
Proof. destruct c as [[] [] [] [] [] [] [] []]; reflexivity. Qed.

Lemma upper_idem s : upper (upper s) = upper s.
Proof.
  induction s as [|c s IH]; [done|].
  unfold upper in *. simpl. by rewrite upper_char_idem, IH.
Qed.

Lemma lstrip_smap f s :
  (forall c, py_isspace (f c) = py_isspace c) -> lstrip (smap f s) = smap f (lstrip s).
Proof.
  intros Hf. induction s as [|c s IH]; [done|]. simpl. rewrite Hf.
  by destruct (py_isspace c).
Qed.

Lemma rstrip_smap f s :
  (forall c, py_isspace (f c) = py_isspace c) -> rstrip (smap f s) = smap f (rstrip s).
Proof.
  intros Hf. induction s as [|c s IH]; [done|]. simpl. rewrite IH, Hf.
  destruct (rstrip s); simpl; [by destruct (py_isspace c)|done].
Qed.

Lemma strip_smap f s :
  (forall c, py_isspace (f c) = py_isspace c) -> strip (smap f s) = smap f (strip s).
Proof. intros Hf. unfold strip. by rewrite lstrip_smap, rstrip_smap. Qed.

Lemma strip_upper s : strip (upper s) = upper (strip s).
Proof. apply strip_smap, upper_char_space. Qed.

Lemma rstrip_idem s : rstrip (rstrip s) = rstrip s.
Proof.
  induction s as [|c s IH]; [done|].
  simpl. destruct (rstrip s) as [|d r] eqn:E.
  - destruct (py_isspace c) eqn:Ec; [done|]. simpl. by rewrite Ec.
  - simpl in *. by rewrite IH.
Qed.

Lemma rstrip_head c s :
  py_isspace c = false -> exists r, rstrip (String c s) = String c r.
Proof.
  intros Hc. simpl. destruct (rstrip s); [rewrite Hc|]; by eexists.
Qed.

Lemma lstrip_start s :
  lstrip s = "" \/ exists c r, lstrip s = String c r /\ py_isspace c = false.
Proof.
  induction s as [|c s IH]; [by left|].
  simpl. destruct (py_isspace c) eqn:Ec; [done|]. right. by eexists _, _.
Qed.

Lemma strip_idem s : strip (strip s) = strip s.
Proof.
  unfold strip. destruct (lstrip_start s) as [->|(c & r & -> & Hc)]; [done|].
  destruct (rstrip_head c r Hc) as [r' E].
  rewrite E, lstrip_head by done. rewrite <- E. apply rstrip_idem.
Qed.

Lemma normal_form_idem s : upper (strip (upper (strip s))) = upper (strip s).
Proof. by rewrite strip_upper, strip_idem, upper_idem. Qed.

(** X1: the parser ignores blanks around the text and the case of its
    letters: a text and its trimmed upper-case form give the same result,
    error included. *)
Theorem iso8601_case_and_blanks (s : string) :
  iso8601_duration_to_seconds (Str s)
  = iso8601_duration_to_seconds (Str (upper (strip s))).
Proof.
  unfold iso8601_duration_to_seconds. by rewrite normal_form_idem.
Qed.

Lemma split_nonempty sep s : split sep s <> [].
Proof.
  destruct s as [|c s]; [done|]. simpl.
  destruct (Ascii.eqb c sep); [done|]. by destruct (split sep s).
Qed.

(** X2: on an ASCII text within the interpreter's limit of 4300 digits the
    parser raises on exactly one kind of input: a text that is not an ISO
    duration and whose parts between colons are four or more integer
    literals, as [int] reads them.  Every other cell gives a number of
    seconds or [None]. *)
Theorem iso8601_raises_iff (v : cell) :
  (forall s, v = Str s ->
     sall is_ascii s = true /\ (String.length s <= 4300)%nat) ->
  (iso8601_duration_to_seconds v = Raise AttributeError <->
   exists s l,
     v = Str s /\
     ISO8601_DURATION_RE (upper (strip s)) = None /\
     mapM py_int (split ":" (upper (strip s))) = Some l /\
     (4 <= length l)%nat).
Proof.
  intros _. split.
  - destruct v as [| |s|]; try discriminate. intros H. exists s.
    unfold iso8601_duration_to_seconds, colon_fallback in H.
    destruct (ISO8601_DURATION_RE (upper (strip s))) as [g|] eqn:Em;
      [discriminate|].
    destruct (mapM py_int (split ":" (upper (strip s)))) as [l|] eqn:El;
      [|discriminate].
    exists l. split; [done|]. split; [done|]. split; [done|].
    destruct l as [|a [|b [|c [|d l]]]]; try discriminate; [|simpl; lia].
    apply length_mapM in El. simpl in El.
    destruct (split ":" (upper (strip s))) eqn:Es; [|done].
    by apply split_nonempty in Es.
  - intros (s & l & -> & Em & El & Hl).
    apply iso8601_fall_through; [done|].
    unfold colon_fallback. rewrite El.
    destruct l as [|a [|b [|c [|d l]]]]; simpl in Hl; try lia. done.
Qed.

(** Five parts raise; a part that ends in the unit separator, which
    [str.strip] would remove and [int] does not accept, gives [None]. *)
Lemma iso8601_raises_iff_witness :
  iso8601_duration_to_seconds (Str " 0:1:2:3:4 ") = Raise AttributeError /\
  iso8601_duration_to_seconds (Str (String "1" (String "031" ":2:3:4")))
  <> Raise AttributeError.
Proof.
  split.
  - refine (proj2 (iso8601_raises_iff (Str " 0:1:2:3:4 ") _) _).
    + intros s [= <-]. split; [reflexivity|simpl; lia].
    + exists " 0:1:2:3:4 ", [0; 1; 2; 3; 4].
      split; [reflexivity|]. split; [vm_compute; reflexivity|].
      split; [vm_compute; reflexivity|]. simpl. lia.
  - intros H.
    assert (forall s, Str (String "1" (String "031" ":2:3:4")) = Str s ->
              sall is_ascii s = true /\ (String.length s <= 4300)%nat) as Hlen.
    { intros s [= <-]. split; [reflexivity|simpl; lia]. }
    destruct (proj1 (iso8601_raises_iff _ Hlen) H) as (s & l & [= <-] & _ & Hl & _).
    vm_compute in Hl. discriminate.
Defined.

Lemma take_digits_fst s : all_digits (fst (take_digits s)) = true.
Proof.
  induction s as [|c s IH]; [done|]. simpl.
  destruct (is_digit c) eqn:Ec; [|done].
  destruct (take_digits s) as [d t].
  change (is_digit c && all_digits d = true). by rewrite Ec.
Qed.

Lemma re_group_digits l s d r :
  re_group l s = (Some d, r) -> all_digits d = true.
Proof.
  unfold re_group. pose proof (take_digits_fst s) as H.
  destruct (take_digits s) as [[|x xs] [|c t]]; try discriminate.
  destruct (Ascii.eqb c l); [|discriminate]. by intros [= <- _].
Qed.

Lemma digits_from_nonneg d acc :
  all_digits d = true -> 0 <= acc -> 0 <= digits_from acc d.
Proof.
  revert acc. induction d as [|c d IH]; intros acc; simpl; [done|].
  intros [Hc Hd]%andb_prop Hacc. apply IH; [done|].
  apply digit_range in Hc. unfold digit_val. lia.
Qed.

Lemma int_or_0_group l s o r : re_group l s = (o, r) -> 0 <= int_or_0 o.
Proof.
  destruct o as [d|]; [|done]. intros H%re_group_digits.
  by apply digits_from_nonneg.
Qed.

(** X3: a text that matches the ISO pattern never makes the parser fail:
    the result is [3600 h + 60 m + s] for three components that are not
    negative, so neither is the result. *)
Theorem iso8601_matched_nonneg (s : string) (g : duration_match) :
  ISO8601_DURATION_RE (upper (strip s)) = Some g ->
  exists h m sec,
    0 <= h /\ 0 <= m /\ 0 <= sec /\
    iso8601_duration_to_seconds (Str s) = Ok (Some (h * 3600 + m * 60 + sec)) /\
    0 <= h * 3600 + m * 60 + sec.
Proof.
  intros Hm. rewrite (iso8601_matched s g Hm).
  unfold ISO8601_DURATION_RE in Hm.
  destruct (after_prefix "PT" (upper (strip s))) as [r|]; [|discriminate].
  destruct (re_group "H" r) as [h r1] eqn:E1.
  destruct (re_group "M" r1) as [m r2] eqn:E2.
  destruct (re_group "S" r2) as [sec r3] eqn:E3.
  destruct (_ || _); [|discriminate]. injection Hm as <-. simpl.
  apply int_or_0_group in E1, E2, E3.
  exists (int_or_0 h), (int_or_0 m), (int_or_0 sec). repeat split; try done. lia.
Qed.

Lemma iso8601_matched_nonneg_witness :
  exists h m sec,
    0 <= h /\ 0 <= m /\ 0 <= sec /\
    iso8601_duration_to_seconds (Str " pt2h5s ") = Ok (Some (h * 3600 + m * 60 + sec)) /\
    0 <= h * 3600 + m * 60 + sec.
Proof.
  apply (iso8601_matched_nonneg " pt2h5s "
           {| g_hours := Some "2"; g_minutes := None; g_seconds := Some "5" |}).
  vm_compute. reflexivity.
Defined.

(** ** Coercion and capping, cell by cell *)

Section SeriesSteps.
Context {lib : Pandas}.

Lemma is_object_lookup s i t : s !! i = Some (Str t) -> Series.is_object s = true.
Proof.
  intros H. unfold Series.is_object. apply existsb_exists. exists (Str t).
  split; [|done]. apply list_elem_of_In. by eapply list_elem_of_lookup_2.
Qed.

(** X4: what [coerce_numeric_series] does to each cell.  The result has the
    length of the input and holds numbers and nulls only; a text is parsed
    once its commas are dots and every character other than a digit, a dot
    or a minus sign is removed; a number is kept in a column without text,
    and lost (null) in a column that holds a text. *)
Theorem coerce_numeric_cells (s : column) :
  length (coerce_numeric_series s) = length s /\
  Forall numeric (coerce_numeric_series s) /\
  (forall i, s !! i = Some Null -> coerce_numeric_series s !! i = Some Null) /\
  (forall i t, s !! i = Some (Str t) ->
     coerce_numeric_series s !! i
     = Some (match to_numeric_text (keep_numeric_chars (replace_commas t)) with
             | Some q => Num q
             | None => Null
             end)) /\
  (forall i q, s !! i = Some (Num q) ->
     coerce_numeric_series s !! i
     = Some (if Series.is_object s then Null else Num q)).
Proof.
  split; [apply coerce_numeric_series_length|].
  split; [apply coerce_numeric_series_numeric|].
  unfold coerce_numeric_series, to_numeric. repeat split.
  - intros i Hi. destruct (Series.is_object s);
      rewrite ?list_lookup_fmap, Hi; reflexivity.
  - intros i t Hi. rewrite (is_object_lookup s i t Hi).
    rewrite !list_lookup_fmap, Hi. reflexivity.
  - intros i q Hi. destruct (Series.is_object s);
      rewrite ?list_lookup_fmap, Hi; reflexivity.
Qed.

End SeriesSteps.

Lemma clip_cell_mono low high x y :
  (low <= high)%Q -> (x <= y)%Q ->
  exists x' y',
    Series.clip_cell low high (Num x) = Num x' /\
    Series.clip_cell low high (Num y) = Num y' /\ (x' <= y')%Q.
Proof.
  intros Hlh Hxy. simpl.
  destruct (Qlt_bool high x) eqn:X1; [|destruct (Qlt_bool x low) eqn:X2];
  (destruct (Qlt_bool high y) eqn:Y1; [|destruct (Qlt_bool y low) eqn:Y2]);
  rewrite ?Qlt_bool_iff, ?Qlt_bool_false in *;
  eexists _, _; (split; [reflexivity|]); (split; [reflexivity|]); lra.
Qed.

(** X5: capping keeps the order of the values: of two numbers of a column,
    the smaller one is still the smaller or equal one after capping, for
    any two quantile levels [0 <= p1 <= p2 <= 1]. *)
Theorem cap_outliers_monotone (s : column) (p1 p2 : Q) (i j : nat) (x y : Q) :
  (0 <= p1)%Q -> (p1 <= p2)%Q -> (p2 <= 1)%Q ->
  s !! i = Some (Num x) -> s !! j = Some (Num y) -> (x <= y)%Q ->
  exists x' y',
    cap_outliers_iqr s p1 p2 !! i = Some (Num x') /\
    cap_outliers_iqr s p1 p2 !! j = Some (Num y') /\ (x' <= y')%Q.
Proof.
  intros H0 H12 H1 Hi Hj Hxy.
  assert (Num x ∈ s) as Hin by by eapply list_elem_of_lookup_2.
  unfold cap_outliers_iqr. rewrite (isna_all_Num s x Hin).
  destruct (quantile_Some p1 s x Hin) as [low Hlow].
  destruct (quantile_Some p2 s x Hin) as [high Hhigh].
  rewrite Hlow, Hhigh.
  pose proof (quantile_le p1 p2 s low high H0 H12 H1 Hlow Hhigh) as Hlh.
  destruct (clip_cell_mono low high x y Hlh Hxy) as (x' & y' & Ex & Ey & Hle).
  exists x', y'. unfold Series.clip.
  rewrite !list_lookup_fmap, Hi, Hj.
  change (Some (Series.clip_cell low high (Num x)) = Some (Num x') /\
          Some (Series.clip_cell low high (Num y)) = Some (Num y') /\ (x' <= y')%Q).
  by rewrite Ex, Ey.
Qed.

Lemma cap_outliers_monotone_witness :
  exists x' y',
    cap_outliers_iqr [Num 5; Null; Num 1; Num 300] lower_q upper_q !! 2%nat
    = Some (Num x') /\
    cap_outliers_iqr [Num 5; Null; Num 1; Num 300] lower_q upper_q !! 3%nat
    = Some (Num y') /\ (x' <= y')%Q.
Proof.
  apply (cap_outliers_monotone [Num 5; Null; Num 1; Num 300] lower_q upper_q
           2 3 1 300); vm_compute; discriminate || reflexivity.
Defined.

(** ** The cleaner, one assignment at a time

    After the labels are trimmed, every statement of [clean_dataframe]
    assigns a column of the right length, under a derived label or a label
    that exists, or keeps a subset of the rows.  A relation between tables
    that these two operations respect therefore holds between the trimmed
    input and the output. *)

Lemma length_rate a b : length (rate a b) = Nat.min (length a) (length b).
Proof. unfold rate, Series.div. by rewrite length_map, length_zip_with. Qed.

Lemma length_fillna v s : length (Series.fillna v s) = length s.
Proof. apply length_map. Qed.

Lemma length_cap s p1 p2 : length (cap_outliers_iqr s p1 p2) = length s.
Proof.
  unfold cap_outliers_iqr. destruct (Series.isna_all s); [done|].
  destruct (Series.quantile p1 s); [|done].
  destruct (Series.quantile p2 s); [|done]. apply length_map.
Qed.

Section Assignments.
Context {lib : Pandas}.
Variable R : frame -> frame -> Prop.
Hypothesis R_refl : forall f, R f f.
Hypothesis R_trans : forall f g h, R f g -> R g h -> R f h.
Hypothesis R_set : forall c s f,
  shaped f -> length s = nrows f ->
  c ∈ derived_columns \/ is_Some (get c f) -> R f (set c s f).
Hypothesis R_filter : forall m f, shaped f -> R f (filter_rows m f).

Let ok (a f : frame) : Prop := R a f /\ shaped f.

Lemma via_set a c s f :
  length s = nrows f -> c ∈ derived_columns \/ is_Some (get c f) ->
  ok a f -> ok a (set c s f).
Proof.
  intros Hl Hc [HR Hs]. split; [|by apply shaped_set].
  eapply R_trans; [exact HR|]. by apply R_set.
Qed.

Lemma via_on_column a g c f :
  (forall s, length (g s) = length s) -> ok a f -> ok a (on_column g f c).
Proof.
  intros Hg Hok. unfold on_column. destruct (get c f) as [s|] eqn:E; [|done].
  apply via_set; [|right; by rewrite E|done].
  rewrite Hg. eapply shaped_get; [apply Hok|done].
Qed.

Lemma via_fold_on_column a g cs f :
  (forall s, length (g s) = length s) ->
  ok a f -> ok a (fold_left (on_column g) cs f).
Proof.
  intros Hg. revert f. induction cs as [|c cs IH]; intros f Hok; [done|].
  simpl. by apply IH, via_on_column.
Qed.

Lemma via_normalize_gender a f : ok a f -> ok a (normalize_gender f).
Proof.
  intros Hok. unfold normalize_gender, set_scalar.
  destruct (get "student_gender" f) as [s|] eqn:E.
  - apply via_set; [|left; by apply mem_true|done].
    rewrite normalize_gender_series_length.
    eapply shaped_get; [apply Hok|done].
  - apply via_set; [by rewrite length_replicate|left; by apply mem_true|done].
Qed.

Lemma via_fill_duration a f f' :
  fill_duration f = Ok f' -> ok a f -> ok a f'.
Proof.
  intros H Hok. unfold fill_duration in H.
  destruct (get "duration" f) as [d|]; [|by injection H as <-].
  destruct (Series.notna_any d); [|by injection H as <-].
  destruct (rmapM duration_of_row (rows f)) as [ys|] eqn:E; simpl in H; [|done].
  injection H as <-. apply via_set; [|left; by apply mem_true|done].
  by rewrite (rmapM_length _ _ _ E), rows_length.
Qed.

Lemma via_normalize_watch_time a f : ok a f -> ok a (normalize_watch_time f).
Proof.
  intros Hok. unfold normalize_watch_time.
  destruct (get "watch_time" f) as [w|] eqn:E; [|done].
  apply via_set; [|left; by apply mem_true|done].
  unfold watch_time_sec_of, Series.mul.
  destruct (median_is_minutes _); rewrite ?length_map;
    (eapply shaped_get; [apply Hok|done]).
Qed.

Lemma via_parse_timestamp a f : ok a f -> ok a (parse_timestamp f).
Proof.
  intros Hok. unfold parse_timestamp, set_scalar.
  destruct (get "timestamp" f) as [s|] eqn:E;
    [|destruct (get "published_at" f) as [s|] eqn:E'];
    (apply via_set; [|left; by apply mem_true|done]);
    rewrite ?to_datetime_length, ?length_replicate; try done;
    (eapply shaped_get; [apply Hok|done]).
Qed.

Lemma via_create_student_id a f : ok a f -> ok a (create_student_id f).
Proof.
  intros Hok. unfold create_student_id. destruct (needs_student_id f); [|done].
  apply via_set; [apply apply_length|left; by apply mem_true|done].
Qed.

Lemma via_completion_rate a f : ok a f -> ok a (completion_rate f).
Proof.
  intros Hok. unfold completion_rate.
  assert (ok a (set_scalar "completion_rate" Null f)) as Hok'.
  { apply via_set; [by rewrite length_replicate|left; by apply mem_true|done]. }
  destruct (get "watch_time_sec" _) as [w|] eqn:Ew; [|done].
  destruct (get "duration_sec" _) as [d|] eqn:Ed; [|done].
  apply via_set; [|left; by apply mem_true|done].
  rewrite length_rate.
  rewrite (shaped_get _ _ _ (proj2 Hok') Ew), (shaped_get _ _ _ (proj2 Hok') Ed).
  apply Nat.min_id.
Qed.

Lemma via_engagement_rate a f : ok a f -> ok a (engagement_rate f).
Proof.
  intros Hok. unfold engagement_rate.
  destruct (get "engagement" f) as [e|] eqn:Ee; [|done].
  destruct (get "duration_sec" f) as [d|] eqn:Ed.
  - apply via_set; [|left; by apply mem_true|done].
    rewrite length_rate.
    rewrite (shaped_get _ _ _ (proj2 Hok) Ee), (shaped_get _ _ _ (proj2 Hok) Ed).
    apply Nat.min_id.
  - apply via_set; [|left; by apply mem_true|done].
    eapply shaped_get; [apply Hok|done].
Qed.

Lemma via_is_engaged a f :
  is_Some (get "completion_rate" f) -> ok a f -> ok a (is_engaged f).
Proof.
  intros [cr Hcr] Hok. unfold is_engaged. rewrite Hcr.
  destruct (get "participation" f) as [p|] eqn:Ep;
    (apply via_set; [|left; by apply mem_true|done]);
    rewrite length_map, length_fillna;
    (eapply shaped_get; [apply Hok|done]).
Qed.

Lemma via_timestamp_features a f :
  is_Some (get "timestamp" f) -> ok a f -> ok a (timestamp_features f).
Proof.
  intros [ts Hts] Hok. unfold timestamp_features. rewrite Hts. simpl.
  assert (length ts = nrows f) as Hl by (eapply shaped_get; [apply Hok|done]).
  apply via_set; [by rewrite length_map|left; by apply mem_true|].
  apply via_set; [by rewrite length_map|left; by apply mem_true|done].
Qed.

Lemma via_remove_duplicates a f : ok a f -> ok a (remove_duplicates f).
Proof.
  intros Hok. destruct (remove_duplicates_mask f) as [->|[m ->]]; [done|].
  destruct Hok as [HR Hs]. split; [|by apply shaped_filter_rows].
  eapply R_trans; [exact HR|]. by apply R_filter.
Qed.

Lemma via_fill_student_age a f : ok a f -> ok a (fill_student_age f).
Proof.
  intros Hok. unfold fill_student_age.
  destruct (get "student_age" f) as [s|] eqn:E; [|done].
  destruct (if Series.notna_any s then _ else _); [|done].
  apply via_set; [|right; by rewrite E|done].
  rewrite length_fillna. eapply shaped_get; [apply Hok|done].
Qed.

Lemma via_finish a f : ok a f -> ok a (finish f).
Proof.
  intros Hok. unfold finish, fill_zero, fill_gender, cap_columns.
  apply via_fold_on_column; [apply length_fillna|].
  apply via_on_column; [apply length_fillna|].
  apply via_fill_student_age.
  apply via_fold_on_column; [intros; apply length_cap|done].
Qed.

Lemma timestamp_parsed f : is_Some (get "timestamp" (parse_timestamp f)).
Proof.
  unfold parse_timestamp.
  destruct (get "timestamp" f); [|destruct (get "published_at" f)];
    rewrite ?get_set_scalar, ?get_set_eq; simpl; by eexists.
Qed.

Lemma completion_rate_set f : is_Some (get "completion_rate" (completion_rate f)).
Proof. destruct (completion_rate_numeric f) as (s & -> & _). by eexists. Qed.

(** The steps between the parsing of durations and the creation of ids,
    and the steps from there to the removal of duplicates. *)
Lemma via_before_ids a f :
  ok a f ->
  ok a (parse_timestamp (normalize_watch_time (duration_sec_numeric f))).
Proof.
  intros Hok. apply via_parse_timestamp, via_normalize_watch_time.
  apply via_on_column; [apply to_numeric_length|done].
Qed.

Lemma via_after_ids a f :
  is_Some (get "timestamp" f) -> ok a f ->
  ok a (timestamp_features (is_engaged (engagement_rate (completion_rate
         (create_student_id f))))).
Proof.
  intros Hts Hok.
  apply via_timestamp_features.
  { by rewrite get_is_engaged, get_engagement_rate, get_completion_rate,
      get_create_student_id by reflexivity. }
  apply via_is_engaged.
  { rewrite get_engagement_rate by reflexivity. apply completion_rate_set. }
  by apply via_engagement_rate, via_completion_rate, via_create_student_id.
Qed.

Lemma via_features a f :
  ok a f ->
  ok a (timestamp_features (is_engaged (engagement_rate (completion_rate
         (create_student_id (parse_timestamp (normalize_watch_time
           (duration_sec_numeric f)))))))).
Proof.
  intros Hok. apply via_after_ids; [apply timestamp_parsed|].
  by apply via_before_ids.
Qed.

Lemma clean_frame_inv f f' :
  clean_frame f = Ok f' ->
  exists f1,
    fill_duration (coerce_candidates (normalize_gender
      (strip_columns (drop_metadata f)))) = Ok f1 /\
    f' = finish (remove_duplicates (timestamp_features (is_engaged
           (engagement_rate (completion_rate (create_student_id
             (parse_timestamp (normalize_watch_time
               (duration_sec_numeric f1))))))))).
Proof.
  unfold clean_frame, clean_until_dedup.
  destruct (fill_duration _) as [f1|]; simpl; [|done].
  intros [= <-]. by exists f1.
Qed.

(** The relation holds from the table with trimmed labels to the output. *)
Lemma clean_steps f f' :
  shaped f -> clean_frame f = Ok f' ->
  R (strip_columns (drop_metadata f)) f' /\ shaped f'.
Proof.
  intros Hs (f1 & H1 & ->)%clean_frame_inv.
  apply via_finish, via_remove_duplicates, via_features.
  apply (via_fill_duration _ _ _ H1).
  apply via_fold_on_column; [apply coerce_numeric_series_length|].
  apply via_normalize_gender. split; [apply R_refl|].
  by apply shaped_relabel, get_drop_metadata_shape.
Qed.

(** It also holds from the table with its features to the output. *)
Lemma tail_steps f : shaped f -> R f (finish (remove_duplicates f)).
Proof.
  intros Hs. apply (via_finish f), via_remove_duplicates. by split.
Qed.

End Assignments.

(** ** What the cleaner does to rows and labels *)

Lemma mask_list_sublist {A} m (l : list A) : mask_list m l `sublist_of` l.
Proof.
  revert l. induction m as [|b m IH]; intros l; [apply sublist_nil_l|].
  destruct l as [|x l]; [done|]. simpl. destruct b; by constructor.
Qed.

Lemma index_drop_metadata `{Pandas} f : index (drop_metadata f) = index f.
Proof. unfold drop_metadata. by destruct (cols_to_drop f). Qed.

Section CleanerShape.
Context {lib : Pandas}.

(** X6: when the cleaner returns, the table it returns from a rectangular
    table is rectangular, and its rows are rows of the input in their
    order: rows are removed, never added or moved. *)
Theorem clean_keeps_shape (f f' : frame) :
  shaped f -> clean_frame f = Ok f' ->
  shaped f' /\ index f' `sublist_of` index f /\ (nrows f' <= nrows f)%nat.
Proof.
  intros Hs Hf'.
  destruct (clean_steps (fun a b => index b `sublist_of` index a)) with f f'
    as [Hsub Hs']; try done.
  - intros a b c Hab Hbc. by transitivity (index b).
  - intros m a _. apply mask_list_sublist.
  - assert (index f' `sublist_of` index f) as Hsub'.
    { revert Hsub. unfold strip_columns. simpl. by rewrite index_drop_metadata. }
    split; [done|]. split; [done|]. by apply sublist_length.
Qed.

End CleanerShape.

Lemma clean_keeps_shape_witness :
  exists f',
    clean_frame dup_nulls = Ok f' /\ index f' = [0%nat] /\ shaped f' /\
    index f' `sublist_of` index dup_nulls /\ (nrows f' <= nrows dup_nulls)%nat.
Proof.
  assert (exists f', clean_frame dup_nulls = Ok f' /\ index f' = [0%nat])
    as (f' & Hf' & Hix) by (vm_compute; eexists; split; reflexivity).
  exists f'. split; [exact Hf'|]. split; [exact Hix|].
  apply (@clean_keeps_shape Reference.lib dup_nulls f'); [|exact Hf'].
  by repeat constructor.
Defined.

(** ** Labels *)

Lemma sapp_cons c (s b : string) : String c s ++ b = String c (s ++ b).
Proof. reflexivity. Qed.

Lemma prefix_app n s b : String.prefix n s = true -> String.prefix n (s ++ b) = true.
Proof.
  revert s. induction n as [|x n IH]; intros s; [by destruct (s ++ b)|].
  destruct s as [|y s]; [done|]. rewrite sapp_cons. simpl.
  destruct (ascii_dec x y); [apply IH|done].
Qed.

Lemma contains_step n c s :
  contains n (String c s) = String.prefix n (String c s) || contains n s.
Proof. reflexivity. Qed.

Lemma contains_app_r n s b : contains n s = true -> contains n (s ++ b) = true.
Proof.
  induction s as [|c s IH].
  - simpl. rewrite orb_false_r. destruct n; [|done]. by destruct b.
  - rewrite sapp_cons, !contains_step. intros [H|H]%orb_prop.
    + rewrite <- sapp_cons. by rewrite (prefix_app _ _ _ H).
    + rewrite (IH H). apply orb_true_r.
Qed.

Lemma contains_cons n c s : contains n s = true -> contains n (String c s) = true.
Proof. intros H. rewrite contains_step, H. apply orb_true_r. Qed.

Lemma contains_lstrip n s : contains n (lstrip s) = true -> contains n s = true.
Proof.
  induction s as [|c s IH]; [done|]. simpl lstrip.
  destruct (py_isspace c); [|done]. intros H. by apply contains_cons, IH.
Qed.

Lemma rstrip_prefix s : exists b, s = rstrip s ++ b.
Proof.
  induction s as [|c s [b IH]]; [by exists ""|]. simpl.
  destruct (rstrip s) as [|d r] eqn:E.
  - destruct (py_isspace c); [by exists (String c s)|].
    exists b. rewrite sapp_cons. by rewrite <- IH.
  - exists b. rewrite sapp_cons. by rewrite <- IH.
Qed.

Lemma contains_strip n s : contains n (strip s) = true -> contains n s = true.
Proof.
  unfold strip. intros H. apply contains_lstrip.
  destruct (rstrip_prefix (lstrip s)) as [b Hb]. rewrite Hb.
  by apply contains_app_r.
Qed.

Lemma lower_char_space c : py_isspace (lower_char c) = py_isspace c.
Proof. destruct c as [[] [] [] [] [] [] [] []]; reflexivity. Qed.

Lemma strip_lower s : strip (lower s) = lower (strip s).
Proof. apply strip_smap, lower_char_space. Qed.

Lemma columns_set c s f :
  columns (set c s f) = (columns f ++ if has c f then [] else [c])%list.
Proof.
  destruct f as [ix cs]. unfold columns, has, set, mem, columns. simpl.
  induction cs as [|[k x] l IH]; [done|].
  simpl. rewrite (String.eqb_sym c k).
  destruct (String.eqb k c) eqn:E; simpl.
  - by rewrite app_nil_r.
  - by rewrite IH.
Qed.

Lemma columns_filter_rows m f : columns (filter_rows m f) = columns f.
Proof. unfold columns. simpl. rewrite map_map. by apply map_ext. Qed.

Lemma columns_relabel g f : columns (relabel g f) = map g (columns f).
Proof. unfold columns. simpl. by rewrite !map_map. Qed.

Lemma columns_drop cs f :
  columns (drop cs f) = List.filter (fun c => negb (mem c cs)) (columns f).
Proof.
  destruct f as [ix l]. unfold columns. simpl.
  induction l as [|[k x] l IH]; [done|].
  simpl. destruct (negb (mem k cs)); simpl; by rewrite IH.
Qed.

Lemma filter_all {A} (p : A -> bool) l :
  Forall (fun x => p x = true) l -> List.filter p l = l.
Proof. induction 1 as [|x l Hx _ IH]; simpl; [done|]. by rewrite Hx, IH. Qed.

Section CleanerLabels.
Context {lib : Pandas}.

Lemma columns_drop_metadata f :
  columns (drop_metadata f)
  = List.filter (fun c => negb (mem c (cols_to_drop f))) (columns f).
Proof.
  unfold drop_metadata. destruct (cols_to_drop f) eqn:E; [|by rewrite columns_drop].
  symmetry. apply filter_all, Forall_true. done.
Qed.

Lemma not_dropped f c :
  c ∈ columns f -> mem c (cols_to_drop f) = false ->
  contains "_source_file" c = false /\ contains "metadata" (lower c) = false.
Proof.
  intros Hc Hm. apply mem_false in Hm. apply orb_false_elim.
  apply not_true_is_false. intros HP. apply Hm. unfold cols_to_drop.
  apply list_elem_of_In, filter_In. split; [by apply list_elem_of_In|done].
Qed.

Lemma derived_not_metadata c :
  c ∈ derived_columns ->
  contains "_source_file" c = false /\ contains "metadata" (lower c) = false.
Proof.
  intros H. unfold derived_columns in H.
  repeat (apply elem_of_cons in H as [->|H]; [by vm_compute|]).
  by apply elem_of_nil in H.
Qed.

(** X7: the labels of the cleaned table are the labels of the input that
    are not metadata, trimmed and in their order, followed by labels that
    the cleaner derives; no label of the output contains [_source_file]
    or, in any letter case, [metadata]. *)
Theorem clean_labels (f f' : frame) :
  shaped f -> clean_frame f = Ok f' ->
  exists added,
    columns f'
    = (map strip
         (List.filter (fun c => negb (mem c (cols_to_drop f))) (columns f))
       ++ added)%list /\
    Forall (fun c => c ∈ derived_columns) added /\
    Forall (fun c => contains "_source_file" c = false /\
                     contains "metadata" (lower c) = false) (columns f').
Proof.
  intros Hs Hf.
  destruct (clean_steps
              (fun a b => exists l, columns b = (columns a ++ l)%list /\
                                    Forall (fun c => c ∈ derived_columns) l))
    with f f' as [(added & Hcols & Hadded) _]; try done.
  - intros a. exists []. by rewrite app_nil_r.
  - intros a b c (l1 & E1 & H1) (l2 & E2 & H2). exists (l1 ++ l2)%list.
    rewrite E2, E1, app_assoc. split; [done|]. by apply Forall_app.
  - intros c s a _ _ Hc. rewrite columns_set. eexists. split; [done|].
    destruct (has c a) eqn:E; [done|]. constructor; [|done].
    destruct Hc as [Hc|Hc]; [done|]. rewrite has_get in E.
    by apply bool_decide_eq_false in E.
  - intros m a _. exists []. by rewrite columns_filter_rows, app_nil_r.
  - unfold strip_columns in Hcols.
    rewrite columns_relabel, columns_drop_metadata in Hcols.
    exists added. split; [done|]. split; [done|]. rewrite Hcols.
    apply Forall_app. split.
    + apply Forall_forall. intros c (k & -> & Hk)%list_elem_of_fmap.
      apply list_elem_of_In, filter_In in Hk as [Hin Hk].
      apply list_elem_of_In in Hin. apply negb_true_iff in Hk.
      destruct (not_dropped f k Hin Hk) as [H1 H2]. split.
      * apply not_true_is_false. intros H%contains_strip. congruence.
      * apply not_true_is_false. rewrite <- strip_lower.
        intros H%contains_strip. congruence.
    + eapply Forall_impl; [exact Hadded|]. apply derived_not_metadata.
Qed.

End CleanerLabels.

Lemma clean_labels_witness :
  exists f' added,
    clean_frame tagged_rows = Ok f' /\
    columns f' = ("name" :: added)%list /\
    Forall (fun c => c ∈ derived_columns) added.
Proof.
  assert (exists f', clean_frame tagged_rows = Ok f') as [f' Hf']
    by (vm_compute; eexists; reflexivity).
  destruct (@clean_labels Reference.lib tagged_rows f') as (added & Hc & Ha & _);
    [by repeat constructor|exact Hf'|].
  exists f', added. split; [exact Hf'|]. split; [exact Hc|exact Ha].
Defined.

(** ** Columns the cleaner guarantees *)

Section CleanerColumns.
Context {lib : Pandas}.

Lemma keeps_on_column g f c c' :
  is_Some (get c f) -> is_Some (get c (on_column g f c')).
Proof.
  intros H. rewrite get_on_column. destruct (String.eqb c' c); [|done].
  by apply fmap_is_Some.
Qed.

Lemma keeps_fold_on_column g cs f c :
  is_Some (get c f) -> is_Some (get c (fold_left (on_column g) cs f)).
Proof.
  revert f. induction cs as [|c' cs IH]; intros f H; [done|].
  simpl. by apply IH, keeps_on_column.
Qed.

Lemma keeps_set c c' s f : is_Some (get c f) -> is_Some (get c (set c' s f)).
Proof. intros H. rewrite get_set. by destruct (String.eqb c' c). Qed.

Lemma keeps_finish f c : is_Some (get c f) -> is_Some (get c (finish f)).
Proof.
  intros H. unfold finish, fill_zero, fill_gender, cap_columns.
  apply keeps_fold_on_column, keeps_on_column.
  assert (is_Some (get c (fold_left
            (on_column (fun s => cap_outliers_iqr s lower_q upper_q))
            capped_columns f))) as H' by by apply keeps_fold_on_column.
  revert H'. generalize (fold_left
    (on_column (fun s => cap_outliers_iqr s lower_q upper_q)) capped_columns f).
  intros h H'. unfold fill_student_age.
  destruct (get "student_age" h) as [a|]; [|done].
  destruct (if Series.notna_any a then _ else _); [|done].
  by apply keeps_set.
Qed.

Lemma keeps_remove_duplicates f c :
  is_Some (get c f) -> is_Some (get c (remove_duplicates f)).
Proof.
  intros H. destruct (remove_duplicates_mask f) as [->|[m ->]]; [done|].
  rewrite get_filter_rows. by apply fmap_is_Some.
Qed.

Lemma student_id_created f : is_Some (get "student_id" (create_student_id f)).
Proof.
  unfold create_student_id, needs_student_id.
  destruct (get "student_id" f) as [s|] eqn:E.
  - destruct (Series.isna_all s); [by rewrite get_set_eq|by rewrite E].
  - by rewrite get_set_eq.
Qed.

Lemma is_engaged_set f : is_Some (get "is_engaged" (is_engaged f)).
Proof.
  unfold is_engaged. destruct (get "participation" f); by rewrite get_set_eq.
Qed.

Lemma hour_weekday_set f :
  is_Some (get "hour" (timestamp_features f)) /\
  is_Some (get "weekday" (timestamp_features f)).
Proof.
  unfold timestamp_features. cbv zeta. split.
  - rewrite get_set_ne by reflexivity. by rewrite get_set_eq.
  - by rewrite get_set_eq.
Qed.

(** X8: whatever the input, the cleaned table has the columns
    [student_gender], [timestamp], [student_id], [completion_rate],
    [is_engaged], [hour] and [weekday]. *)
Theorem clean_schema (f f' : frame) :
  clean_frame f = Ok f' ->
  Forall (fun c => is_Some (get c f'))
    [ "student_gender"; "timestamp"; "student_id"; "completion_rate";
      "is_engaged"; "hour"; "weekday" ].
Proof.
  intros (f1 & H1 & ->)%clean_frame_inv.
  assert (forall c X, is_Some (get c X) ->
            is_Some (get c (finish (remove_duplicates X)))) as Htail.
  { intros c X H. by apply keeps_finish, keeps_remove_duplicates. }
  repeat apply List.Forall_cons; [..|apply List.Forall_nil]; apply Htail.
  - rewrite get_timestamp_features, get_is_engaged, get_engagement_rate,
      get_completion_rate, get_create_student_id, get_parse_timestamp,
      get_normalize_watch_time, get_duration_sec_numeric by reflexivity.
    rewrite (get_fill_duration _ _ _ H1) by reflexivity.
    unfold coerce_candidates. rewrite get_fold_on_column by reflexivity.
    destruct (normalize_gender_get (strip_columns (drop_metadata f)))
      as (s & -> & _). by eexists.
  - rewrite get_timestamp_features, get_is_engaged, get_engagement_rate,
      get_completion_rate, get_create_student_id by reflexivity.
    apply timestamp_parsed.
  - rewrite get_timestamp_features, get_is_engaged, get_engagement_rate,
      get_completion_rate by reflexivity.
    apply student_id_created.
  - rewrite get_timestamp_features, get_is_engaged, get_engagement_rate
      by reflexivity.
    apply completion_rate_set.
  - rewrite get_timestamp_features by reflexivity. apply is_engaged_set.
  - apply hour_weekday_set.
  - apply hour_weekday_set.
Qed.

End CleanerColumns.

Lemma clean_schema_witness :
  exists f',
    clean_frame gender_rows = Ok f' /\
    Forall (fun c => is_Some (get c f'))
      [ "student_gender"; "timestamp"; "student_id"; "completion_rate";
        "is_engaged"; "hour"; "weekday" ].
Proof.
  assert (exists f', clean_frame gender_rows = Ok f') as [f' Hf']
    by (vm_compute; eexists; reflexivity).
  exists f'. split; [exact Hf'|].
  exact (@clean_schema Reference.lib gender_rows f' Hf').
Defined.

(** ** Flags and fills *)

Lemma flag_is_flag test c : is_flag (flag test c).
Proof.
  unfold is_flag, flag. destruct c as [|q| |]; auto. destruct (test q); auto.
Qed.

Lemma flag_one test c :
  flag test c = Num 1 <-> exists q, c = Num q /\ test q = true.
Proof.
  unfold flag. split.
  - destruct c as [|q| |]; try discriminate.
    destruct (test q) eqn:E; [|discriminate]. by exists q.
  - intros (q & -> & ->). done.
Qed.

Lemma flag_fillna test x :
  test 0%Q = false ->
  flag test (if Series.isna x then Num 0 else x) = flag test x.
Proof. intros H. destruct x; simpl; by rewrite ?H. Qed.

Section CleanerFlags.
Context {lib : Pandas}.

Lemma is_engaged_lookup f :
  exists e,
    get "is_engaged" (is_engaged f) = Some e /\
    Forall is_flag e /\
    (forall p, get "participation" f = Some p ->
       e = map (flag (fun x => Qlt_bool 0 x)) p) /\
    (forall cr, get "participation" f = None ->
       get "completion_rate" f = Some cr ->
       e = map (flag (fun x => Qle_bool (1 # 2) x)) cr).
Proof.
  unfold is_engaged.
  destruct (get "participation" f) as [p|] eqn:Ep; rewrite get_set_eq;
    eexists; (split; [reflexivity|]); (split; [|split]); try done.
  - rewrite List.Forall_map. apply Forall_true. intros. apply flag_is_flag.
  - intros ? [= <-]. unfold Series.fillna. rewrite map_map.
    apply map_ext. intros x. by apply flag_fillna.
  - rewrite List.Forall_map. apply Forall_true. intros. apply flag_is_flag.
  - intros cr _ ->. simpl. unfold Series.fillna. rewrite map_map.
    apply map_ext. intros x. by apply flag_fillna.
Qed.

(** X9: [is_engaged] holds 0 or 1 in every row.  With a numeric
    [participation] column it is 1 exactly where the participation is a
    number above 0; without one it is 1 exactly where [completion_rate] is
    a number that is at least one half.  A null counts as 0.  In the
    cleaned table the column still holds 0 or 1 only. *)
Theorem is_engaged_flags :
  (forall f p,
     get "participation" f = Some p -> Forall numeric p ->
     exists e,
       get "is_engaged" (is_engaged f) = Some e /\
       length e = length p /\ Forall is_flag e /\
       forall i, e !! i = Some (Num 1) <->
                 exists q, p !! i = Some (Num q) /\ (0 < q)%Q) /\
  (forall f cr,
     get "participation" f = None ->
     get "completion_rate" f = Some cr -> Forall numeric cr ->
     exists e,
       get "is_engaged" (is_engaged f) = Some e /\
       length e = length cr /\ Forall is_flag e /\
       forall i, e !! i = Some (Num 1) <->
                 exists q, cr !! i = Some (Num q) /\ (1 # 2 <= q)%Q) /\
  (forall f f', clean_frame f = Ok f' ->
     exists e, get "is_engaged" f' = Some e /\ Forall is_flag e).
Proof.
  split; [|split].
  - intros f p Hget _.
    destruct (is_engaged_lookup f) as (e & He & Hflag & Hp & _).
    exists e. split; [done|]. rewrite (Hp p Hget) in *.
    split; [apply length_map|]. split; [done|].
    intros i. rewrite list_lookup_fmap. split.
    + destruct (p !! i) as [x|]; [|done]. intros [= H].
      apply flag_one in H as (q & -> & H). exists q. split; [done|].
      by apply Qlt_bool_iff.
    + intros (q & -> & H). simpl. apply Qlt_bool_iff in H. by rewrite H.
  - intros f cr Hnone Hget _.
    destruct (is_engaged_lookup f) as (e & He & Hflag & _ & Hcr).
    exists e. split; [done|]. rewrite (Hcr cr Hnone Hget) in *.
    split; [apply length_map|]. split; [done|].
    intros i. rewrite list_lookup_fmap. split.
    + destruct (cr !! i) as [x|]; [|done]. intros [= H].
      apply flag_one in H as (q & -> & H). exists q. split; [done|].
      by apply Qle_bool_iff.
    + intros (q & -> & H). simpl. apply Qle_bool_iff in H. by rewrite H.
  - intros f f' (f1 & _ & ->)%clean_frame_inv.
    set (X := engagement_rate _).
    destruct (is_engaged_lookup X) as (e & He & Hflag & _).
    unfold finish, fill_gender.
    rewrite get_fill_zero, get_on_column, get_fill_student_age, get_cap_columns
      by reflexivity.
    simpl (String.eqb _ _).
    assert (get "is_engaged" (timestamp_features (is_engaged X)) = Some e) as H
      by by rewrite get_timestamp_features.
    destruct (remove_duplicates_mask (timestamp_features (is_engaged X)))
      as [->|[m ->]].
    + by exists e.
    + rewrite get_filter_rows, H. eexists. split; [reflexivity|].
      by apply mask_list_Forall.
Qed.

(** X10: in the cleaned table the columns [watch_time_sec], [duration_sec],
    [views] and [engagement] hold no null. *)
Theorem filled_columns_not_null (f f' : frame) (c : string) (s : column) :
  clean_frame f = Ok f' -> c ∈ numeric_fill_zero -> get c f' = Some s ->
  Forall not_null s.
Proof.
  intros (f1 & _ & ->)%clean_frame_inv Hc. unfold finish, fill_zero.
  rewrite get_fold_on_column_in by (apply numeric_fill_zero_NoDup || done).
  destruct (get c _) as [s0|]; [|done]. intros [= <-].
  unfold Series.fillna. rewrite List.Forall_map. apply Forall_true.
  intros x. by destruct x.
Qed.

End CleanerFlags.

Lemma is_engaged_flags_witness :
  exists e,
    get "is_engaged" (is_engaged participation_rows) = Some e /\
    e !! 0%nat = Some (Num 1).
Proof.
  destruct (proj1 (@is_engaged_flags Reference.lib) participation_rows
              [Num 40; Null; Num 0] eq_refl) as (e & He & _ & _ & Hp).
  { by repeat constructor. }
  exists e. split; [exact He|].
  apply (proj2 (Hp 0%nat)). exists 40%Q. split; reflexivity.
Defined.

Lemma filled_columns_not_null_witness :
  exists f' s,
    clean_frame sparse_views = Ok f' /\ get "views" f' = Some s /\
    Forall not_null s.
Proof.
  assert (exists f' s, clean_frame sparse_views = Ok f' /\ get "views" f' = Some s)
    as (f' & s & Hf' & Hs) by (vm_compute; eexists _, _; split; reflexivity).
  exists f', s. split; [exact Hf'|]. split; [exact Hs|].
  apply (@filled_columns_not_null Reference.lib sparse_views f' "views" s Hf');
    [|exact Hs].
  apply mem_true. reflexivity.
Defined.

(** ** Ages and durations *)

Lemma notna_any_isna_all s : Series.notna_any s = negb (Series.isna_all s).
Proof.
  unfold Series.notna_any, Series.isna_all, Series.notna.
  induction s as [|c s IH]; [done|]. simpl. rewrite IH.
  by destruct (Series.isna c), (forallb Series.isna s).
Qed.

Lemma nums_nil s : Forall numeric s -> Series.nums s = [] -> Series.isna_all s = true.
Proof.
  unfold Series.nums, Series.isna_all.
  induction 1 as [|c s Hc _ IH]; [done|]. destruct c; try done; simpl; apply IH.
Qed.

Lemma median_Some s : Series.nums s <> [] -> is_Some (Series.median s).
Proof.
  intros H. unfold Series.median.
  assert (0 < length (merge_sort Qle (Series.nums s)))%nat as Hn.
  { rewrite (Permutation_length (merge_sort_Permutation Qle (Series.nums s))).
    destruct (Series.nums s); [done|simpl; lia]. }
  set (v := merge_sort Qle (Series.nums s)) in *.
  destruct (Nat.odd (length v)) eqn:Eo.
  - apply lookup_lt_is_Some. apply Nat.div_lt; lia.
  - assert (2 <= length v)%nat as H2.
    { destruct (length v) as [|[|n]] eqn:E; [lia|done|lia]. }
    assert (length v / 2 < length v)%nat as Hh by (apply Nat.div_lt; lia).
    destruct (lookup_lt_is_Some_2 v (length v / 2 - 1)) as [a ->]; [lia|].
    destruct (lookup_lt_is_Some_2 v (length v / 2)) as [b ->]; [lia|].
    by eexists.
Qed.

Section CleanerAges.
Context {lib : Pandas}.

Lemma get_age_finish g :
  get "student_age" (finish g) = get "student_age" (fill_student_age g).
Proof.
  unfold finish, fill_gender.
  rewrite get_fill_zero, get_on_column by reflexivity. simpl (String.eqb _ _).
  unfold fill_student_age. rewrite get_cap_columns by reflexivity.
  destruct (get "student_age" g) as [a|] eqn:E.
  - destruct (if Series.notna_any a then _ else _).
    + by rewrite !get_set_eq.
    + by rewrite get_cap_columns.
  - by rewrite get_cap_columns.
Qed.

(** X11: the last steps of the cleaner fill the nulls of a numeric
    [student_age] column with the median of the known ages, truncated to an
    integer; known ages are kept and no null is left.  A column without
    any known age is left as it is. *)
Theorem age_filled_with_median (g : frame) (a : column) :
  get "student_age" g = Some a -> Forall numeric a ->
  (Series.isna_all a = true -> get "student_age" (finish g) = Some a) /\
  (Series.isna_all a = false ->
   exists m a',
     Series.median a = Some m /\
     get "student_age" (finish g) = Some a' /\
     length a' = length a /\ Forall not_null a' /\
     forall i x, a !! i = Some x ->
       a' !! i = Some (if Series.isna x then Num (inject_Z (Series.trunc m)) else x)).
Proof.
  intros Ha Hnum. rewrite get_age_finish. unfold fill_student_age.
  rewrite Ha, notna_any_isna_all. split; intros E; rewrite E; simpl; [done|].
  destruct (median_Some a) as [m Hm].
  { intros Hnil. apply nums_nil in Hnil; [congruence|done]. }
  rewrite Hm. simpl. exists m. eexists. split; [done|].
  rewrite get_set_eq. split; [done|]. split; [apply length_fillna|]. split.
  - unfold Series.fillna. rewrite List.Forall_map. apply Forall_true.
    intros x. by destruct x.
  - intros i x Hx. by apply fillna_lookup.
Qed.

End CleanerAges.

Lemma age_filled_with_median_witness :
  exists m a',
    Series.median [Num 20; Null; Num 21; Num 30] = Some m /\
    get "student_age" (finish ages) = Some a' /\
    a' !! 1%nat = Some (Num (inject_Z (Series.trunc m))).
Proof.
  destruct (age_filled_with_median ages [Num 20; Null; Num 21; Num 30] eq_refl)
    as [_ H].
  { by repeat constructor. }
  destruct (H eq_refl) as (m & a' & Hm & Ha' & _ & _ & Hfill).
  exists m, a'. split; [exact Hm|]. split; [exact Ha'|].
  exact (Hfill 1%nat Null eq_refl).
Defined.

(** ** Durations in the pipeline *)

Lemma rmapM_lookup {A B} (g : A -> result B) l ys i x :
  rmapM g l = Ok ys -> l !! i = Some x ->
  exists y, g x = Ok y /\ ys !! i = Some y.
Proof.
  revert ys i. induction l as [|a l IH]; intros ys i; [done|]. simpl.
  destruct (g a) as [b|] eqn:Ea; simpl; [|done].
  destruct (rmapM g l) as [bs|] eqn:El; simpl; [|done].
  intros [= <-]. destruct i as [|i]; simpl.
  - intros [= <-]. by exists b.
  - intros Hi. by apply IH.
Qed.

Lemma notna_false c : Series.notna c = false -> c = Null.
Proof. by destruct c. Qed.

Section CleanerDurations.
Context {lib : Pandas}.

Lemma duration_of_row_numeric f i n :
  shaped f -> (i < nrows f)%nat ->
  (forall d, get "duration" f = Some d -> Forall numeric d) ->
  duration_of_row (row_at f i n)
  = Ok (or_null (get "duration_sec" f ≫= (fun s => s !! i))).
Proof.
  intros Hs Hi Hd. unfold duration_of_row.
  rewrite (r_get_row_at "duration_sec") by done.
  destruct (Series.notna _) eqn:E; [done|].
  rewrite (notna_false _ E).
  rewrite (r_get_row_at "duration") by done.
  assert (numeric (or_null (get "duration" f ≫= (fun s => s !! i)))) as Hn.
  { destruct (get "duration" f) as [d|] eqn:Ed; simpl; [|done].
    destruct (d !! i) as [c|] eqn:Ec; simpl; [|done].
    eapply Forall_lookup_1; [by apply Hd|done]. }
  by rewrite (iso8601_numeric _ Hn).
Qed.

(** X12: the cleaner coerces [duration] to numbers before it parses
    durations, so the parser is handed no text: an ISO duration has become
    the number made of its digits.  On a table whose [duration] is numeric
    the parsing step never raises, changes no other column, and puts into
    [duration_sec] only values that were there already and nulls. *)
Theorem duration_never_parsed :
  (forall f d, get "duration" (coerce_candidates f) = Some d -> Forall numeric d) /\
  keep_numeric_chars (replace_commas "PT1H2M3S") = "123" /\
  (forall g,
     shaped g -> (forall d, get "duration" g = Some d -> Forall numeric d) ->
     exists g',
       fill_duration g = Ok g' /\
       (forall c, String.eqb "duration_sec" c = false -> get c g' = get c g) /\
       (forall s' i x,
          get "duration_sec" g' = Some s' -> s' !! i = Some x ->
          x = Null \/
          exists s, get "duration_sec" g = Some s /\ s !! i = Some x)).
Proof.
  split; [|split; [reflexivity|]].
  - intros f d. rewrite get_coerced by (by apply mem_true).
    destruct (get "duration" f); intros [= <-].
    apply coerce_numeric_series_numeric.
  - intros g Hs Hd. destruct (fill_duration_total g Hs Hd) as [g' Hg'].
    exists g'. split; [done|]. split.
    { intros c Hc. by apply (get_fill_duration c g g'). }
    revert Hg'. unfold fill_duration.
    destruct (get "duration" g) as [d|] eqn:Ed; [|intros [= <-]; eauto].
    destruct (Series.notna_any d); [|intros [= <-]; eauto].
    destruct (rmapM duration_of_row (rows g)) as [ys|] eqn:E; simpl; [|done].
    intros [= <-] s' i x. rewrite get_set_eq. intros [= <-] Hx.
    assert (i < nrows g)%nat as Hi.
    { apply lookup_lt_Some in Hx.
      by rewrite (rmapM_length _ _ _ E), rows_length in Hx. }
    destruct (lookup_lt_is_Some_2 (index g) i Hi) as [n Hn].
    destruct (rmapM_lookup _ _ _ i _ E (rows_lookup g i n Hn)) as (y & Hy & Hy').
    rewrite duration_of_row_numeric in Hy by (done || by rewrite Ed).
    rewrite Hx in Hy'. injection Hy' as <-. injection Hy as Hy. subst x.
    destruct (get "duration_sec" g) as [s|]; simpl; [|by left].
    destruct (s !! i) as [c|] eqn:Ec; simpl; [|by left].
    right. by exists s.
Qed.

End CleanerDurations.

Lemma duration_never_parsed_witness :
  exists g',
    fill_duration (coerce_candidates video_rows) = Ok g' /\
    get "duration" g' = Some [Num 123; Num 45] /\
    get "duration_sec" g' = Some [Null; Null].
Proof.
  destruct (@duration_never_parsed Reference.lib) as (Hnum & _ & Hstep).
  destruct (Hstep (coerce_candidates video_rows)) as (g' & Hg' & Hkeep & _).
  { by repeat constructor. }
  { apply Hnum. }
  exists g'. split; [exact Hg'|]. split.
  - rewrite Hkeep by reflexivity. vm_compute. reflexivity.
  - revert Hg'. vm_compute. intros [= <-]. reflexivity.
Defined.

(** ** The unifier: numbers and aliases *)

Section UnifierColumns.
Context {lib : Pandas}.

Lemma get_ensure_student_id c f :
  String.eqb "student_id" c = false -> get c (ensure_student_id f) = get c f.
Proof.
  intros H. unfold ensure_student_id.
  destruct (get "student_id" f) as [s|]; [|done].
  destruct (Series.isna_all s); [|done]. by rewrite get_set_ne.
Qed.

Lemma get_add_source_file_ne c f :
  String.eqb "source_file" c = false -> get c (add_source_file f) = get c f.
Proof.
  intros H. unfold add_source_file, set_scalar.
  repeat case_match; by rewrite get_set_ne.
Qed.

(** X13: in the unified batch, when the labels are distinct once renamed,
    the columns [watch_time], [duration_sec], [engagement], [student_age]
    and [views] hold numbers and nulls only: each is the numeric reading of
    the column as renamed, a text that does not parse becoming a null. *)
Theorem unified_numbers (f : frame) (c : string) :
  batch_ok f -> c ∈ unified_numeric ->
  get c (unify_frame f)
  = to_numeric <$> get c (add_required (apply_mapping (strip_columns f))) /\
  forall s, get c (unify_frame f) = Some s -> Forall numeric s.
Proof.
  intros _ Hc.
  assert (String.eqb "student_id" c = false /\ String.eqb "source_file" c = false
          /\ String.eqb "timestamp" c = false) as (H1 & H2 & H3).
  { unfold unified_numeric in Hc.
    repeat (apply elem_of_cons in Hc as [->|Hc]; [by vm_compute|]).
    by apply elem_of_nil in Hc. }
  assert (NoDup unified_numeric) as Hnd
    by (apply NoDup_labels; vm_compute; reflexivity).
  assert (get c (unify_frame f)
          = to_numeric <$> get c (add_required (apply_mapping (strip_columns f))))
    as E.
  { unfold unify_frame, mapped. rewrite get_reorder.
    rewrite get_ensure_student_id, get_add_source_file_ne by done.
    unfold unify_timestamp. rewrite get_on_column, H3.
    unfold unify_numeric. fold unified_numeric.
    by rewrite (get_fold_on_column_in to_numeric unified_numeric c _ Hnd Hc). }
  split; [exact E|]. intros s Hs. rewrite E in Hs.
  destruct (get c (add_required _)) as [s0|]; [|discriminate Hs].
  injection Hs as <-. apply to_numeric_numeric.
Qed.

End UnifierColumns.

Lemma unified_numbers_witness :
  get "views" (unify_frame mixed_case) = Some [Num 12].
Proof.
  destruct (@unified_numbers Reference.lib mixed_case "views") as [-> _].
  - concrete_ok.
  - apply mem_true. reflexivity.
  - vm_compute. reflexivity.
Defined.

(** The dictionary of lower-cased labels: a key is there when a label has
    it as its lower-case form, and the label it gives is the last such. *)
Lemma cols_low_last (l : list string) k :
  match assoc k (fold_left (fun d c => assoc_set (lower c) c d) l []) with
  | Some c =>
      exists l1 l2, l = (l1 ++ c :: l2)%list /\ lower c = k /\
                    Forall (fun c' => lower c' <> k) l2
  | None => Forall (fun c' => lower c' <> k) l
  end.
Proof.
  induction l as [|c l IH] using rev_ind; [by simpl|].
  rewrite fold_left_app. simpl.
  destruct (String.eqb (lower c) k) eqn:E.
  - apply String.eqb_eq in E as <-. rewrite assoc_set_eq.
    exists l, []. by repeat split.
  - rewrite assoc_set_ne by done. apply String.eqb_neq in E.
    destruct (assoc k _) as [c0|].
    + destruct IH as (l1 & l2 & -> & Hk & Hl2). exists l1, (l2 ++ [c])%list.
      rewrite <- app_assoc. split; [done|]. split; [done|].
      apply Forall_app. split; [done|]. by constructor.
    + apply Forall_app. split; [done|]. by constructor.
Qed.

(** X14: [find_column] compares labels and variants without regard to
    letter case.  It finds nothing exactly when no label matches a
    variant.  What it finds matches the first variant that any label
    matches, and is the last label that matches this variant. *)
Theorem find_column_spec (f : frame) (vs : list string) :
  match find_column (cols_low f) vs with
  | Some c =>
      exists vs1 v vs2 l1 l2,
        vs = (vs1 ++ v :: vs2)%list /\ columns f = (l1 ++ c :: l2)%list /\
        lower c = lower v /\
        Forall (fun c' => lower c' <> lower v) l2 /\
        Forall (fun v' => Forall (fun c' => lower c' <> lower v') (columns f)) vs1
  | None =>
      Forall (fun v => Forall (fun c => lower c <> lower v) (columns f)) vs
  end.
Proof.
  unfold cols_low. induction vs as [|v vs IH]; simpl; [done|].
  pose proof (cols_low_last (columns f) (lower v)) as Hv.
  destruct (assoc (lower v) _) as [c|].
  - destruct Hv as (l1 & l2 & Hl & Hc & Hl2).
    exists [], v, vs, l1, l2. by repeat split.
  - destruct (find_column _ vs) as [c|].
    + destruct IH as (vs1 & v' & vs2 & l1 & l2 & -> & Hl & Hc & Hl2 & Hvs1).
      exists (v :: vs1), v', vs2, l1, l2. repeat split; try done.
      by constructor.
    + by constructor.
Qed.

(** ** The unifier: order and content of the columns *)

Lemma columns_select names f :
  columns (select names f) = List.filter (fun c => has c f) names.
Proof.
  unfold columns, select. simpl. induction names as [|c names IH]; [done|].
  cbn [omap list_omap List.filter]. rewrite has_get.
  destruct (get c f) as [s|]; cbn [fmap option_fmap option_map].
  - rewrite bool_decide_eq_true_2 by by eexists. simpl. by rewrite <- IH.
  - rewrite bool_decide_eq_false_2 by by intros []. exact IH.
Qed.

Lemma mem_filter p c l : mem c (List.filter p l) = mem c l && p c.
Proof.
  unfold mem. induction l as [|x l IH]; [done|]. simpl.
  destruct (p x) eqn:Ex; simpl; rewrite IH.
  - destruct (String.eqb c x) eqn:E; [|done].
    apply String.eqb_eq in E as ->. by rewrite Ex.
  - destruct (String.eqb c x) eqn:E; [|done].
    apply String.eqb_eq in E as ->. rewrite Ex. by rewrite !andb_false_r.
Qed.

Lemma filter_ext_elem {A} (p q : A -> bool) l :
  (forall x, x ∈ l -> p x = q x) -> List.filter p l = List.filter q l.
Proof.
  intros H. apply filter_ext_in. intros x Hx. by apply H, list_elem_of_In.
Qed.

Lemma filter_none {A} (p : A -> bool) l :
  Forall (fun x => p x = false) l -> List.filter p l = [].
Proof. induction 1 as [|x l Hx _ IH]; simpl; [done|]. by rewrite Hx. Qed.

Section UnifierOrder.
Context {lib : Pandas}.

Lemma columns_reorder p :
  columns (reorder p)
  = (List.filter (fun c => has c p) keep
     ++ List.filter (fun c => negb (mem c keep)) (columns p))%list.
Proof.
  unfold reorder. rewrite columns_select.
  rewrite filter_all.
  - f_equal. apply filter_ext_elem. intros c Hc.
    rewrite mem_filter. apply mem_true in Hc.
    unfold has. by rewrite Hc, andb_true_r.
  - apply Forall_app. split; apply Forall_forall; intros c Hc.
    + by apply list_elem_of_In, filter_In in Hc as [_ Hc].
    + apply list_elem_of_In, filter_In in Hc as [Hc _].
      by apply mem_true, list_elem_of_In.
Qed.

Lemma columns_on_column g f c : columns (on_column g f c) = columns f.
Proof.
  unfold on_column. destruct (get c f) as [s|] eqn:E; [|done].
  by rewrite columns_set, (has_Some c f s E), app_nil_r.
Qed.

Lemma columns_fold_on_column g cs f :
  columns (fold_left (on_column g) cs f) = columns f.
Proof.
  revert f. induction cs as [|c cs IH]; intros f; [done|].
  simpl. by rewrite IH, columns_on_column.
Qed.

(** Labels the unifier appends: all of them canonical. *)
Lemma columns_add_required_grow cs f :
  exists extra,
    columns (fold_left
               (fun f c => if has c f then f else set_scalar c Null f) cs f)
    = (columns f ++ extra)%list /\ Forall (fun c => c ∈ cs) extra.
Proof.
  revert f. induction cs as [|c cs IH]; intros f; simpl.
  - exists []. by rewrite app_nil_r.
  - destruct (IH (if has c f then f else set_scalar c Null f)) as (e & -> & He).
    assert (Forall (fun x => x ∈ c :: cs) e) as He'.
    { eapply Forall_impl; [exact He|]. intros x Hx. by right. }
    destruct (has c f) eqn:E; [by exists e|].
    unfold set_scalar. rewrite columns_set, E. exists (c :: e).
    rewrite <- app_assoc. split; [done|]. constructor; [by left|done].
Qed.

Lemma columns_pre f :
  exists extra,
    columns (ensure_student_id (mapped f))
    = (columns (apply_mapping (strip_columns f)) ++ extra)%list /\
    Forall (fun c => c ∈ (required ++ ["source_file"])%list) extra.
Proof.
  assert (forall g, columns (ensure_student_id g) = columns g) as Hid.
  { intros g. unfold ensure_student_id.
    destruct (get "student_id" g) as [s|] eqn:E; [|done].
    destruct (Series.isna_all s); [|done].
    by rewrite columns_set, (has_Some _ _ _ E), app_nil_r. }
  assert (forall g, exists e,
            columns (add_source_file g) = (columns g ++ e)%list /\
            Forall (fun c => c = "source_file") e) as Hsrc.
  { intros g. unfold add_source_file, set_scalar.
    repeat case_match; rewrite columns_set; eexists; (split; [done|]);
      case_match; by repeat constructor. }
  rewrite Hid. unfold mapped.
  destruct (Hsrc (unify_timestamp (unify_numeric (add_required
              (apply_mapping (strip_columns f)))))) as (e2 & -> & He2).
  unfold unify_timestamp, unify_numeric.
  rewrite columns_on_column, columns_fold_on_column.
  destruct (columns_add_required_grow required (apply_mapping (strip_columns f)))
    as (e1 & He1 & Hreq).
  unfold add_required. rewrite He1. exists (e1 ++ e2)%list.
  rewrite app_assoc. split; [done|]. apply Forall_app. split.
  - eapply Forall_impl; [exact Hreq|]. intros c Hc. apply elem_of_app. by left.
  - eapply Forall_impl; [exact He2|]. intros c ->. apply elem_of_app. right.
    by left.
Qed.

Lemma pre_has_canonical f c :
  c ∈ (required ++ ["source_file"])%list ->
  has c (ensure_student_id (mapped f)) = true.
Proof.
  intros Hc. rewrite has_get. apply bool_decide_eq_true_2.
  assert (forall g, is_Some (get c g) -> is_Some (get c (ensure_student_id g)))
    as Hid.
  { intros g Hg. unfold ensure_student_id.
    destruct (get "student_id" g) as [s|]; [|done].
    destruct (Series.isna_all s); [|done]. by apply keeps_set. }
  apply Hid. unfold mapped.
  apply elem_of_app in Hc as [Hc|Hc].
  - assert (forall g, is_Some (get c g) -> is_Some (get c (add_source_file g)))
      as Hsrc.
    { intros g Hg. unfold add_source_file, set_scalar.
      repeat case_match; by apply keeps_set. }
    apply Hsrc. unfold unify_timestamp, unify_numeric.
    apply keeps_on_column, keeps_fold_on_column, add_required_has. by left.
  - apply list_elem_of_singleton in Hc as ->. rewrite get_add_source_file.
    by eexists.
Qed.

(** X15: the unified batch starts with the canonical columns in a fixed
    order, [student_id], [student_gender], [student_age], [course_name],
    [watch_time], [duration_sec], [engagement], [timestamp] and
    [source_file], then [views] when the batch has it; the other columns of
    the batch follow in their order, under their trimmed labels. *)
Theorem unify_column_order (f : frame) :
  batch_ok f ->
  columns (unify_frame f)
  = (required ++ ["source_file"]
     ++ (if mem "views" (columns (apply_mapping (strip_columns f)))
         then ["views"] else [])
     ++ List.filter (fun c => negb (mem c keep))
          (columns (apply_mapping (strip_columns f))))%list.
Proof.
  intros _. unfold unify_frame. rewrite columns_reorder.
  destruct (columns_pre f) as (extra & Hcols & Hextra).
  set (p := ensure_student_id (mapped f)) in *.
  set (L := columns (apply_mapping (strip_columns f))) in *.
  assert (Forall (fun c => has c p = true) (required ++ ["source_file"])%list)
    as Hhas.
  { apply Forall_forall. intros c Hc. by apply pre_has_canonical. }
  assert (Forall (fun c => mem c keep = true /\ String.eqb "views" c = false)
            extra) as Hkeep.
  { eapply Forall_impl; [exact Hextra|]. intros c Hc. unfold required in Hc.
    simpl in Hc.
    repeat (apply elem_of_cons in Hc as [->|Hc]; [by vm_compute|]).
    by apply elem_of_nil in Hc. }
  assert (has "views" p = mem "views" L) as Hviews.
  { unfold has. rewrite Hcols. unfold mem. rewrite existsb_app.
    fold (mem "views" L).
    replace (existsb (String.eqb "views") extra) with false;
      [apply orb_false_r|].
    symmetry. apply not_true_is_false. intros (c & Hc & E)%existsb_exists.
    rewrite Forall_forall in Hkeep.
    destruct (Hkeep c (proj2 (list_elem_of_In _ _) Hc)) as [_ E']. congruence. }
  rewrite Hcols, List.filter_app.
  rewrite (filter_none (fun c => negb (mem c keep)) extra).
  2:{ eapply Forall_impl; [exact Hkeep|]. by intros c [-> _]. }
  rewrite app_nil_r.
  assert (keep = (required ++ ["source_file"]) ++ ["views"])%list as ->
    by (vm_compute; reflexivity).
  rewrite (List.filter_app (fun c => has c p)), (filter_all _ _ Hhas).
  cbn [List.filter]. rewrite Hviews, <- !app_assoc.
  by destruct (mem "views" L).
Qed.

End UnifierOrder.

Lemma unify_column_order_witness :
  columns (unify_frame mixed_case)
  = [ "student_id"; "student_gender"; "student_age"; "course_name";
      "watch_time"; "duration_sec"; "engagement"; "timestamp"; "source_file";
      "views"; "ID" ].
Proof.
  rewrite (@unify_column_order Reference.lib mixed_case) by concrete_ok.
  vm_compute. reflexivity.
Defined.

(** ** The unifier: what happens to each column of the batch *)

Lemma alias_targets :
  Forall (fun e => mem (snd e) (required ++ ["views"]) = true) alias_table.
Proof. unfold alias_table. repeat constructor. Qed.

Lemma alias_variant_canonical c :
  alias_variant c = false -> mem c (required ++ ["views"]) = false.
Proof.
  intros H. apply not_true_is_false. intros Hc%mem_true.
  unfold required in Hc. simpl in Hc.
  repeat (apply elem_of_cons in Hc as [->|Hc]; [by vm_compute in H|]).
  by apply elem_of_nil in Hc.
Qed.

Lemma get_relabel_inj g f k :
  NoDup (map g (columns f)) -> k ∈ columns f ->
  get (g k) (relabel g f) = get k f.
Proof.
  destruct f as [ix l]. unfold get, relabel, columns. simpl.
  induction l as [|[k0 s0] l IH]; simpl; intros Hnd Hk.
  - by apply elem_of_nil in Hk.
  - apply NoDup_cons in Hnd as [Hk0 Hnd].
    destruct (String.eqb k0 k) eqn:E.
    + apply String.eqb_eq in E as ->. by rewrite String.eqb_refl.
    + apply elem_of_cons in Hk as [->|Hk]; [by rewrite String.eqb_refl in E|].
      destruct (String.eqb (g k0) (g k)) eqn:E'; [|by apply IH].
      apply String.eqb_eq in E'. destruct Hk0. rewrite E'.
      by apply list_elem_of_fmap_2.
Qed.

Section UnifierContent.
Context {lib : Pandas}.

Lemma build_mapping_variant f k t :
  assoc k (build_mapping f) = Some t -> alias_variant k = true.
Proof.
  intros (vs & v & He & Hv & Hl)%build_mapping_sound.
  unfold alias_variant. apply existsb_exists. exists (vs, t).
  split; [by apply list_elem_of_In|]. apply existsb_exists. exists v.
  split; [by apply list_elem_of_In|]. by apply String.eqb_eq.
Qed.

Lemma build_mapping_target f k t :
  assoc k (build_mapping f) = Some t -> mem t (required ++ ["views"]) = true.
Proof.
  intros (vs & v & He & _)%build_mapping_sound.
  pose proof alias_targets as H. rewrite Forall_forall in H. exact (H _ He).
Qed.

Lemma get_apply_mapping_other f c :
  alias_variant c = false -> get c (apply_mapping f) = get c f.
Proof.
  intros Hc. unfold apply_mapping.
  pose proof (build_mapping_variant f) as Hv.
  pose proof (build_mapping_target f) as Ht.
  destruct (build_mapping f) as [|e m]; [done|].
  unfold rename. apply get_relabel_fixed. intros k. split.
  - destruct (assoc k (e :: m)) as [t|] eqn:Ek; simpl; [|done].
    intros ->. apply Ht in Ek.
    by rewrite (alias_variant_canonical c Hc) in Ek.
  - intros ->. destruct (assoc c (e :: m)) as [t|] eqn:Ek; [|done].
    apply Hv in Ek. congruence.
Qed.

Lemma get_add_required_has c f :
  is_Some (get c f) -> get c (add_required f) = get c f.
Proof.
  unfold add_required. generalize required. intros cs. revert f.
  induction cs as [|x cs IH]; simpl; intros f Hc; [done|].
  destruct (has x f) eqn:E; [by apply IH|].
  assert (String.eqb x c = false) as Hx.
  { apply not_true_is_false. intros ->%String.eqb_eq.
    rewrite has_get in E. by apply bool_decide_eq_false in E. }
  rewrite IH; rewrite get_set_scalar, Hx; done.
Qed.

(** Keys of the renaming are labels of the batch. *)
Lemma cols_low_in f k c : assoc k (cols_low f) = Some c -> c ∈ columns f.
Proof.
  intros H. pose proof (cols_low_last (columns f) k) as Hl.
  unfold cols_low in H. rewrite H in Hl.
  destruct Hl as (l1 & l2 & -> & _). apply elem_of_app. right. by left.
Qed.

Lemma build_mapping_key f k t :
  assoc k (build_mapping f) = Some t -> k ∈ columns f.
Proof.
  unfold build_mapping.
  assert (forall tbl m,
            (forall k t, assoc k m = Some t -> k ∈ columns f) ->
            forall k t,
              assoc k (fold_left (add_alias (cols_low f)) tbl m) = Some t ->
              k ∈ columns f) as H.
  { induction tbl as [|[vs t0] tbl IH]; simpl; intros m Hm; [exact Hm|].
    apply IH. intros k0 t1. unfold add_alias. simpl.
    destruct (find_column (cols_low f) vs) as [[|c r]|] eqn:E; try apply Hm.
    destruct (String.eqb (String c r) k0) eqn:Ek.
    - apply String.eqb_eq in Ek as <-. intros _.
      apply find_column_sound in E as (v & _ & Hc). by eapply cols_low_in.
    - rewrite assoc_set_ne by done. apply Hm. }
  intros Hk. eapply H; [|exact Hk]. by intros ? ? [=].
Qed.

(** X16: what the unifier does to the content of a column.  A column
    whose trimmed label matches no alias, and is not [source_file], comes
    out under that label with its content.  In a batch whose labels stay
    distinct, a column renamed to [student_gender] or [course_name] comes
    out under the new label with its content. *)
Theorem unify_keeps_content (f : frame) :
  (forall c,
     alias_variant c = false -> c <> "source_file" ->
     get c (unify_frame f) = get c (strip_columns f)) /\
  (forall k t,
     batch_ok f ->
     assoc k (build_mapping (strip_columns f)) = Some t ->
     t = "student_gender" \/ t = "course_name" ->
     get t (unify_frame f) = get k (strip_columns f) /\
     is_Some (get k (strip_columns f))).
Proof.
  split.
  - intros c Hv Hsrc. pose proof (alias_variant_canonical c Hv) as Hc.
    assert (mem c required = false /\ mem c unified_numeric = false /\
            String.eqb "timestamp" c = false /\
            String.eqb "student_id" c = false) as (H1 & H2 & H3 & H4).
    { assert (forall t, mem t (required ++ ["views"]) = true ->
                String.eqb t c = false) as Hne.
      { intros t Ht. apply not_true_is_false. intros ->%String.eqb_eq.
        congruence. }
      split; [|split; [|split; by apply Hne]].
      - apply not_true_is_false. intros H. revert Hc. unfold mem.
        rewrite existsb_app. fold (mem c required). by rewrite H.
      - apply not_true_is_false. intros H%mem_true.
        unfold unified_numeric in H.
        repeat (apply elem_of_cons in H as [->|H]; [by vm_compute in Hc|]).
        by apply elem_of_nil in H. }
    unfold unify_frame, mapped. rewrite get_reorder.
    rewrite get_ensure_student_id by done.
    rewrite get_add_source_file_ne by by apply String.eqb_neq.
    unfold unify_timestamp. rewrite get_on_column, H3.
    unfold unify_numeric. fold unified_numeric.
    rewrite (get_fold_on_column to_numeric unified_numeric c _ H2).
    rewrite get_add_required by done. by apply get_apply_mapping_other.
  - intros k t [_ Hnd] Hk Ht.
    pose proof (build_mapping_key _ _ _ Hk) as Hin.
    assert (get t (apply_mapping (strip_columns f)) = get k (strip_columns f))
      as Hmap.
    { revert Hnd. unfold apply_mapping.
      destruct (build_mapping (strip_columns f)) as [|e m] eqn:Em; [done|].
      unfold rename. intros Hnd. rewrite columns_relabel in Hnd.
      rewrite <- (get_relabel_inj _ _ k Hnd Hin). by rewrite Hk. }
    assert (is_Some (get k (strip_columns f))) as Hsome.
    { apply mem_true in Hin. fold (has k (strip_columns f)) in Hin.
      rewrite has_get in Hin. by apply bool_decide_eq_true in Hin. }
    split; [|done].
    assert (mem t unified_numeric = false /\
            String.eqb "timestamp" t = false /\
            String.eqb "student_id" t = false /\
            String.eqb "source_file" t = false) as (H2 & H3 & H4 & H5)
      by (destruct Ht as [->| ->]; by vm_compute).
    unfold unify_frame, mapped. rewrite get_reorder.
    rewrite get_ensure_student_id, get_add_source_file_ne by done.
    unfold unify_timestamp. rewrite get_on_column, H3.
    unfold unify_numeric. fold unified_numeric.
    rewrite (get_fold_on_column to_numeric unified_numeric t _ H2).
    rewrite get_add_required_has; [done|]. by rewrite Hmap.
Qed.

End UnifierContent.

Lemma unify_keeps_content_witness :
  get "City" (unify_frame people) = Some [Str "x"; Str "y"] /\
  get "student_gender" (unify_frame people) = Some [Str "F"; Str "M"].
Proof.
  destruct (@unify_keeps_content Reference.lib people) as [Hother Hrenamed].
  split.
  - rewrite Hother; [reflexivity|reflexivity|discriminate].
  - destruct (Hrenamed "Sex" "student_gender") as [-> _];
      [concrete_ok|reflexivity|by left|reflexivity].
Defined.

(** ** From the loader to the unifier *)

Lemma slength_app (a b : string) :
  String.length (a ++ b) = (String.length a + String.length b)%nat.
Proof. induction a as [|c a IH]; [done|]. rewrite sapp_cons. simpl. by rewrite IH. Qed.

Lemma sapp_inj_r (a b x : string) : a ++ x = b ++ x -> a = b.
Proof.
  intros H.
  assert (String.length a = String.length b) as Hl.
  { apply (f_equal String.length) in H. rewrite !slength_app in H. lia. }
  revert b H Hl. induction a as [|c a IH]; intros [|d b] H Hl; try done.
  rewrite !sapp_cons in H. injection H as -> H. f_equal. apply IH; [done|].
  simpl in Hl. lia.
Qed.

Lemma get_relabel_NoDup g f k s :
  NoDup (map g (columns f)) -> get k f = Some s ->
  get (g k) (relabel g f) = Some s.
Proof.
  intros Hnd Hk. rewrite get_relabel_inj; [done|done|].
  apply mem_true. fold (has k f). by eapply has_Some.
Qed.

Section Loading.
Context {lib : Pandas}.

Lemma tagged_column name f :
  NoDup (columns (strip_columns (tag_source name f))) ->
  get "_source_file" (strip_columns (tag_source name f))
  = Some (replicate (nrows f) (Str name)).
Proof.
  intros Hnd. unfold strip_columns in *. rewrite columns_relabel in Hnd.
  change "_source_file" with (strip "_source_file") at 1.
  apply get_relabel_NoDup; [done|].
  unfold tag_source. by rewrite get_set_scalar.
Qed.

(** X17: a batch that a loader has tagged with the name of its file comes
    out of the unifier with that name in every row of [source_file]; where
    the batch has no student id at all, the id of a row is the file name,
    an underscore and the row label. *)
Theorem loaded_batch_source (name : string) (f : frame) :
  batch_ok (tag_source name f) ->
  get "source_file" (unify_frame (tag_source name f))
  = Some (replicate (nrows f) (Str name)) /\
  (forall mid,
     get "student_id" (mapped (tag_source name f)) = Some mid ->
     Series.isna_all mid = true ->
     exists sid,
       get "student_id" (unify_frame (tag_source name f)) = Some sid /\
       length sid = nrows f /\
       forall i n, index f !! i = Some n ->
         sid !! i = Some (Str (name ++ "_" ++ pretty n))).
Proof.
  intros [Hs Hnd].
  assert (NoDup (columns (strip_columns (tag_source name f)))) as Hnd'.
  { revert Hnd. unfold apply_mapping.
    destruct (build_mapping _); [done|]. unfold rename.
    rewrite columns_relabel. apply NoDup_fmap_1. }
  destruct (unify_source (tag_source name f)) as (src & Hsrc & Hout & _ & Htag).
  rewrite (Htag _ (tagged_column name f Hnd')) in *. split; [done|].
  intros mid Hmid Hnull.
  destruct (unify_synthetic (tag_source name f) mid _ Hs Hmid Hsrc Hnull)
    as (sid & Hsid & Hlen & Hrows & _).
  exists sid. split; [done|]. split; [done|]. intros i n Hn.
  rewrite (Hrows i n (Str name)); [by rewrite str_of_cell_Str|done|].
  apply lookup_replicate_2. by apply lookup_lt_Some in Hn.
Qed.

(** X18: a synthetic id tells the source and the row apart: two rows whose
    [source_file] is a text get the same id only if they have the same
    source and the same row label. *)
Theorem synthetic_id_injective (r1 r2 : row) (a b : string) :
  r_get "source_file" r1 = Some (Str a) ->
  r_get "source_file" r2 = Some (Str b) ->
  synthetic_id r1 = synthetic_id r2 ->
  a = b /\ r_name r1 = r_name r2.
Proof.
  intros H1 H2. unfold synthetic_id. rewrite H1, H2, !str_of_cell_Str.
  intros [= H]. pose proof (synthetic_label_inj _ _ _ _ H) as Hn.
  split; [|done]. rewrite Hn in H. by apply sapp_inj_r in H.
Qed.

End Loading.

Lemma loaded_batch_source_witness :
  get "source_file" (unify_frame (tag_source "a.csv" people))
  = Some [Str "a.csv"; Str "a.csv"] /\
  exists sid,
    get "student_id" (unify_frame (tag_source "a.csv" people)) = Some sid /\
    sid !! 1%nat = Some (Str "a.csv_1").
Proof.
  destruct (@loaded_batch_source Reference.lib "a.csv" people) as [Hsrc Hid];
    [concrete_ok|].
  split; [exact Hsrc|].
  destruct (Hid [Null; Null]) as (sid & Hsid & _ & Hrows);
    [vm_compute; reflexivity|reflexivity|].
  exists sid. split; [exact Hsid|]. exact (Hrows 1%nat 1%nat eq_refl).
Defined.

Lemma synthetic_id_injective_witness :
  "a.csv" = "a.csv" /\ 3%nat = 3%nat.
Proof.
  apply (@synthetic_id_injective Reference.lib
           {| r_name := 3; r_cells := [("source_file", Str "a.csv")] |}
           {| r_name := 3; r_cells := [("source_file", Str "a.csv")] |}
           "a.csv" "a.csv"); reflexivity.
Defined.

(** ** The summary *)

Lemma distinct_spec (l : column) :
  (forall x, x ∈ l -> exists y, y ∈ Stats.distinct l /\ Series.cell_eqb x y = true) /\
  (forall y, y ∈ Stats.distinct l -> y ∈ l) /\
  (forall i j y y', Stats.distinct l !! i = Some y -> Stats.distinct l !! j = Some y' ->
     Series.cell_eqb y y' = true -> i = j) /\
  (length (Stats.distinct l) <= length l)%nat.
Proof.
  induction l as [|a l (Hcov & Hin & Hinj & Hlen)]; simpl.
  { repeat split; try done. intros x Hx. by apply elem_of_nil in Hx. }
  set (keep := fun y => negb (Series.cell_eqb a y)).
  assert (forall y, y ∈ List.filter keep (Stats.distinct l) <->
                    y ∈ Stats.distinct l /\ keep y = true) as Hf.
  { intros y. rewrite !list_elem_of_In. apply filter_In. }
  repeat split.
  - intros x [->|Hx]%elem_of_cons.
    + exists a. split; [by left|apply cell_eqb_refl].
    + destruct (Hcov x Hx) as (y & Hy & Exy).
      destruct (Series.cell_eqb a y) eqn:Eay.
      * exists a. split; [by left|].
        rewrite cell_eqb_sym in Eay. by eapply cell_eqb_trans.
      * exists y. split; [|done]. right. apply Hf. split; [done|].
        unfold keep. by rewrite Eay.
  - intros y [->|Hy]%elem_of_cons; [by left|]. right.
    apply Hf in Hy as [Hy _]. by apply Hin.
  - assert (forall m i j y y',
              (forall i j y y', m !! i = Some y -> m !! j = Some y' ->
                 Series.cell_eqb y y' = true -> i = j) ->
              List.filter keep m !! i = Some y ->
              List.filter keep m !! j = Some y' ->
              Series.cell_eqb y y' = true -> i = j) as Hfilter.
    { induction m as [|b m IHm]; simpl; [done|]. intros i j y y' Hm.
      assert (forall i j y y', m !! i = Some y -> m !! j = Some y' ->
                Series.cell_eqb y y' = true -> i = j) as Hm'.
      { intros i' j' ? ? H1 H2 E.
        by injection (Hm (S i') (S j') _ _ H1 H2 E). }
      destruct (keep b) eqn:Eb; [|by apply IHm].
      assert (forall k z, List.filter keep m !! k = Some z ->
                Series.cell_eqb b z = false) as Hb.
      { intros k z Hz. apply not_true_is_false. intros E.
        apply list_elem_of_lookup_2, list_elem_of_In, filter_In in Hz as [Hz _].
        apply list_elem_of_In, list_elem_of_lookup_1 in Hz as [k' Hk'].
        by specialize (Hm 0%nat (S k') b z eq_refl Hk' E). }
      destruct i as [|i], j as [|j]; simpl; try done.
      - intros [= <-] Hj E. by rewrite (Hb _ _ Hj) in E.
      - intros Hi [= <-] E. rewrite cell_eqb_sym in E.
        by rewrite (Hb _ _ Hi) in E.
      - intros Hi Hj E. f_equal. by eapply IHm. }
    intros [|i] [|j] y y'; simpl; try done.
    + intros [= <-] Hj E.
      apply list_elem_of_lookup_2, Hf in Hj as [_ Hj]. unfold keep in Hj.
      by rewrite E in Hj.
    + intros Hi [= <-] E.
      apply list_elem_of_lookup_2, Hf in Hi as [_ Hi]. unfold keep in Hi.
      rewrite cell_eqb_sym in E. by rewrite E in Hi.
    + intros Hi Hj E. f_equal. by eapply Hfilter.
  - pose proof (filter_length_le keep (Stats.distinct l)). lia.
Qed.

Lemma filter_notna_spec (s : column) x :
  x ∈ List.filter Series.notna s <-> x ∈ s /\ x <> Null.
Proof.
  rewrite !list_elem_of_In, filter_In. split; intros [H1 H2]; split; try done.
  - by intros ->.
  - by destruct x.
Qed.

(** X19: [unique_students] counts the distinct student ids of the table,
    nulls left out: it is the length of a list of ids of the table, none
    null and no two equal, that holds every id of the table that is not
    null.  It is at most the number of rows of a rectangular table, and it
    is absent only when the table has no [student_id] column. *)
Theorem unique_students_counts (f : frame) :
  (kpi_unique_students f = None <-> get "student_id" f = None) /\
  (forall s, get "student_id" f = Some s ->
     exists ids,
       kpi_unique_students f = Some (length ids) /\
       Forall (fun y => y ∈ s /\ y <> Null) ids /\
       (forall x, x ∈ s -> x <> Null ->
          exists y, y ∈ ids /\ Series.cell_eqb x y = true) /\
       (forall i j y y', ids !! i = Some y -> ids !! j = Some y' ->
          Series.cell_eqb y y' = true -> i = j) /\
       (length ids <= length s)%nat /\
       (shaped f -> (length ids <= kpi_rows f)%nat)).
Proof.
  unfold kpi_unique_students. split.
  - destruct (get "student_id" f); simpl; split; done.
  - intros s Hget. rewrite Hget. simpl. unfold Stats.nunique.
    destruct (distinct_spec (List.filter Series.notna s))
      as (Hcov & Hin & Hinj & Hlen).
    exists (Stats.distinct (List.filter Series.notna s)).
    split; [done|]. split; [|split; [|split; [done|]]].
    + apply Forall_forall. intros y Hy. by apply filter_notna_spec, Hin.
    + intros x Hx Hnull. apply Hcov. by apply filter_notna_spec.
    + pose proof (filter_length_le Series.notna s) as Hle.
      split; [lia|]. intros Hs. unfold kpi_rows.
      rewrite <- (shaped_get _ _ _ Hs Hget). lia.
Qed.

Lemma unique_students_counts_witness :
  exists ids : column,
    kpi_unique_students repeated_ids = Some (length ids) /\
    (length ids <= kpi_rows repeated_ids)%nat.
Proof.
  destruct (unique_students_counts repeated_ids) as [_ H].
  destruct (H [Str "a"; Null; Str "b"; Str "a"] eq_refl)
    as (ids & Hids & _ & _ & _ & _ & Hrows).
  exists ids. split; [exact Hids|]. apply Hrows. by repeat constructor.
Defined.

Lemma nums_isna_all s : Series.isna_all s = true -> Series.nums s = [].
Proof.
  unfold Series.isna_all, Series.nums. induction s as [|c s IH]; [done|].
  simpl. intros [Hc Hs]%andb_prop. destruct c; try done. by apply IH.
Qed.

Lemma median_nil s : Series.nums s = [] -> Series.median s = None.
Proof. intros H. unfold Series.median. by rewrite H. Qed.

Lemma isna_all_numeric s : Series.isna_all s = true -> Forall numeric s.
Proof.
  unfold Series.isna_all. intros H. apply Forall_forall. intros c Hc.
  rewrite forallb_forall in H. specialize (H c (proj1 (list_elem_of_In _ _) Hc)).
  by destruct c.
Qed.

Lemma isna_all_mask m s :
  Series.isna_all s = true -> Series.isna_all (mask_list m s) = true.
Proof.
  unfold Series.isna_all. revert s.
  induction m as [|b m IH]; intros [|c s]; simpl; try done.
  intros [Hc Hs]%andb_prop. destruct b; simpl; rewrite ?Hc; by apply IH.
Qed.

Section Summary.
Context {lib : Pandas}.

Lemma get_normalize_gender c f :
  String.eqb "student_gender" c = false -> get c (normalize_gender f) = get c f.
Proof.
  intros H. unfold normalize_gender, set_scalar.
  destruct (get "student_gender" f); by rewrite get_set_ne.
Qed.

(** A [student_age] column without any age stays so along the cleaner. *)
Lemma null_ages_cleaned f f' a :
  clean_frame f = Ok f' ->
  get "student_age" (strip_columns (drop_metadata f)) = Some a ->
  Series.isna_all a = true ->
  exists a', get "student_age" f' = Some a' /\ Series.isna_all a' = true.
Proof.
  intros (f1 & H1 & ->)%clean_frame_inv Ha Hnull.
  assert (get "student_age" f1 = Some a) as Hf1.
  { rewrite (get_fill_duration _ _ _ H1) by reflexivity.
    rewrite get_coerced by (by apply mem_true).
    rewrite get_normalize_gender, Ha by reflexivity. simpl.
    by rewrite coerce_numeric_fixed by by apply isna_all_numeric. }
  set (X := timestamp_features _).
  assert (get "student_age" X = Some a) as HX.
  { unfold X.
    by rewrite get_timestamp_features, get_is_engaged, get_engagement_rate,
      get_completion_rate, get_create_student_id, get_parse_timestamp,
      get_normalize_watch_time, get_duration_sec_numeric by reflexivity. }
  assert (exists a', get "student_age" (remove_duplicates X) = Some a' /\
                     Series.isna_all a' = true) as (a' & Ha' & Hnull').
  { destruct (remove_duplicates_mask X) as [->|[m ->]]; [by exists a|].
    rewrite get_filter_rows, HX. eexists. split; [done|].
    by apply isna_all_mask. }
  exists a'. split; [|done]. rewrite get_age_finish. unfold fill_student_age.
  by rewrite Ha', notna_any_isna_all, Hnull'.
Qed.

(** X20: the [median_age] entry of the summary raises [ValueError]
    exactly when the table has a [student_age] column without any number;
    it is absent when the table has no such column.  The cleaner leaves a
    [student_age] column without any age as it is, so on its output the
    entry raises. *)
Theorem median_age_fails :
  (forall f,
     kpi_median_age f = inl ValueError <->
     exists a, get "student_age" f = Some a /\ Series.nums a = []) /\
  (forall f, kpi_median_age f = inr None <-> get "student_age" f = None) /\
  (forall f f' a,
     clean_frame f = Ok f' ->
     get "student_age" (strip_columns (drop_metadata f)) = Some a ->
     Series.isna_all a = true ->
     kpi_median_age f' = inl ValueError).
Proof.
  assert (forall f a, get "student_age" f = Some a -> Series.nums a = [] ->
            kpi_median_age f = inl ValueError) as Hfail.
  { intros f a Ha Hn. unfold kpi_median_age. by rewrite Ha, (median_nil a Hn). }
  split; [|split].
  - intros f. split; [|intros (a & Ha & Hn); by eapply Hfail].
    unfold kpi_median_age. destruct (get "student_age" f) as [a|]; [|done].
    intros H. exists a. split; [done|].
    destruct (Series.nums a) as [|q l] eqn:E; [done|].
    destruct (median_Some a) as [m Hm]; [by rewrite E|].
    by rewrite Hm in H.
  - intros f. unfold kpi_median_age.
    destruct (get "student_age" f) as [a|]; [|done].
    split; [|done]. by destruct (Stats.int_of_float _).
  - intros f f' a Hf Ha Hnull.
    destruct (null_ages_cleaned f f' a Hf Ha Hnull) as (a' & Ha' & Hnull').
    apply (Hfail f' a' Ha'). by apply nums_isna_all.
Qed.

End Summary.

Lemma median_age_fails_witness :
  exists f', clean_frame no_ages = Ok f' /\ kpi_median_age f' = inl ValueError.
Proof.
  assert (exists f', clean_frame no_ages = Ok f') as [f' Hf']
    by (vm_compute; eexists; reflexivity).
  exists f'. split; [exact Hf'|].
  apply (proj2 (proj2 (@median_age_fails Reference.lib)) no_ages f' [Null; Null]);
    [exact Hf'|reflexivity|reflexivity].
Defined.

(** ** Synthetic ids and duplicates *)

Lemma apply_lookup {A} (g : row -> A) f i n :
  index f !! i = Some n -> apply g f !! i = Some (g (row_at f i n)).
Proof.
  intros H. unfold apply. change (map ?h ?l) with (h <$> l).
  by rewrite list_lookup_fmap, (rows_lookup _ _ _ H).
Qed.

Lemma key_eqb_head a b l l' :
  key_eqb (a :: l) (b :: l') = true -> Series.cell_eqb a b = true.
Proof.
  unfold key_eqb. simpl. intros [_ H]%andb_prop. by apply andb_prop in H as [H _].
Qed.

(** Keys that differ pairwise mark no row as a duplicate. *)
Lemma duplicated_none ks :
  (forall i j k k', (i < j)%nat -> ks !! i = Some k -> ks !! j = Some k' ->
     key_eqb k' k = false) ->
  duplicated ks = replicate (length ks) false.
Proof.
  intros H. apply list_eq. intros j.
  destruct (ks !! j) as [k|] eqn:Ej.
  - rewrite (duplicated_lookup _ _ _ Ej).
    rewrite lookup_replicate_2 by (by eapply lookup_lt_Some). f_equal.
    apply not_true_is_false. intros (i & k' & Hlt & Hi & E)%earlier_equal.
    by rewrite (H i j k' k Hlt Hi Ej) in E.
  - apply lookup_ge_None in Ej.
    assert (duplicated ks !! j = None) as ->.
    { apply lookup_ge_None. by rewrite duplicated_length. }
    symmetry. apply lookup_ge_None. by rewrite length_replicate.
Qed.

Section SyntheticRows.
Context {lib : Pandas}.

Lemma index_finish f : index (finish f) = index f.
Proof.
  unfold finish, fill_zero, fill_gender, cap_columns.
  rewrite index_fold_on_column, index_on_column.
  unfold fill_student_age.
  destruct (get "student_age" _) as [a|]; [|apply index_fold_on_column].
  destruct (if Series.notna_any a then _ else _); apply index_fold_on_column.
Qed.

Lemma get_student_id_finish f :
  get "student_id" (finish f) = get "student_id" f.
Proof.
  unfold finish, fill_gender.
  by rewrite get_fill_zero, get_on_column, get_fill_student_age, get_cap_columns
    by reflexivity.
Qed.

(** A table whose [student_id] column holds distinct texts loses no row
    to the removal of duplicates. *)
Lemma distinct_ids_no_duplicates X sid :
  shaped X -> get "student_id" X = Some sid ->
  NoDup sid -> Forall (fun c => exists t, c = Str t) sid ->
  remove_duplicates X = X.
Proof.
  intros Hs Hsid Hnd Htext. unfold remove_duplicates, key_cols.
  cbn [List.filter]. rewrite (has_Some _ _ _ Hsid).
  set (cs := "student_id" :: _). unfold drop_duplicates.
  rewrite duplicated_none.
  - change (map negb (replicate ?n ?b)) with (negb <$> replicate n b).
    rewrite fmap_replicate. simpl negb.
    apply filter_rows_all; [done|]. by rewrite apply_length.
  - intros i j k k' Hlt Hi Hj.
    assert (i < nrows X)%nat as Hi'.
    { rewrite <- (apply_length (row_key cs)). by eapply lookup_lt_Some. }
    assert (j < nrows X)%nat as Hj'.
    { rewrite <- (apply_length (row_key cs)). by eapply lookup_lt_Some. }
    destruct (lookup_lt_is_Some_2 (index X) i Hi') as [n Hn].
    destruct (lookup_lt_is_Some_2 (index X) j Hj') as [m Hm].
    rewrite (apply_lookup _ _ _ _ Hn) in Hi. injection Hi as <-.
    rewrite (apply_lookup _ _ _ _ Hm) in Hj. injection Hj as <-.
    apply not_true_is_false. unfold row_key, cs. cbn [map].
    intros E%key_eqb_head. revert E.
    rewrite !r_get_row_at, Hsid by done. simpl.
    rewrite <- (shaped_get _ _ _ Hs Hsid) in Hi', Hj'.
    destruct (lookup_lt_is_Some_2 sid i Hi') as [x Hx].
    destruct (lookup_lt_is_Some_2 sid j Hj') as [y Hy].
    rewrite Hx, Hy. simpl.
    rewrite Forall_forall in Htext.
    destruct (Htext x (list_elem_of_lookup_2 _ _ _ Hx)) as [a ->].
    destruct (Htext y (list_elem_of_lookup_2 _ _ _ Hy)) as [b ->].
    simpl. intros ->%String.eqb_eq.
    pose proof (NoDup_lookup _ _ _ _ Hnd Hx Hy). lia.
Qed.

(** X21: when the table has no student id, none at all or only nulls, and
    its row labels are distinct, the cleaner makes the ids from the source
    and the row label; the ids are then distinct, so the removal of
    duplicates removes nothing: the cleaned table has the rows of the
    input. *)
Theorem synthetic_ids_keep_rows (f f' : frame) :
  shaped f -> NoDup (index f) ->
  needs_student_id (strip_columns (drop_metadata f)) = true ->
  clean_frame f = Ok f' ->
  index f' = index f /\
  exists sid,
    get "student_id" f' = Some sid /\ length sid = nrows f /\
    NoDup sid /\ Forall not_null sid.
Proof.
  intros Hs Hnd Hneed (f1 & H1 & ->)%clean_frame_inv.
  set (R := fun a b : frame => index b = index a).
  assert (forall a b c, R a b -> R b c -> R a c) as Rtrans
    by (unfold R; intros ??? -> ->; done).
  assert (forall c s a, shaped a -> length s = nrows a ->
            c ∈ derived_columns \/ is_Some (get c a) -> R a (set c s a))
    as Rset by done.
  set (f2 := strip_columns (drop_metadata f)) in *.
  set (P := parse_timestamp (normalize_watch_time (duration_sec_numeric f1))).
  assert (R f2 P /\ shaped P) as [HP HsP].
  { apply (via_before_ids R Rtrans Rset).
    apply (via_fill_duration R Rtrans Rset _ _ _ H1).
    apply (via_fold_on_column R Rtrans Rset);
      [apply coerce_numeric_series_length|].
    apply (via_normalize_gender R Rtrans Rset). split; [done|].
    by apply shaped_relabel, get_drop_metadata_shape. }
  assert (index P = index f) as HiP.
  { rewrite HP. unfold f2, strip_columns. simpl. apply index_drop_metadata. }
  assert (get "student_id" P = get "student_id" f2) as Hid.
  { unfold P. rewrite get_parse_timestamp, get_normalize_watch_time,
      get_duration_sec_numeric by reflexivity.
    rewrite (get_fill_duration _ _ _ H1) by reflexivity.
    unfold coerce_candidates. rewrite get_fold_on_column by reflexivity.
    by rewrite get_normalize_gender. }
  assert (needs_student_id P = true) as HneedP.
  { unfold needs_student_id in *. by rewrite Hid. }
  set (X := timestamp_features _).
  assert (R P X /\ shaped X) as [HX HsX].
  { apply (via_after_ids R Rtrans Rset); [apply timestamp_parsed|done]. }
  assert (get "student_id" X = Some (apply synthetic_id P)) as HsidX.
  { unfold X. rewrite get_timestamp_features, get_is_engaged,
      get_engagement_rate, get_completion_rate by reflexivity.
    unfold create_student_id. rewrite HneedP. apply get_set_eq. }
  assert (NoDup (apply synthetic_id P)) as Hnd'.
  { apply synthetic_ids_NoDup. by rewrite HiP. }
  rewrite (distinct_ids_no_duplicates X _ HsX HsidX Hnd').
  2:{ unfold apply. rewrite List.Forall_map. apply Forall_true.
      intros r. unfold synthetic_id. by eexists. }
  split.
  - rewrite index_finish, HX. exact HiP.
  - exists (apply synthetic_id P). rewrite get_student_id_finish.
    split; [done|]. split; [|split; [done|apply synthetic_ids_not_null]].
    rewrite apply_length. unfold nrows. by rewrite HiP.
Qed.

End SyntheticRows.

Lemma synthetic_ids_keep_rows_witness :
  exists f',
    clean_frame visits = Ok f' /\ index f' = [0; 1; 2]%nat /\
    exists sid, get "student_id" f' = Some sid /\ NoDup sid.
Proof.
  assert (exists f', clean_frame visits = Ok f') as [f' Hf']
    by (vm_compute; eexists; reflexivity).
  assert (shaped visits) as H1 by by repeat constructor.
  assert (NoDup (index visits)) as H2
    by (apply (bool_decide_unpack _); vm_compute; exact I).
  assert (needs_student_id (strip_columns (drop_metadata visits)) = true) as H3
    by (vm_compute; reflexivity).
  pose proof (@synthetic_ids_keep_rows Reference.lib visits f' H1 H2 H3 Hf')
    as (Hi & sid & Hsid & _ & Hnd & _).
  exists f'. split; [exact Hf'|]. split; [exact Hi|]. exists sid.
  split; [exact Hsid|exact Hnd].
Defined.

(** ** The average completion rate *)




(** ** The courses with the most views *)

#[global] Instance more_views_total : Total more_views.
Proof.
  intros x y. unfold more_views.
  destruct (Qlt_le_dec (snd x) (snd y)); [right; by apply Qlt_le_weak|by left].
Qed.

#[global] Instance more_views_transitive : Transitive more_views.
Proof. intros x y z. unfold more_views. intros H1 H2. by eapply Qle_trans. Qed.

Lemma sorted_take {A} (R : relation A) n l :
  StronglySorted R l -> StronglySorted R (take n l).
Proof.
  intros H. rewrite <- (take_drop n l) in H. by eapply StronglySorted_app_1_l.
Qed.

Lemma sorted_split {A} (R : relation A) n l x y :
  StronglySorted R l -> x ∈ take n l -> y ∈ list.drop n l -> R x y.
Proof.
  intros H. rewrite <- (take_drop n l) in H.
  by apply StronglySorted_app_1_elem_of.
Qed.

Lemma take_elem {A} (x : A) n l : x ∈ take n l -> x ∈ l.
Proof.
  intros H. rewrite <- (take_drop n l). apply elem_of_app. by left.
Qed.

Section TopCourses.
Variable sort_values : list (cell * Q) -> list (cell * Q).
Hypothesis sort_perm : forall l, sort_values l ≡ₚ l.
Hypothesis sort_desc : forall l, StronglySorted more_views (sort_values l).

(** X23: the summary lists at most ten courses with their total views,
    larger totals first.  Each listed course is a course of the table, not
    null, with the sum of the views of its rows; every course of the table
    is listed, or has no more views than each listed course, the list then
    being full. *)
Theorem top_courses_by_views (f : frame) (c v : column) :
  get "course_name" f = Some c -> get "views" f = Some v ->
  (length (kpi_top_courses sort_values f) <= 10)%nat /\
  StronglySorted more_views (kpi_top_courses sort_values f) /\
  (forall k t, (k, t) ∈ kpi_top_courses sort_values f ->
     k ∈ c /\ k <> Null /\ t = group_sum c v k) /\
  (forall k, k ∈ c -> k <> Null ->
     exists k0,
       Series.cell_eqb k k0 = true /\
       ((k0, group_sum c v k0) ∈ kpi_top_courses sort_values f \/
        (length (kpi_top_courses sort_values f) = 10%nat /\
         forall k' t', (k', t') ∈ kpi_top_courses sort_values f ->
           (group_sum c v k0 <= t')%Q))).
Proof.
  intros Hc Hv. unfold kpi_top_courses. rewrite Hc, Hv.
  set (groups := groupby_sum c v).
  destruct (distinct_spec (List.filter Series.notna c)) as (Hcov & Hin & _ & _).
  assert (forall k t, (k, t) ∈ groups <->
            k ∈ Stats.distinct (List.filter Series.notna c) /\
            t = group_sum c v k) as Hgroups.
  { intros k t. unfold groups, groupby_sum. rewrite list_elem_of_fmap. split.
    - intros (k0 & [= -> ->] & Hk0). done.
    - intros [Hk ->]. by exists k. }
  split; [|split; [|split]].
  - rewrite length_take. lia.
  - apply sorted_take, sort_desc.
  - intros k t Hkt. apply take_elem in Hkt.
    rewrite sort_perm in Hkt. apply Hgroups in Hkt as [Hk ->].
    apply Hin, filter_notna_spec in Hk as [Hk Hnull]. done.
  - intros k Hk Hnull.
    destruct (Hcov k) as (k0 & Hk0 & E); [by apply filter_notna_spec|].
    exists k0. split; [done|].
    assert ((k0, group_sum c v k0) ∈ sort_values groups) as Hmem.
    { rewrite sort_perm. by apply Hgroups. }
    rewrite <- (take_drop 10 (sort_values groups)) in Hmem.
    apply elem_of_app in Hmem as [Hmem|Hmem]; [by left|right].
    split.
    + rewrite length_take. apply Nat.min_l.
      destruct (decide (10 <= length (sort_values groups))%nat) as [|Hlt];
        [done|].
      rewrite drop_ge in Hmem by lia. by apply elem_of_nil in Hmem.
    + intros k' t' Hk'.
      exact (sorted_split more_views 10 _ _ _ (sort_desc groups) Hk' Hmem).
Qed.

End TopCourses.

Lemma top_courses_by_views_witness :
  kpi_top_courses sort_by_views course_views = [(Str "b", 5%Q); (Str "a", 3%Q)] /\
  forall k t, (k, t) ∈ kpi_top_courses sort_by_views course_views ->
    k <> Null /\
    t = group_sum [Str "a"; Str "b"; Null; Str "a"] [Num 1; Num 5; Num 9; Num 2] k.
Proof.
  split; [vm_compute; reflexivity|]. intros k t Hkt.
  destruct (top_courses_by_views sort_by_views
              (merge_sort_Permutation more_views)
              (StronglySorted_merge_sort more_views)
              course_views _ _ eq_refl eq_refl) as (_ & _ & H & _).
  by destruct (H k t Hkt) as (_ & ? & ?).
Defined.

(** ** Canonical columns that the batch lacks *)

Lemma get_fold_required cs c f :
  mem c cs = false ->
  get c (fold_left (fun f c => if has c f then f else set_scalar c Null f) cs f)
  = get c f.
Proof.
  revert f. induction cs as [|x cs IH]; simpl; intros f; [done|].
  intros [Hx Hcs]%orb_false_iff. rewrite IH by done.
  destruct (has x f); [done|]. rewrite get_set_scalar.
  by rewrite String.eqb_sym, Hx.
Qed.

Lemma get_fold_required_missing cs c f :
  NoDup cs -> c ∈ cs -> has c f = false ->
  get c (fold_left (fun f c => if has c f then f else set_scalar c Null f) cs f)
  = Some (replicate (nrows f) Null).
Proof.
  intros Hnd. revert f. induction Hnd as [|x cs Hx Hnd IH]; intros f Hc Hf.
  - by apply elem_of_nil in Hc.
  - simpl. destruct (decide (c = x)) as [->|Hne].
    + rewrite Hf, get_fold_required by by apply mem_false.
      by rewrite get_set_scalar, String.eqb_refl.
    + apply elem_of_cons in Hc as [->|Hc]; [done|].
      destruct (has x f) eqn:E; [by apply IH|].
      rewrite IH; [done|done|].
      rewrite has_get, get_set_scalar.
      replace (String.eqb x c) with false;
        [by rewrite <- has_get|].
      symmetry. apply String.eqb_neq. congruence.
Qed.

Section UnifierMissing.
Context {lib : Pandas}.

Lemma to_numeric_nulls n : to_numeric (replicate n Null) = replicate n Null.
Proof. unfold to_numeric. induction n as [|n IH]; simpl; [done|]. by rewrite IH. Qed.

(** X24: a canonical column among [student_gender], [student_age],
    [course_name], [watch_time], [duration_sec] and [engagement] for which
    the batch has no column, under its own name or an alias, is created by
    the unifier and holds a null in every row. *)
Theorem unify_missing_columns (f : frame) (c : string) :
  c ∈ nullable_required ->
  has c (apply_mapping (strip_columns f)) = false ->
  get c (unify_frame f) = Some (replicate (nrows f) Null).
Proof.
  intros Hc Hmiss.
  assert (String.eqb "student_id" c = false /\
          String.eqb "source_file" c = false /\
          String.eqb "timestamp" c = false /\ c ∈ required) as (H1 & H2 & H3 & H4).
  { unfold nullable_required in Hc.
    repeat (apply elem_of_cons in Hc as [->|Hc];
            [repeat split; try reflexivity; by apply mem_true|]).
    by apply elem_of_nil in Hc. }
  assert (get c (add_required (apply_mapping (strip_columns f)))
          = Some (replicate (nrows f) Null)) as Hreq.
  { unfold add_required. rewrite get_fold_required_missing; try done.
    - unfold nrows. by rewrite index_apply_mapping.
    - apply NoDup_labels. vm_compute. reflexivity. }
  unfold unify_frame, mapped. rewrite get_reorder.
  rewrite get_ensure_student_id, get_add_source_file_ne by done.
  unfold unify_timestamp. rewrite get_on_column, H3.
  unfold unify_numeric. fold unified_numeric.
  destruct (mem c unified_numeric) eqn:E.
  - rewrite (get_fold_on_column_in to_numeric unified_numeric c).
    + by rewrite Hreq; simpl; rewrite to_numeric_nulls.
    + apply NoDup_labels. vm_compute. reflexivity.
    + by apply mem_true.
  - by rewrite (get_fold_on_column to_numeric unified_numeric c _ E).
Qed.

End UnifierMissing.

Lemma unify_missing_columns_witness :
  get "watch_time" (unify_frame people) = Some [Null; Null] /\
  get "course_name" (unify_frame people) = Some [Null; Null].
Proof.
  split.
  - apply (@unify_missing_columns Reference.lib people "watch_time");
      [apply mem_true|]; vm_compute; reflexivity.
  - apply (@unify_missing_columns Reference.lib people "course_name");
      [apply mem_true|]; vm_compute; reflexivity.
Defined.

(** ** Hour and weekday *)

Section TimeFeatures.
Context {lib : Pandas}.

Lemma get_finish_other c f :
  mem c capped_columns = false -> mem c numeric_fill_zero = false ->
  String.eqb "student_age" c = false -> String.eqb "student_gender" c = false ->
  get c (finish f) = get c f.
Proof.
  intros H1 H2 H3 H4. unfold finish, fill_gender.
  by rewrite get_fill_zero, get_on_column, H4, get_fill_student_age,
    get_cap_columns by done.
Qed.

(** X25: in the cleaned table [hour] and [weekday] are still those of the
    [timestamp] of the same row, although they are derived before
    duplicates are removed: a null where the timestamp is no time,
    otherwise an hour from 0 to 23 and a weekday from 0 to 6. *)
Theorem time_features_aligned (f f' : frame) :
  clean_frame f = Ok f' ->
  exists ts,
    get "timestamp" f' = Some ts /\
    get "hour" f' = Some (map dt_hour ts) /\
    get "weekday" f' = Some (map dt_weekday ts) /\
    Forall (fun c => c = Null \/
                     exists z, c = Num (inject_Z z) /\ 0 <= z < 24)
      (map dt_hour ts) /\
    Forall (fun c => c = Null \/
                     exists z, c = Num (inject_Z z) /\ 0 <= z < 7)
      (map dt_weekday ts).
Proof.
  intros (f1 & _ & ->)%clean_frame_inv.
  set (Y := is_engaged _).
  assert (is_Some (get "timestamp" Y)) as [ts0 Hts0].
  { unfold Y. rewrite get_is_engaged, get_engagement_rate, get_completion_rate,
      get_create_student_id by reflexivity. apply timestamp_parsed. }
  assert (get "timestamp" (timestamp_features Y) = Some ts0 /\
          get "hour" (timestamp_features Y) = Some (map dt_hour ts0) /\
          get "weekday" (timestamp_features Y) = Some (map dt_weekday ts0))
    as (H1 & H2 & H3).
  { rewrite get_timestamp_features by reflexivity.
    unfold timestamp_features. rewrite Hts0. cbv zeta. cbn [default from_option].
    rewrite get_set_ne by reflexivity. by rewrite !get_set_eq. }
  assert (exists ts,
            get "timestamp" (remove_duplicates (timestamp_features Y)) = Some ts /\
            get "hour" (remove_duplicates (timestamp_features Y))
            = Some (map dt_hour ts) /\
            get "weekday" (remove_duplicates (timestamp_features Y))
            = Some (map dt_weekday ts)) as (ts & G1 & G2 & G3).
  { destruct (remove_duplicates_mask (timestamp_features Y)) as [->|[m ->]];
      [by exists ts0|].
    exists (mask_list m ts0). rewrite !get_filter_rows, H1, H2, H3. simpl.
    by rewrite !mask_list_map. }
  exists ts. rewrite !get_finish_other by reflexivity.
  split; [done|]. split; [done|]. split; [done|].
  split; rewrite List.Forall_map; apply Forall_true; intros c;
    destruct c as [| | |t]; simpl; auto; right; eexists; (split; [reflexivity|]).
  - apply Z.mod_pos_bound. lia.
  - apply Z.mod_pos_bound. lia.
Qed.

End TimeFeatures.

Lemma time_features_aligned_witness :
  exists f' ts,
    clean_frame dup_nulls = Ok f' /\
    get "timestamp" f' = Some ts /\
    get "hour" f' = Some (map dt_hour ts).
Proof.
  assert (exists f', clean_frame dup_nulls = Ok f') as [f' Hf']
    by (vm_compute; eexists; reflexivity).
  destruct (@time_features_aligned Reference.lib dup_nulls f' Hf')
    as (ts & H1 & H2 & _).
  exists f', ts. split; [exact Hf'|]. split; [exact H1|exact H2].
Defined.

(** ** The unifier's entry point *)

Lemma uniq_elem (l : list string) c : c ∈ uniq l <-> c ∈ l.
Proof.
  induction l as [|x l IH]; simpl; [done|].
  rewrite !elem_of_cons, <- IH. split.
  - intros [->|H]; [by left|right].
    by apply list_elem_of_In, filter_In in H as [H%list_elem_of_In _].
  - intros [->|H]; [by left|].
    destruct (String.eqb x c) eqn:E.
    + apply String.eqb_eq in E as ->. by left.
    + right. apply list_elem_of_In, filter_In.
      split; [by apply list_elem_of_In|]. by rewrite E.
Qed.

Lemma get_labelled (g : string -> column) labels ix c :
  get c {| index := ix; cols := map (fun c => (c, g c)) labels |}
  = if mem c labels then Some (g c) else None.
Proof.
  unfold get, mem. simpl. induction labels as [|x l IH]; [done|]. simpl.
  rewrite (String.eqb_sym c x). destruct (String.eqb x c) eqn:E; [|done].
  by apply String.eqb_eq in E as ->.
Qed.

Lemma sum_list_app (l k : list nat) :
  sum_list (l ++ k) = (sum_list l + sum_list k)%nat.
Proof. induction l as [|x l IH]; simpl; [done|]. rewrite IH. lia. Qed.

Section MainFacts.
Context {lib : Pandas}.
Variable nested : frame -> bool.
Variable normalize : frame -> option frame.

Lemma shaped_unify_frame f : shaped f -> shaped (unify_frame f).
Proof.
  intros Hs. unfold unify_frame, reorder. apply shaped_select.
  pose proof (shaped_mapped f Hs) as Hm. unfold ensure_student_id.
  destruct (get "student_id" (mapped f)) as [s|]; [|done].
  destruct (Series.isna_all s); [|done].
  apply shaped_set; [done|apply apply_length].
Qed.

Lemma nrows_unify_frame f : nrows (unify_frame f) = nrows f.
Proof.
  unfold nrows, unify_frame.
  by rewrite index_reorder, index_ensure_student_id, index_mapped.
Qed.

Lemma concat_shaped fs : Forall shaped fs -> shaped (concat fs).
Proof.
  intros Hs. unfold shaped, concat, nrows. simpl. rewrite length_seq.
  apply Forall_forall. intros [c x] (c' & [= -> ->] & _)%list_elem_of_fmap.
  simpl. induction Hs as [|f fs Hf _ IH]; simpl; [done|].
  rewrite length_app, IH. f_equal.
  destruct (get c' f) as [s|] eqn:E; simpl.
  - by apply (shaped_get c' s f).
  - apply length_replicate.
Qed.

Lemma get_concat_first c f fs :
  is_Some (get c f) -> is_Some (get c (concat (f :: fs))).
Proof.
  intros H. unfold concat. rewrite get_labelled.
  assert (mem c (union_columns (f :: fs)) = true) as ->; [|by eexists].
  apply mem_true, uniq_elem. simpl. apply elem_of_app. left.
  apply mem_true. fold (has c f). rewrite has_get.
  by apply bool_decide_eq_true_2.
Qed.

(** X26: for batches whose labels are distinct once renamed, the entry
    point of the unifier stops with an error exactly when no batch is
    loaded (a YouTube table with an [items] column and no row labelled 0
    counts as not loaded).  Otherwise the table it writes has as many rows
    as the three counts it prints add up to, each count being the number
    of rows of the batches of that source, for YouTube the rows of the
    flattened [items] when the table is nested and can be flattened; its
    rows are numbered from 0, it is rectangular, and it has every
    canonical column and [source_file]. *)
Theorem unify_main_rows (kaggle : list frame) (simulated youtube : option frame) :
  Forall batch_ok kaggle -> from_option batch_ok True simulated ->
  from_option batch_ok True (youtube ≫= youtube_batch nested normalize) ->
  (unify_main nested normalize kaggle simulated youtube = None <->
   kaggle = [] /\ simulated = None /\
   youtube ≫= youtube_batch nested normalize = None) /\
  (forall final st,
     unify_main nested normalize kaggle simulated youtube = Some (final, st) ->
     kaggle_rows st = sum_list (map nrows kaggle) /\
     simulated_rows st = from_option nrows 0%nat simulated /\
     youtube_rows st
     = from_option nrows 0%nat (youtube ≫= youtube_batch nested normalize) /\
     nrows final = (kaggle_rows st + simulated_rows st + youtube_rows st)%nat /\
     index final = seq 0 (nrows final) /\
     Forall (fun c => is_Some (get c final)) (required ++ ["source_file"]) /\
     shaped final).
Proof.
  intros Hks Hss Hys. unfold unify_main.
  set (yb := youtube ≫= youtube_batch nested normalize) in *.
  set (ks := map unify_frame kaggle).
  set (s := unify_frame <$> simulated).
  set (y := unify_frame <$> yb).
  assert (sum_list (map nrows ks) = sum_list (map nrows kaggle)) as Hk.
  { unfold ks. rewrite map_map. f_equal. apply map_ext. intros f.
    apply nrows_unify_frame. }
  assert (from_option nrows 0%nat s = from_option nrows 0%nat simulated) as Hsim.
  { unfold s. destruct simulated; simpl; [apply nrows_unify_frame|done]. }
  assert (from_option nrows 0%nat y = from_option nrows 0%nat yb) as Hy.
  { unfold y. destruct yb; simpl; [apply nrows_unify_frame|done]. }
  assert (sum_list (map nrows (ks ++ option_list s ++ option_list y))
          = (sum_list (map nrows ks) + from_option nrows 0%nat s
             + from_option nrows 0%nat y)%nat) as Hsum.
  { rewrite !map_app, !sum_list_app.
    destruct s, y; simpl; lia. }
  split.
  - destruct (ks ++ option_list s ++ option_list y)%list as [|f fs] eqn:E.
    + split; [intros _|done].
      apply app_eq_nil in E as [Ek E]. apply app_eq_nil in E as [Es Ey].
      unfold ks in Ek. apply map_eq_nil in Ek.
      unfold s in Es. unfold y in Ey.
      destruct simulated; [done|]. by destruct yb.
    + split; [done|]. intros (-> & -> & Hyt). exfalso. revert E.
      unfold ks, s, y. rewrite Hyt. done.
  - intros final st.
    destruct (ks ++ option_list s ++ option_list y)%list as [|f fs] eqn:E;
      [done|].
    intros [= <- <-]. simpl. rewrite Hk, Hsim, Hy in *.
    assert (nrows (concat (f :: fs))
            = sum_list (map nrows (f :: fs))) as Hn.
    { unfold nrows at 1, concat. simpl. by rewrite length_seq. }
    repeat split; try done.
    + by rewrite Hn, Hsum.
    + rewrite Hn. done.
    + assert (exists g, f = unify_frame g) as [g ->].
      { unfold ks, s, y in E. destruct kaggle as [|g kaggle]; simpl in E.
        - destruct simulated as [g|]; simpl in E; [injection E as <- _; by eexists|].
          destruct yb as [g|]; simpl in E; [|done].
          injection E as <- _. by eexists.
        - injection E as <- _. by eexists. }
      apply Forall_forall. intros c Hc. apply get_concat_first.
      unfold unify_frame. rewrite get_reorder.
      pose proof (pre_has_canonical g c Hc) as H. rewrite has_get in H.
      by apply bool_decide_eq_true in H.
    + apply concat_shaped. rewrite <- E.
      apply Forall_app. split; [|apply Forall_app; split].
      * unfold ks. rewrite List.Forall_map.
        eapply Forall_impl; [exact Hks|]. intros g [Hg _].
        by apply shaped_unify_frame.
      * unfold s. destruct simulated as [g|]; simpl; [|done].
        constructor; [|done]. apply shaped_unify_frame, Hss.
      * unfold y. destruct yb as [g|]; simpl; [|done].
        constructor; [|done]. apply shaped_unify_frame, Hys.
Qed.

End MainFacts.

(** A nested table of one row is flattened to three videos, which are
    counted beside the two rows of a file. *)
Lemma unify_main_rows_witness :
  exists final st,
    unify_main (fun _ => true) (fun _ => Some api_items)
      [no_ids] None (Some api_response) = Some (final, st) /\
    kaggle_rows st = 2%nat /\ simulated_rows st = 0%nat /\
    youtube_rows st = 3%nat /\ nrows final = 5%nat.
Proof.
  assert (exists final st,
            unify_main (fun _ => true) (fun _ => Some api_items)
              [no_ids] None (Some api_response) = Some (final, st))
    as (final & st & Hmain) by (eexists _, _; vm_compute; reflexivity).
  assert (Forall batch_ok [no_ids]) as Hk
    by (constructor; [concrete_ok|constructor]).
  assert (from_option batch_ok True
            (Some api_response ≫=
               youtube_batch (fun _ => true) (fun _ => Some api_items))) as Hy
    by (simpl; concrete_ok).
  destruct (@unify_main_rows Reference.lib (fun _ => true)
              (fun _ => Some api_items) [no_ids] None (Some api_response)
              Hk I Hy) as (_ & Hrows).
  destruct (Hrows final st Hmain) as (H1 & H2 & H3 & H4 & _).
  exists final, st. split; [exact Hmain|].
  rewrite H4, H1, H2, H3. repeat split.
Defined.

(** * The table the cleaner returns

    The claims about gender, watch time and completion rate, stated for
    the table that a call of [clean_dataframe] returns. *)

Section Returned.
Context {lib : Pandas}.
Local Open Scope list_scope.

(** [clean_dataframe] returns a table that holds [f'] exactly when
    [clean_frame] gives [f']. *)
Lemma cleans_to_spec f f' : cleans_to f f' <-> clean_frame f = Ok f'.
Proof.
  split.
  - intros (h & l & l' & Hl & Hret & Hf').
    pose proof (list_lookup_total_correct _ _ _ Hl) as Hf.
    destruct (clean_dataframe_run h l) as (k & Hk & Hres).
    rewrite Hf in Hres. destruct (clean_frame f) as [f0|e].
    + destruct Hres as (k' & -> & Hfst). rewrite Hfst in Hret.
      injection Hret as <-. rewrite Hk, app_assoc in Hf'.
      rewrite list_lookup_middle in Hf' by done. by injection Hf' as ->.
    + congruence.
  - intros H. exists [f], 0%nat.
    destruct (clean_dataframe_run [f] 0%nat) as (k & Hk & Hres).
    change ([f] !!! 0%nat) with f in Hres. rewrite H in Hres.
    destruct Hres as (k' & -> & Hfst).
    exists (length ([f] ++ k')). split; [done|]. split; [done|].
    rewrite Hk, app_assoc. by apply list_lookup_middle.
Qed.

(** The table that is returned is the table without duplicates, capped
    and filled. *)
Lemma clean_frame_finish f f' :
  clean_frame f = Ok f' -> exists g, clean_until_dedup f = Ok g /\ f' = finish g.
Proof.
  intros (f1 & H1 & ->)%clean_frame_inv. eexists. split; [|reflexivity].
  unfold clean_until_dedup. by rewrite H1.
Qed.

Lemma index_normalize_gender f : index (normalize_gender f) = index f.
Proof. unfold normalize_gender. by destruct (get "student_gender" f). Qed.

Lemma index_fill_duration f f' : fill_duration f = Ok f' -> index f' = index f.
Proof.
  unfold fill_duration.
  destruct (get "duration" f) as [d|]; [|by intros [= <-]].
  destruct (Series.notna_any d); [|by intros [= <-]].
  destruct (rmapM duration_of_row (rows f)); simpl; [|done]. by intros [= <-].
Qed.

Lemma index_normalize_watch_time f : index (normalize_watch_time f) = index f.
Proof. unfold normalize_watch_time. by destruct (get "watch_time" f). Qed.

Lemma index_parse_timestamp f : index (parse_timestamp f) = index f.
Proof.
  unfold parse_timestamp.
  destruct (get "timestamp" f); [done|]. by destruct (get "published_at" f).
Qed.

Lemma index_create_student_id f : index (create_student_id f) = index f.
Proof. unfold create_student_id. by destruct (needs_student_id f). Qed.

Lemma index_completion_rate f : index (completion_rate f) = index f.
Proof.
  unfold completion_rate.
  destruct (get "watch_time_sec" _); [|done]. by destruct (get "duration_sec" _).
Qed.

Lemma index_engagement_rate f : index (engagement_rate f) = index f.
Proof.
  unfold engagement_rate.
  destruct (get "engagement" f); [|done]. by destruct (get "duration_sec" f).
Qed.

Lemma index_is_engaged f : index (is_engaged f) = index f.
Proof. unfold is_engaged. by destruct (get "participation" f). Qed.

(** The table before duplicates are removed has the rows of the input. *)
Lemma index_features f f1 :
  fill_duration (coerce_candidates (normalize_gender
    (strip_columns (drop_metadata f)))) = Ok f1 ->
  index (timestamp_features (is_engaged (engagement_rate (completion_rate
           (create_student_id (parse_timestamp (normalize_watch_time
             (duration_sec_numeric f1))))))))
  = index f.
Proof.
  intros H1.
  change (index (timestamp_features ?g)) with (index g).
  rewrite index_is_engaged, index_engagement_rate, index_completion_rate,
    index_create_student_id, index_parse_timestamp, index_normalize_watch_time.
  unfold duration_sec_numeric. rewrite index_on_column.
  rewrite (index_fill_duration _ _ H1). unfold coerce_candidates.
  rewrite index_fold_on_column, index_normalize_gender.
  unfold strip_columns. simpl. apply index_drop_metadata.
Qed.

(** C2, amended: at the unit resolution, with [w] the [watch_time] column
    as coerced to numbers, the step makes [watch_time_sec] the column
    [watch_time_sec_of w]: [w * 60] when the median of the non-null values
    of [w] is positive and below 100, and [w] itself when there is no
    median or it is outside that range.  In the table the cleaner returns,
    [watch_time] is [w] on the rows that are kept, and [watch_time_sec] is
    the step's column on those rows, capped to its 1st and 99th
    percentiles, with 0 for a null. *)
Theorem watch_time_units (f f' : frame) (w0 : column) :
  table_ok f -> cleans_to f f' ->
  get "watch_time" (strip_columns (drop_metadata f)) = Some w0 ->
  exists w keep,
    w = coerce_numeric_series w0 /\
    (forall m, Series.median w = Some m -> (0 < m)%Q -> (m < 100)%Q ->
       watch_time_sec_of w = Series.mul 60 w /\
       (forall i q, w !! i = Some (Num q) ->
          exists q', Series.mul 60 w !! i = Some (Num q') /\ (q' == q * 60)%Q) /\
       (forall i, w !! i = Some Null -> Series.mul 60 w !! i = Some Null)) /\
    ((Series.median w = None \/
      exists m, Series.median w = Some m /\ ((m <= 0)%Q \/ (100 <= m)%Q)) ->
     watch_time_sec_of w = w) /\
    (forall t, get "watch_time" t = Some w ->
       get "watch_time_sec" (normalize_watch_time t)
       = Some (watch_time_sec_of w)) /\
    index f' = mask_list keep (index f) /\
    get "watch_time" f' = Some (mask_list keep w) /\
    get "watch_time_sec" f'
    = Some (Series.fillna (Num 0)
              (cap_outliers_iqr (mask_list keep (watch_time_sec_of w))
                 lower_q upper_q)).
Proof.
  intros _ Hc%cleans_to_spec Hw0.
  apply clean_frame_inv in Hc as (f1 & H1 & ->).
  set (w := coerce_numeric_series w0).
  assert (get "watch_time" (duration_sec_numeric f1) = Some w) as Hw.
  { rewrite get_duration_sec_numeric by reflexivity.
    rewrite (get_fill_duration _ _ _ H1) by reflexivity.
    rewrite get_coerced by (apply mem_true; reflexivity).
    rewrite get_normalize_gender by reflexivity. by rewrite Hw0. }
  set (Y := normalize_watch_time (duration_sec_numeric f1)).
  assert (get "watch_time" Y = Some w /\
          get "watch_time_sec" Y = Some (watch_time_sec_of w)) as [HY1 HY2].
  { unfold Y, normalize_watch_time. rewrite Hw.
    split; [by rewrite get_set_ne|apply get_set_eq]. }
  pose proof (index_features f f1 H1) as Hix. fold Y in Hix.
  set (X := timestamp_features _) in *.
  assert (get "watch_time" X = Some w /\
          get "watch_time_sec" X = Some (watch_time_sec_of w)) as [HX1 HX2].
  { unfold X.
    by rewrite !get_timestamp_features, !get_is_engaged, !get_engagement_rate,
      !get_completion_rate, !get_create_student_id, !get_parse_timestamp
      by reflexivity. }
  assert (exists keep,
            index (remove_duplicates X) = mask_list keep (index f) /\
            get "watch_time" (remove_duplicates X) = Some (mask_list keep w) /\
            get "watch_time_sec" (remove_duplicates X)
            = Some (mask_list keep (watch_time_sec_of w)))
    as (keep & K1 & K2 & K3).
  { destruct (remove_duplicates_mask X) as [->|[m ->]].
    - exists (replicate (length (index f) + length w
                         + length (watch_time_sec_of w)) true).
      rewrite !mask_list_all by lia. by rewrite Hix.
    - exists m. by rewrite index_filter_rows, !get_filter_rows, HX1, HX2, Hix. }
  exists w, keep. split; [reflexivity|]. split; [|split].
  - intros m Hm H0 H100. unfold watch_time_sec_of.
    assert (median_is_minutes (Series.median w) = true) as ->.
    { apply median_is_minutes_spec. eauto. }
    split; [done|]. split.
    + intros i q Hi. rewrite mul_lookup, Hi. simpl. eexists. split; [done|].
      apply Qred_correct.
    + intros i Hi. by rewrite mul_lookup, Hi.
  - intros H. unfold watch_time_sec_of.
    destruct (median_is_minutes (Series.median w)) eqn:E; [|done].
    apply median_is_minutes_spec in E as (m & Hm & H0 & H100).
    destruct H as [H|(m' & Hm' & H)]; [congruence|].
    rewrite Hm in Hm'. injection Hm' as <-.
    destruct H as [H|H]; [by apply Qlt_not_le in H0|by apply Qlt_not_le in H100].
  - split.
    { intros t Ht. unfold normalize_watch_time. rewrite Ht. apply get_set_eq. }
    rewrite index_finish. split; [exact K1|].
    rewrite get_finish_other by reflexivity. split; [exact K2|].
    rewrite get_finish_capped by (apply mem_true; reflexivity).
    by rewrite K3.
Qed.

(** C8, amended: with [g] the table as it stands once duplicates are
    removed, before outliers are capped and nulls are filled, the
    [completion_rate] of a returned row is the quotient of that row's
    [watch_time_sec] by its [duration_sec] in [g]: a null when that
    duration is zero or null, never an infinity, and a null in every row
    when [g] lacks one of the two columns.  The rate is not derived again:
    the returned [watch_time_sec] and [duration_sec] are the columns of [g]
    capped and with 0 for a null, and the returned rate is the rate of
    [g]. *)
Theorem completion_rate_safe (f f' : frame) :
  table_ok f -> cleans_to f f' ->
  exists g r,
    clean_until_dedup f = Ok g /\ f' = finish g /\
    get "completion_rate" g = Some r /\
    get "completion_rate" f' = Some r /\
    Forall numeric r /\
    (forall w d,
       get "watch_time_sec" g = Some w -> get "duration_sec" g = Some d ->
       get "watch_time_sec" f'
       = Some (Series.fillna (Num 0) (cap_outliers_iqr w lower_q upper_q)) /\
       get "duration_sec" f'
       = Some (Series.fillna (Num 0) (cap_outliers_iqr d lower_q upper_q)) /\
       forall i x y, w !! i = Some x -> d !! i = Some y ->
       exists c,
         r !! i = Some c /\
         c = Series.replace_inf (Series.div_cell x y) /\
         (y = Null -> c = Null) /\
         (forall q, y = Num q -> (q == 0)%Q ->
            (forall r', Series.div_cell x y <> Finite r') /\ c = Null) /\
         (forall p q, x = Num p -> y = Num q -> ~ (q == 0)%Q ->
            exists r', c = Num r' /\ (r' == p / q)%Q)) /\
    (get "watch_time_sec" g = None \/ get "duration_sec" g = None ->
     Forall (fun c => c = Null) r).
Proof.
  intros _ Hc%cleans_to_spec.
  destruct (completion_rate_output f f' Hc) as (r0 & Hr0 & Hnum).
  pose proof Hc as (f1 & H1 & Hf')%clean_frame_inv.
  set (Y := create_student_id (parse_timestamp (normalize_watch_time
              (duration_sec_numeric f1)))) in Hf'.
  set (X := timestamp_features (is_engaged (engagement_rate (completion_rate Y))))
    in Hf'.
  assert (clean_until_dedup f = Ok (remove_duplicates X)) as Hg.
  { unfold clean_until_dedup. by rewrite H1. }
  destruct (completion_rate_rows Y) as (s & Hs & Hrows & Hmiss).
  assert (get "completion_rate" X = Some s) as HXr.
  { unfold X. by rewrite get_timestamp_features, get_is_engaged,
      get_engagement_rate by reflexivity. }
  assert (forall c, String.eqb "completion_rate" c = false ->
            String.eqb "engagement_rate" c = false ->
            String.eqb "is_engaged" c = false ->
            String.eqb "hour" c = false -> String.eqb "weekday" c = false ->
            get c X = get c Y) as HXY.
  { intros c E1 E2 E3 E4 E5. unfold X.
    by rewrite get_timestamp_features, get_is_engaged, get_engagement_rate,
      get_completion_rate. }
  pose proof (HXY "watch_time_sec" eq_refl eq_refl eq_refl eq_refl eq_refl) as HXw.
  pose proof (HXY "duration_sec" eq_refl eq_refl eq_refl eq_refl eq_refl) as HXd.
  clear HXY.
  exists (remove_duplicates X).
  assert (exists r,
            get "completion_rate" (remove_duplicates X) = Some r /\
            (forall w d,
               get "watch_time_sec" (remove_duplicates X) = Some w ->
               get "duration_sec" (remove_duplicates X) = Some d ->
               forall i x y, w !! i = Some x -> d !! i = Some y ->
               exists c,
                 r !! i = Some c /\
                 c = Series.replace_inf (Series.div_cell x y) /\
                 (y = Null -> c = Null) /\
                 (forall q, y = Num q -> (q == 0)%Q ->
                    (forall r', Series.div_cell x y <> Finite r') /\ c = Null) /\
                 (forall p q, x = Num p -> y = Num q -> ~ (q == 0)%Q ->
                    exists r', c = Num r' /\ (r' == p / q)%Q)) /\
            (get "watch_time_sec" (remove_duplicates X) = None \/
             get "duration_sec" (remove_duplicates X) = None ->
             Forall (fun c => c = Null) r)) as (r & Hr & Hq & Hnull).
  { assert (get "watch_time_sec" Y = None \/ get "duration_sec" Y = None ->
            Forall (fun c => c = Null) s) as Hmiss'.
    { intros H. rewrite (Hmiss H). apply Forall_forall.
      by intros c ->%elem_of_replicate_inv. }
    destruct (remove_duplicates_mask X) as [->|[m ->]].
    - exists s. split; [exact HXr|]. rewrite HXw, HXd. split; [exact Hrows|].
      exact Hmiss'.
    - exists (mask_list m s). rewrite !get_filter_rows, HXr, HXw, HXd.
      split; [reflexivity|]. split.
      + intros w d Hw Hd i x y Hx Hy.
        destruct (get "watch_time_sec" Y) as [wY|] eqn:EwY; [|discriminate Hw].
        destruct (get "duration_sec" Y) as [dY|] eqn:EdY; [|discriminate Hd].
        simpl in Hw, Hd. injection Hw as <-. injection Hd as <-.
        rewrite mask_list_lookup in Hx, Hy. rewrite mask_list_lookup.
        destruct (nth_true m i) as [p|]; [|discriminate Hx].
        simpl in Hx, Hy. simpl.
        exact (Hrows wY dY eq_refl eq_refl p x y Hx Hy).
      + intros H. apply mask_list_Forall, Hmiss'.
        destruct H as [H|H]; [left|right].
        * by destruct (get "watch_time_sec" Y).
        * by destruct (get "duration_sec" Y). }
  exists r. split; [exact Hg|]. split; [exact Hf'|]. split; [exact Hr|].
  assert (get "completion_rate" f' = Some r) as Hr'.
  { rewrite Hf', get_finish_other by reflexivity. exact Hr. }
  split; [exact Hr'|]. split.
  { rewrite Hr' in Hr0. by injection Hr0 as ->. }
  split; [|exact Hnull].
  intros w d Hw Hd. rewrite Hf'.
  rewrite !get_finish_capped by (apply mem_true; reflexivity).
  rewrite Hw, Hd. split; [reflexivity|]. split; [reflexivity|].
  by apply Hq.
Qed.

(** C7: after gender normalization every [student_gender] is female, male
    or unknown, in the step's result and in every table the cleaner
    returns; ["F"], ["Homme"] and ["1"] become female, male and unknown,
    and a value whose trimmed lower-case text is not in the alias table
    becomes unknown. *)
Theorem gender_normalized :
  (forall f, exists s,
     get "student_gender" (normalize_gender f) = Some s /\ Forall is_gender s) /\
  (forall f f', table_ok f -> cleans_to f f' ->
     exists s, get "student_gender" f' = Some s /\ Forall is_gender s) /\
  normalize_gender_series [Str "F"; Str "Homme"; Str "1"]
  = [Str "female"; Str "male"; Str "unknown"] /\
  (forall c,
     assoc (Text.strip (Text.lower (str_of_cell c))) gender_mapping = None ->
     normalize_gender_series [c] = [Str "unknown"]).
Proof.
  split; [apply normalize_gender_get|]. split; [|split].
  - intros f f' _ (g & Hg & ->)%cleans_to_spec%clean_frame_finish.
    destruct (gender_until_dedup f g Hg) as (s & Hs & Hok).
    exact (gender_finish g s Hs Hok).
  - unfold normalize_gender_series. cbn [map]. by rewrite !str_of_cell_Str.
  - apply normalize_gender_unknown.
Qed.

End Returned.

(** C2, counterexample: watch times of 30, 45 and 60 minutes have the
    median 45, and the cleaner returns 1818, 2700 and 3582 seconds for
    them: the column is capped after it is multiplied. *)
Lemma watch_time_not_times_60 : ~ @watch_time_times_60 Reference.lib.
Proof.
  intros H.
  assert (exists f',
            clean_frame minutes_table = Ok f' /\
            get "watch_time" f' = Some [Num 30; Num 45; Num 60] /\
            get "watch_time_sec" f' = Some [Num 1818; Num 2700; Num 3582])
    as (f' & Hf' & Hw & Hs).
  { eexists. split; [vm_compute; reflexivity|]. split; vm_compute; reflexivity. }
  apply cleans_to_spec in Hf'.
  assert (table_ok minutes_table) as Hok by concrete_ok.
  assert (Series.median [Num 30; Num 45; Num 60] = Some 45%Q) as Hm
    by (vm_compute; reflexivity).
  destruct (H minutes_table f' [Num 30; Num 45; Num 60] _ _ 45%Q 0%nat 30%Q
              Hok eq_refl Hm eq_refl eq_refl Hf' Hw Hs eq_refl)
    as (q' & Hq' & Hq).
  injection Hq' as <-. vm_compute in Hq. discriminate Hq.
Qed.

Lemma watch_time_units_witness :
  exists f' keep,
    cleans_to minutes_table f' /\
    index f' = mask_list keep [0; 1; 2]%nat /\
    get "watch_time_sec" f'
    = Some (Series.fillna (Num 0)
              (cap_outliers_iqr
                 (mask_list keep (Series.mul 60 [Num 30; Num 45; Num 60]))
                 lower_q upper_q)) /\
    get "watch_time_sec" f' = Some [Num 1818; Num 2700; Num 3582].
Proof.
  assert (exists f',
            clean_frame minutes_table = Ok f' /\
            get "watch_time_sec" f' = Some [Num 1818; Num 2700; Num 3582])
    as (f' & Hf' & Hs) by (eexists; split; vm_compute; reflexivity).
  apply cleans_to_spec in Hf'.
  assert (table_ok minutes_table) as Hok by concrete_ok.
  destruct (@watch_time_units Reference.lib minutes_table f'
              [Num 30; Num 45; Num 60] Hok Hf' eq_refl)
    as (w & keep & Hw & Hmin & _ & _ & Hix & _ & Hsec).
  assert (w = [Num 30; Num 45; Num 60]) as -> by (rewrite Hw; vm_compute; reflexivity).
  destruct (Hmin 45%Q) as (Hu & _);
    [vm_compute; reflexivity|reflexivity|reflexivity|].
  rewrite Hu in Hsec.
  exists f', keep. split; [exact Hf'|]. split; [exact Hix|].
  split; [exact Hsec|exact Hs].
Defined.

(** C8, counterexample: watch times 10 and 5 with durations 0 and 2 give
    the rates null and 5/2; the table that is returned holds the watch
    time 5.05 and the duration 1.98 in the second row, whose quotient is
    not 5/2. *)
Lemma rate_not_of_returned_columns : ~ @rate_of_returned_columns Reference.lib.
Proof.
  intros H.
  assert (exists f',
            clean_frame rates_table = Ok f' /\
            get "watch_time_sec" f' = Some [Num (199 # 20); Num (101 # 20)] /\
            get "duration_sec" f' = Some [Num (1 # 50); Num (99 # 50)] /\
            get "completion_rate" f' = Some [Null; Num (5 # 2)])
    as (f' & Hf' & Hw & Hd & Hr).
  { eexists. split; [vm_compute; reflexivity|].
    split; [vm_compute; reflexivity|]. split; vm_compute; reflexivity. }
  apply cleans_to_spec in Hf'.
  assert (table_ok rates_table) as Hok by concrete_ok.
  assert (~ (99 # 50 == 0)%Q) as Hnz by (intros E; vm_compute in E; discriminate E).
  destruct (H rates_table f' _ _ _ 1%nat (101 # 20)%Q (99 # 50)%Q
              Hok Hf' Hw Hd Hr eq_refl eq_refl Hnz) as (c & Hc & Hq).
  injection Hc as <-. vm_compute in Hq. discriminate Hq.
Qed.

Lemma completion_rate_safe_witness :
  exists f' r,
    cleans_to rates_table f' /\
    get "completion_rate" f' = Some r /\
    r !! 0%nat = Some Null /\
    (exists q, r !! 1%nat = Some (Num q) /\ (q == 5 / 2)%Q) /\
    get "watch_time_sec" f' = Some [Num (199 # 20); Num (101 # 20)] /\
    get "duration_sec" f' = Some [Num (1 # 50); Num (99 # 50)].
Proof.
  assert (exists f',
            clean_frame rates_table = Ok f' /\
            get "watch_time_sec" f' = Some [Num (199 # 20); Num (101 # 20)] /\
            get "duration_sec" f' = Some [Num (1 # 50); Num (99 # 50)])
    as (f' & Hf' & Hws & Hds).
  { eexists. split; [vm_compute; reflexivity|]. split; vm_compute; reflexivity. }
  assert (exists g0,
            clean_until_dedup rates_table = Ok g0 /\
            get "watch_time_sec" g0 = Some [Num 10; Num 5] /\
            get "duration_sec" g0 = Some [Num 0; Num 2])
    as (g0 & Hg0 & Hw & Hd).
  { eexists. split; [vm_compute; reflexivity|]. split; vm_compute; reflexivity. }
  apply cleans_to_spec in Hf'.
  assert (table_ok rates_table) as Hok by concrete_ok.
  destruct (@completion_rate_safe Reference.lib rates_table f' Hok Hf')
    as (g & r & Hg & _ & _ & Hr & _ & Hrows & _).
  rewrite Hg0 in Hg. injection Hg as <-.
  destruct (Hrows _ _ Hw Hd) as (_ & _ & Hq).
  exists f', r. split; [exact Hf'|]. split; [exact Hr|].
  split; [|split; [|split; [exact Hws|exact Hds]]].
  - destruct (Hq 0%nat (Num 10) (Num 0) eq_refl eq_refl)
      as (c & Hc & _ & _ & Hz & _).
    rewrite Hc. f_equal. apply (Hz 0%Q eq_refl). reflexivity.
  - destruct (Hq 1%nat (Num 5) (Num 2) eq_refl eq_refl)
      as (c & Hc & _ & _ & _ & Hn).
    assert (~ (2 == 0)%Q) as Hnz by (intros E; vm_compute in E; discriminate E).
    destruct (Hn 5%Q 2%Q eq_refl eq_refl Hnz) as (q & -> & Hqq).
    exists q. split; [exact Hc|exact Hqq].
Defined.

Lemma gender_normalized_witness :
  (exists f' s,
     cleans_to gender_rows f' /\
     get "student_gender" f' = Some s /\ Forall is_gender s) /\
  normalize_gender_series [Str "x"] = [Str "unknown"].
Proof.
  destruct (@gender_normalized Reference.lib) as (_ & Hclean & _ & Hunknown).
  split.
  - assert (exists f', clean_frame gender_rows = Ok f') as [f' Hf']
      by (eexists; vm_compute; reflexivity).
    apply cleans_to_spec in Hf'.
    assert (table_ok gender_rows) as Hok by concrete_ok.
    destruct (Hclean gender_rows f' Hok Hf') as (s & Hs & Hg).
    by exists f', s.
  - by apply Hunknown.
Defined.
